(** * Business rule and workflow engine of the facilities-management service

    A shallow embedding of [services/business_logic_processor.py]: the rule
    catalogue with its condition evaluation ([evaluate_business_rule],
    [_evaluate_condition], [_execute_rule_action] and the action handlers),
    the two rule batches ([process_inventory_business_rules],
    [process_compliance_business_rules]) and the workflow executor
    ([execute_workflow], [_execute_workflow_task]).

    The processor object is a record threaded through a state-and-exception
    monad; Python's [try]/[except Exception] blocks are [try_except].  What
    the interpreter supplies (the parser behind [eval], the built-in
    functions, [str], the clock, [uuid4], date formatting) is gathered in a
    [PyRuntime] record that every definition takes as a parameter. *)

From Stdlib Require Import ZArith QArith String Ascii Lia.
From stdpp Require Import base option list gmap strings pretty sorting.

Set Warnings "-register-all".

Local Open Scope string_scope.
Local Open Scope list_scope.
Local Open Scope Z_scope.

(** ** Python values *)

(** A naive [datetime]: the proleptic Gregorian ordinal of its date (what
    [toordinal()] returns) and the microsecond of the day. *)
Record datetime := { dt_ordinal : Z; dt_micros : Z }.

(** [date.weekday()]: Monday is 0 and Sunday is 6. *)
Definition weekday (d : datetime) : Z := (dt_ordinal d + 6) mod 7.

Definition micros_per_day : Z := 86400000000.

(** [(d1 - d2).days]: a [timedelta] is normalised so that its seconds and
    microseconds are non-negative, hence the floor division. *)
Definition timedelta_days (d1 d2 : datetime) : Z :=
  ((dt_ordinal d1 - dt_ordinal d2) * micros_per_day + (dt_micros d1 - dt_micros d2))
    / micros_per_day.

(** The names bound to the interpreter's own functions in [safe_globals]. *)
Inductive builtin := Blen | Bstr | Bint | Bfloat | Bbool | Bmin | Bmax | Babs | Bround.

(** Callables reachable from a condition: the built-ins above and the four
    lambdas [_evaluate_condition] adds. *)
Inductive pyfun :=
| Builtin (b : builtin)
| Lis_weekend
| Ldays_between
| Lis_supervisor
| Lis_high_value.

(** Scalars and containers a context can hold.  A [float] is represented by
    the rational it denotes (no NaN, no infinities); a [dict] has string
    keys and keeps insertion order. *)
Inductive value :=
| VNone
| VBool (b : bool)
| VInt (n : Z)
| VFloat (q : Q)
| VStr (s : string)
| VDate (d : datetime)
| VList (items : list value)
| VDict (entries : list (string * value))
| VFun (f : pyfun).

(** Exceptions: the class name and [str(e)]. *)
Record exn := { exc_type : string; exc_msg : string }.

Definition NameError (x : string) : exn :=
  {| exc_type := "NameError"; exc_msg := "name '" +:+ x +:+ "' is not defined" |}.
Definition TypeError (msg : string) : exn :=
  {| exc_type := "TypeError"; exc_msg := msg |}.
Definition AttributeError (msg : string) : exn :=
  {| exc_type := "AttributeError"; exc_msg := msg |}.
Definition ValueError (msg : string) : exn :=
  {| exc_type := "ValueError"; exc_msg := msg |}.
Definition SyntaxError (msg : string) : exn :=
  {| exc_type := "SyntaxError"; exc_msg := msg |}.

Inductive res (A : Type) :=
| Ok (a : A)
| Raise (e : exn).
Arguments Ok {A} a.
Arguments Raise {A} e.

(** [bool(v)] *)
Definition truthy (v : value) : bool :=
  match v with
  | VNone => false
  | VBool b => b
  | VInt n => negb (n =? 0)
  | VFloat q => negb (Qeq_bool q 0)
  | VStr s => negb (String.eqb s "")
  | VDate _ => true
  | VList l => match l with [] => false | _ => true end
  | VDict l => match l with [] => false | _ => true end
  | VFun _ => true
  end.

(** The numeric tower: [bool] is a subclass of [int], and comparisons between
    [int] and [float] are exact. *)
Definition num_of (v : value) : option Q :=
  match v with
  | VBool b => Some (inject_Z (if b then 1 else 0))
  | VInt n => Some (inject_Z n)
  | VFloat q => Some q
  | _ => None
  end.

Definition pyfun_eqb (f g : pyfun) : bool :=
  match f, g with
  | Builtin a, Builtin b =>
      match a, b with
      | Blen, Blen | Bstr, Bstr | Bint, Bint | Bfloat, Bfloat | Bbool, Bbool
      | Bmin, Bmin | Bmax, Bmax | Babs, Babs | Bround, Bround => true
      | _, _ => false
      end
  | Lis_weekend, Lis_weekend | Ldays_between, Ldays_between
  | Lis_supervisor, Lis_supervisor | Lis_high_value, Lis_high_value => true
  | _, _ => false
  end.

Definition datetime_eqb (a b : datetime) : bool :=
  (dt_ordinal a =? dt_ordinal b) && (dt_micros a =? dt_micros b).

Definition datetime_ltb (a b : datetime) : bool :=
  (dt_ordinal a <? dt_ordinal b)
  || ((dt_ordinal a =? dt_ordinal b) && (dt_micros a <? dt_micros b)).

Fixpoint assoc_get {A : Type} (k : string) (l : list (string * A)) : option A :=
  match l with
  | [] => None
  | (k', v) :: l' => if String.eqb k k' then Some v else assoc_get k l'
  end.

(** [a == b]; on the values above it never raises. *)
Fixpoint py_eq (a b : value) : bool :=
  match a, b with
  | VNone, VNone => true
  | VStr s, VStr t => String.eqb s t
  | VDate d, VDate e => datetime_eqb d e
  | VFun f, VFun g => pyfun_eqb f g
  | VList l, VList m =>
      (fix go (l m : list value) : bool :=
         match l, m with
         | [], [] => true
         | x :: l', y :: m' => py_eq x y && go l' m'
         | _, _ => false
         end) l m
  | VDict l, VDict m =>
      (length l =? length m)%nat
      && (fix go (l : list (string * value)) : bool :=
            match l with
            | [] => true
            | (k, v) :: l' =>
                match assoc_get k m with
                | Some w => py_eq v w && go l'
                | None => false
                end
            end) l
  | _, _ =>
      match num_of a, num_of b with
      | Some p, Some q => Qeq_bool p q
      | _, _ => false
      end
  end.

(** The four ordering operators. *)
Inductive ordop := OLt | OLe | OGt | OGe.

Definition ord_Q (op : ordop) (p q : Q) : bool :=
  match op with
  | OLt => negb (Qle_bool q p)
  | OLe => Qle_bool p q
  | OGt => negb (Qle_bool p q)
  | OGe => Qle_bool q p
  end.

Definition ord_of_compare (op : ordop) (c : comparison) : bool :=
  match op, c with
  | OLt, Lt | OLe, Lt | OLe, Eq | OGt, Gt | OGe, Gt | OGe, Eq => true
  | _, _ => false
  end.

Definition datetime_compare (a b : datetime) : comparison :=
  if datetime_eqb a b then Eq else if datetime_ltb a b then Lt else Gt.

Definition ord_symbol (op : ordop) : string :=
  match op with OLt => "<" | OLe => "<=" | OGt => ">" | OGe => ">=" end.

Definition not_supported (op : ordop) : exn :=
  TypeError ("'" +:+ ord_symbol op +:+ "' not supported between these instances").

(** [a op b] for an ordering operator.  Lists compare lexicographically: the
    first pair of elements that are not [==] decides, with the same
    operator; when one list is a prefix of the other the lengths decide. *)
Fixpoint py_order (op : ordop) (a b : value) : res bool :=
  match a, b with
  | VStr s, VStr t => Ok (ord_of_compare op (String.compare s t))
  | VDate d, VDate e => Ok (ord_of_compare op (datetime_compare d e))
  | VList l, VList m =>
      (fix go (l m : list value) : res bool :=
         match l, m with
         | x :: l', y :: m' => if py_eq x y then go l' m' else py_order op x y
         | [], [] => Ok (ord_of_compare op Eq)
         | [], _ :: _ => Ok (ord_of_compare op Lt)
         | _ :: _, [] => Ok (ord_of_compare op Gt)
         end) l m
  | _, _ =>
      match num_of a, num_of b with
      | Some p, Some q => Ok (ord_Q op p q)
      | _, _ => Raise (not_supported op)
      end
  end.

(** [needle in haystack] on strings: substring search. *)
Fixpoint is_prefix (p s : string) : bool :=
  match p, s with
  | EmptyString, _ => true
  | String a p', String b s' => Ascii.eqb a b && is_prefix p' s'
  | String _ _, EmptyString => false
  end.

Fixpoint is_substring (p s : string) : bool :=
  is_prefix p s
  || match s with
     | EmptyString => false
     | String _ s' => is_substring p s'
     end.

(** [hash(v)] fails on lists and dicts. *)
Definition hashable (v : value) : bool :=
  match v with
  | VList _ | VDict _ => false
  | _ => true
  end.

(** [a in b] *)
Definition py_contains (a b : value) : res bool :=
  match b with
  | VStr s =>
      match a with
      | VStr p => Ok (is_substring p s)
      | _ => Raise (TypeError "'in <string>' requires string as left operand")
      end
  | VList l => Ok (existsb (py_eq a) l)
  | VDict l =>
      if hashable a
      then Ok (match a with
               | VStr k => match assoc_get k l with Some _ => true | None => false end
               | _ => false
               end)
      else Raise (TypeError "unhashable type")
  | _ => Raise (TypeError "argument is not iterable")
  end.

(** ** Conditions *)

Inductive cmpop := CEq | CNotEq | CLt | CLtE | CGt | CGtE | CIn | CNotIn.

(** The expressions of a condition: constants, names, [not], [and], [or],
    a comparison, a call and a list display. *)
Inductive expr :=
| EConst (v : value)
| EName (x : string)
| ENot (e : expr)
| EAnd (a b : expr)
| EOr (a b : expr)
| ECompare (op : cmpop) (a b : expr)
| ECall (f : expr) (args : list expr)
| EList (items : list expr).

Definition py_compare (op : cmpop) (a b : value) : res bool :=
  match op with
  | CEq => Ok (py_eq a b)
  | CNotEq => Ok (negb (py_eq a b))
  | CLt => py_order OLt a b
  | CLtE => py_order OLe a b
  | CGt => py_order OGt a b
  | CGtE => py_order OGe a b
  | CIn => py_contains a b
  | CNotIn => match py_contains a b with Ok r => Ok (negb r) | Raise e => Raise e end
  end.

(** ** Data classes and enumerations *)

Inductive WorkflowStatus := PENDING | IN_PROGRESS | COMPLETED | FAILED | CANCELLED | ON_HOLD.

Inductive Priority := CRITICAL | HIGH | MEDIUM | LOW.

Inductive BusinessRuleType := VALIDATION | APPROVAL | NOTIFICATION | AUTOMATION | ESCALATION.

(** [rule_type.value] *)
Definition BusinessRuleType_value (t : BusinessRuleType) : string :=
  match t with
  | VALIDATION => "validation"
  | APPROVAL => "approval"
  | NOTIFICATION => "notification"
  | AUTOMATION => "automation"
  | ESCALATION => "escalation"
  end.

Definition WorkflowStatus_value (st : WorkflowStatus) : string :=
  match st with
  | PENDING => "pending"
  | IN_PROGRESS => "in_progress"
  | COMPLETED => "completed"
  | FAILED => "failed"
  | CANCELLED => "cancelled"
  | ON_HOLD => "on_hold"
  end.

(** A context: [Dict[str, Any]]. *)
Abbreviation EvalContext := (gmap string value).

Record BusinessRule := {
  rule_id : string;
  rule_name : string;
  rule_type : BusinessRuleType;
  description : string;
  condition : string;
  action : string;
  rule_priority : Priority;
  enabled : bool;
  rule_created_date : datetime;
  last_executed : option datetime;
  execution_count : Z
}.

Record WorkflowTask := {
  task_id : string;
  workflow_id : string;
  task_name : string;
  task_type : string;
  assignee : string;
  status : WorkflowStatus;
  task_priority : Priority;
  due_date : option datetime;
  task_created_date : datetime;
  completed_date : option datetime;
  dependencies : list string;
  metadata : list (string * value)
}.

Record ApprovalRequest := {
  request_id : string;
  request_type : string;
  requester : value;
  approver : value;
  item_details : value;
  justification : value;
  request_priority : Priority;
  request_status : string;
  request_created_date : datetime;
  approved_date : option datetime;
  comments : string
}.

(** The dictionary [evaluate_business_rule] returns; a key that a return
    path does not set is [None]. *)
Record EvaluationResult := {
  er_rule_id : string;
  er_rule_name : option string;
  er_rule_type : option string;
  er_evaluated : bool;
  er_reason : option string;
  er_condition_met : option bool;
  er_actions_triggered : option (list string);
  er_evaluation_time : option string;
  er_context : option EvalContext;
  er_error : option string
}.

(** The dictionary [_execute_workflow_task] returns. *)
Record TaskResult := {
  tr_task_id : string;
  tr_task_name : option string;
  tr_task_type : option string;
  tr_status : string;
  tr_start_time : option string;
  tr_result : option string;
  tr_end_time : option string;
  tr_error : option string;
  tr_timestamp : option string
}.

(** The dictionary [execute_workflow] returns. *)
Record ExecutionResult := {
  xr_workflow_id : string;
  xr_start_time : option string;
  xr_status : string;
  xr_tasks_executed : list TaskResult;
  xr_tasks_pending : list TaskResult;
  xr_tasks_failed : list TaskResult;
  xr_context : option EvalContext;
  xr_end_time : option string;
  xr_error : option string;
  xr_timestamp : option string
}.

(** The entries of [_load_derivco_business_config] that the engine reads. *)
Record BusinessConfig := {
  equipment_value : Q;
  auto_reorder_enabled : bool;
  approval_required_categories : list string;
  derivco_supervisors : list string
}.

Definition _load_derivco_business_config : BusinessConfig :=
  {| equipment_value := 1000;
     auto_reorder_enabled := true;
     approval_required_categories := ["Safety"; "Access Control"];
     derivco_supervisors := ["Erasmus Ngwane"; "Brindley Harrington"] |}.

(** ** Collaborators *)

Module StockLevel.
Inductive t := CRITICAL | LOW | ADEQUATE | HIGH | OVERSTOCKED.
End StockLevel.

(** [InventoryItem] of the inventory service, with the fields the batch reads. *)
Record InventoryItem := {
  item_code : string;
  item_name : string;
  category : string;
  quantity : Z;
  unit_price : Q;
  total_value : Q;
  supplier : string;
  reorder_level : Z
}.

Definition stock_level_category (item : InventoryItem) : StockLevel.t :=
  if quantity item <=? 5 then StockLevel.CRITICAL
  else if quantity item <=? 15 then StockLevel.LOW
  else if quantity item <=? 50 then StockLevel.ADEQUATE
  else if quantity item <=? 100 then StockLevel.HIGH
  else StockLevel.OVERSTOCKED.

(** The inventory manager as the batch sees it: [items.values()], in
    insertion order. *)
Record InventoryManager := { items : list InventoryItem }.

Definition get_low_stock_items (m : InventoryManager) : list InventoryItem :=
  List.filter (fun item => quantity item <=? 15) (items m).

Definition get_critical_stock_items (m : InventoryManager) : list InventoryItem :=
  List.filter
    (fun item =>
       match stock_level_category item with StockLevel.CRITICAL => true | _ => false end)
    (items m).

(** A [ComplianceMetric] of the analytics engine: its percentage and
    [risk_level.value]. *)
Record ComplianceMetric := {
  compliance_percentage : Q;
  risk_level : string
}.

(** What [generate_compliance_analysis()] hands to the batch: the two
    metrics it looks up and the overall risk level, each possibly missing. *)
Record AnalyticsEngine := {
  work_order_metric : option ComplianceMetric;
  tool_return_metric : option ComplianceMetric;
  overall_risk_level : option string
}.

(** ** The processor *)

(** The attributes of a [BusinessLogicProcessor], and two counters of the
    process it runs in: how many times the processor has called
    [datetime.now()] and [uuid.uuid4()] so far.  [workflow_tasks] holds the
    values of the dictionary in insertion order. *)
Record State := {
  inventory_manager : option InventoryManager;
  analytics_engine : option AnalyticsEngine;
  business_rules : gmap string BusinessRule;
  workflow_tasks : list WorkflowTask;
  approval_requests : gmap string ApprovalRequest;
  rule_execution_history : list EvaluationResult;
  workflow_history : list ExecutionResult;
  derivco_business_config : BusinessConfig;
  clock_reads : nat;
  uuid_draws : nat
}.

Definition set_business_rules (f : gmap string BusinessRule -> gmap string BusinessRule)
    (s : State) : State :=
  {| inventory_manager := inventory_manager s;
     analytics_engine := analytics_engine s;
     business_rules := f (business_rules s);
     workflow_tasks := workflow_tasks s;
     approval_requests := approval_requests s;
     rule_execution_history := rule_execution_history s;
     workflow_history := workflow_history s;
     derivco_business_config := derivco_business_config s;
     clock_reads := clock_reads s;
     uuid_draws := uuid_draws s |}.

Definition set_workflow_tasks (f : list WorkflowTask -> list WorkflowTask)
    (s : State) : State :=
  {| inventory_manager := inventory_manager s;
     analytics_engine := analytics_engine s;
     business_rules := business_rules s;
     workflow_tasks := f (workflow_tasks s);
     approval_requests := approval_requests s;
     rule_execution_history := rule_execution_history s;
     workflow_history := workflow_history s;
     derivco_business_config := derivco_business_config s;
     clock_reads := clock_reads s;
     uuid_draws := uuid_draws s |}.

Definition set_approval_requests
    (f : gmap string ApprovalRequest -> gmap string ApprovalRequest) (s : State) : State :=
  {| inventory_manager := inventory_manager s;
     analytics_engine := analytics_engine s;
     business_rules := business_rules s;
     workflow_tasks := workflow_tasks s;
     approval_requests := f (approval_requests s);
     rule_execution_history := rule_execution_history s;
     workflow_history := workflow_history s;
     derivco_business_config := derivco_business_config s;
     clock_reads := clock_reads s;
     uuid_draws := uuid_draws s |}.

Definition set_rule_execution_history
    (f : list EvaluationResult -> list EvaluationResult) (s : State) : State :=
  {| inventory_manager := inventory_manager s;
     analytics_engine := analytics_engine s;
     business_rules := business_rules s;
     workflow_tasks := workflow_tasks s;
     approval_requests := approval_requests s;
     rule_execution_history := f (rule_execution_history s);
     workflow_history := workflow_history s;
     derivco_business_config := derivco_business_config s;
     clock_reads := clock_reads s;
     uuid_draws := uuid_draws s |}.

Definition set_workflow_history
    (f : list ExecutionResult -> list ExecutionResult) (s : State) : State :=
  {| inventory_manager := inventory_manager s;
     analytics_engine := analytics_engine s;
     business_rules := business_rules s;
     workflow_tasks := workflow_tasks s;
     approval_requests := approval_requests s;
     rule_execution_history := rule_execution_history s;
     workflow_history := f (workflow_history s);
     derivco_business_config := derivco_business_config s;
     clock_reads := clock_reads s;
     uuid_draws := uuid_draws s |}.

Definition set_clock_reads (f : nat -> nat) (s : State) : State :=
  {| inventory_manager := inventory_manager s;
     analytics_engine := analytics_engine s;
     business_rules := business_rules s;
     workflow_tasks := workflow_tasks s;
     approval_requests := approval_requests s;
     rule_execution_history := rule_execution_history s;
     workflow_history := workflow_history s;
     derivco_business_config := derivco_business_config s;
     clock_reads := f (clock_reads s);
     uuid_draws := uuid_draws s |}.

Definition set_uuid_draws (f : nat -> nat) (s : State) : State :=
  {| inventory_manager := inventory_manager s;
     analytics_engine := analytics_engine s;
     business_rules := business_rules s;
     workflow_tasks := workflow_tasks s;
     approval_requests := approval_requests s;
     rule_execution_history := rule_execution_history s;
     workflow_history := workflow_history s;
     derivco_business_config := derivco_business_config s;
     clock_reads := clock_reads s;
     uuid_draws := f (uuid_draws s) |}.

(** ** The monad: state, and exceptions that keep the state reached *)

Definition M (A : Type) : Type := State -> res A * State.

Definition ret {A} (a : A) : M A := fun s => (Ok a, s).

Definition raise {A} (e : exn) : M A := fun s => (Raise e, s).

Definition bind {A B} (m : M A) (k : A -> M B) : M B :=
  fun s =>
    match m s with
    | (Ok a, s') => k a s'
    | (Raise e, s') => (Raise e, s')
    end.

(** [try: body except Exception as e: handler] *)
Definition try_except {A} (body : M A) (handler : exn -> M A) : M A :=
  fun s =>
    match body s with
    | (Ok a, s') => (Ok a, s')
    | (Raise e, s') => handler e s'
    end.

Definition gets {A} (f : State -> A) : M A := fun s => (Ok (f s), s).

Definition modify (f : State -> State) : M unit := fun s => (Ok tt, f s).

Definition lift_res {A} (r : res A) : M A := fun s => (r, s).

Notation "x <- c1 ;; c2" := (bind c1 (fun x => c2))
  (at level 100, c1 at next level, right associativity).
Notation "c1 ;; c2" := (bind c1 (fun _ => c2))
  (at level 100, right associativity).

(** ** What the interpreter supplies *)

Record PyRuntime := {
  (** the parser behind [eval]: the expression a condition denotes, or
      nothing when [eval] rejects the string with a [SyntaxError] *)
  py_parse : string -> option expr;
  (** the built-in functions listed in [safe_globals] *)
  builtin_call : builtin -> list value -> res value;
  (** [str(v)], which is also how an f-string renders [v] *)
  py_str : value -> string;
  (** the n-th reading of [datetime.now()] *)
  clock : nat -> datetime;
  (** [.hex] of the n-th [uuid.uuid4()] *)
  uuid4_hex : nat -> string;
  (** [d.isoformat()] *)
  isoformat : datetime -> string;
  (** [d.strftime('%Y%m%d_%H%M%S')] *)
  strftime : datetime -> string
}.

Section Engine.

Variable rt : PyRuntime.

(** [datetime.now()] *)
Definition datetime_now : M datetime :=
  fun s => (Ok (clock rt (clock_reads s)), set_clock_reads S s).

(** [uuid.uuid4().hex] *)
Definition uuid4 : M string :=
  fun s => (Ok (uuid4_hex rt (uuid_draws s)), set_uuid_draws S s).

(** [context.get(key, default)] *)
Definition context_get (context : EvalContext) (key : string) (dflt : value) : value :=
  default dflt (context !! key).

(** *** Condition evaluation *)

(** [lambda: datetime.now().weekday() >= 5] *)
Definition is_weekend (args : list value) : M value :=
  match args with
  | [] => now <- datetime_now ;; ret (VBool (5 <=? weekday now))
  | _ => raise (TypeError "<lambda>() takes 0 positional arguments")
  end.

(** [d1 - d2] followed by [.days]: defined on two datetimes; the
    difference of two numbers is a number, which has no such attribute. *)
Definition sub_days (d1 d2 : value) : res Z :=
  match d1, d2 with
  | VDate a, VDate b => Ok (timedelta_days a b)
  | _, _ =>
      match num_of d1, num_of d2 with
      | Some _, Some _ => Raise (AttributeError "object has no attribute 'days'")
      | _, _ => Raise (TypeError "unsupported operand type(s) for -")
      end
  end.

(** [lambda d1, d2: abs((d1 - d2).days)] *)
Definition days_between (args : list value) : M value :=
  match args with
  | [d1; d2] => days <- lift_res (sub_days d1 d2) ;; ret (VInt (Z.abs days))
  | _ => raise (TypeError "<lambda>() takes 2 positional arguments")
  end.

(** [lambda name: name in self.derivco_business_config['derivco_supervisors']] *)
Definition is_supervisor (args : list value) : M value :=
  match args with
  | [name] =>
      config <- gets derivco_business_config ;;
      ret (VBool (existsb (fun sup => py_eq name (VStr sup)) (derivco_supervisors config)))
  | _ => raise (TypeError "<lambda>() takes 1 positional argument")
  end.

(** [lambda value: value > self.derivco_business_config['approval_thresholds']['equipment_value']] *)
Definition is_high_value (args : list value) : M value :=
  match args with
  | [v] =>
      config <- gets derivco_business_config ;;
      r <- lift_res (py_order OGt v (VFloat (equipment_value config))) ;;
      ret (VBool r)
  | _ => raise (TypeError "<lambda>() takes 1 positional argument")
  end.

(** A call [f(args)]. *)
Definition py_call (f : value) (args : list value) : M value :=
  match f with
  | VFun (Builtin b) => lift_res (builtin_call rt b args)
  | VFun Lis_weekend => is_weekend args
  | VFun Ldays_between => days_between args
  | VFun Lis_supervisor => is_supervisor args
  | VFun Lis_high_value => is_high_value args
  | _ => raise (TypeError "object is not callable")
  end.

(** The arguments of a call, or the items of a display, left to right. *)
Definition eval_all (ev : expr -> M value) : list expr -> M (list value) :=
  fix go (l : list expr) : M (list value) :=
    match l with
    | [] => ret []
    | a :: l' =>
        v <- ev a ;;
        vs <- go l' ;;
        ret (v :: vs)
    end.

(** [eval] on a parsed condition; [globals] is the dictionary of names.
    Operands are evaluated left to right, [and] and [or] short-circuit and
    return an operand. *)
Fixpoint eval_expr (globals : gmap string value) (e : expr) : M value :=
  match e with
  | EConst v => ret v
  | EName x =>
      match globals !! x with
      | Some v => ret v
      | None => raise (NameError x)
      end
  | ENot a => v <- eval_expr globals a ;; ret (VBool (negb (truthy v)))
  | EAnd a b =>
      va <- eval_expr globals a ;;
      if truthy va then eval_expr globals b else ret va
  | EOr a b =>
      va <- eval_expr globals a ;;
      if truthy va then ret va else eval_expr globals b
  | ECompare op a b =>
      va <- eval_expr globals a ;;
      vb <- eval_expr globals b ;;
      r <- lift_res (py_compare op va vb) ;;
      ret (VBool r)
  | ECall f args =>
      vf <- eval_expr globals f ;;
      vs <- eval_all (eval_expr globals) args ;;
      py_call vf vs
  | EList items =>
      vs <- eval_all (eval_expr globals) items ;;
      ret (VList vs)
  end.

(** The three layers of [safe_globals]: the literal, then the context,
    then the business functions; a later [update] overrides. *)
Definition builtin_names : gmap string value :=
  list_to_map
    [("__builtins__", VDict []);
     ("len", VFun (Builtin Blen));
     ("str", VFun (Builtin Bstr));
     ("int", VFun (Builtin Bint));
     ("float", VFun (Builtin Bfloat));
     ("bool", VFun (Builtin Bbool));
     ("min", VFun (Builtin Bmin));
     ("max", VFun (Builtin Bmax));
     ("abs", VFun (Builtin Babs));
     ("round", VFun (Builtin Bround))].

Definition business_functions : gmap string value :=
  list_to_map
    [("is_weekend", VFun Lis_weekend);
     ("days_between", VFun Ldays_between);
     ("is_supervisor", VFun Lis_supervisor);
     ("is_high_value", VFun Lis_high_value)].

Definition safe_globals (context : EvalContext) : gmap string value :=
  business_functions ∪ (context ∪ builtin_names).

(** The body of the [try] block of [_evaluate_condition]:
    [bool(eval(condition, safe_globals, {}))]. *)
Definition eval_condition (condition : string) (context : EvalContext) : M bool :=
  match py_parse rt condition with
  | None => raise (SyntaxError "invalid syntax")
  | Some e => result <- eval_expr (safe_globals context) e ;; ret (truthy result)
  end.

Definition _evaluate_condition (condition : string) (context : EvalContext) : M bool :=
  try_except (eval_condition condition context) (fun _ => ret false).

(** *** Rule actions *)

Definition _create_approval_request (rule : option BusinessRule) (context : EvalContext)
  : M string :=
  try_except
    (now <- datetime_now ;;
     u <- uuid4 ;;
     let request_id := "APPR_" +:+ strftime rt now +:+ "_" +:+ substring 0 8 u in
     match rule with
     | None => raise (AttributeError "'NoneType' object has no attribute 'rule_name'")
     | Some rule =>
         created <- datetime_now ;;
         let approval_request :=
           {| request_id := request_id;
              request_type := "equipment_approval";
              requester := context_get context "requester" (VStr "unknown");
              approver := context_get context "approver" (VStr "supervisor");
              item_details := context_get context "item_details" (VDict []);
              justification :=
                context_get context "justification"
                  (VStr ("Triggered by rule: " +:+ rule_name rule));
              request_priority := HIGH;
              request_status := "pending";
              request_created_date := created;
              approved_date := None;
              comments := "" |} in
         modify (set_approval_requests (insert request_id approval_request)) ;;
         ret request_id
     end)
    (fun e => ret ("Error: " +:+ exc_msg e)).

Definition _send_critical_stock_alert (context : EvalContext) : M string :=
  try_except
    (let item_name := context_get context "item_name" (VStr "Unknown Item") in
     ret ("Alert sent for " +:+ py_str rt item_name))
    (fun e => ret ("Error: " +:+ exc_msg e)).

Definition _escalate_to_supervisor (context : EvalContext) : M string :=
  try_except
    (let supervisor := context_get context "supervisor" (VStr "Erasmus Ngwane") in
     ret ("Escalated to " +:+ py_str rt supervisor))
    (fun e => ret ("Error: " +:+ exc_msg e)).

Definition _require_valid_work_order (context : EvalContext) : M string :=
  try_except
    (let transaction_id := context_get context "transaction_id" (VStr "Unknown") in
     ret ("Validation required for transaction " +:+ py_str rt transaction_id))
    (fun e => ret ("Error: " +:+ exc_msg e)).

Definition _create_purchase_requisition (context : EvalContext) : M string :=
  try_except
    (let item_code := context_get context "item_code" (VStr "Unknown") in
     now <- datetime_now ;;
     ret ("REQ_" +:+ strftime rt now +:+ "_" +:+ py_str rt item_code))
    (fun e => ret ("Error: " +:+ exc_msg e)).

Definition _send_compliance_alert (context : EvalContext) : M string :=
  try_except (ret "Compliance alert sent") (fun e => ret ("Error: " +:+ exc_msg e)).

Definition _require_bulk_checkout_approval (context : EvalContext) : M string :=
  try_except
    (let requester := context_get context "requester" (VStr "Unknown") in
     now <- datetime_now ;;
     ret ("BULK_" +:+ strftime rt now +:+ "_" +:+ py_str rt requester))
    (fun e => ret ("Error: " +:+ exc_msg e)).

Definition _set_high_priority (context : EvalContext) : M string :=
  try_except
    (let request_id := context_get context "request_id" (VStr "Unknown") in
     ret ("High priority set for " +:+ py_str rt request_id))
    (fun e => ret ("Error: " +:+ exc_msg e)).

Definition _execute_rule_action (rule : BusinessRule) (context : EvalContext)
  : M (list string) :=
  try_except
    (let action := action rule in
     if String.eqb action "create_approval_request" then
       approval_id <- _create_approval_request (Some rule) context ;;
       ret ["Created approval request: " +:+ approval_id]
     else if String.eqb action "send_critical_stock_alert" then
       alert_result <- _send_critical_stock_alert context ;;
       ret ["Sent critical stock alert: " +:+ alert_result]
     else if String.eqb action "escalate_to_supervisor" then
       escalation_result <- _escalate_to_supervisor context ;;
       ret ["Escalated to supervisor: " +:+ escalation_result]
     else if String.eqb action "require_valid_work_order" then
       validation_result <- _require_valid_work_order context ;;
       ret ["Work order validation required: " +:+ validation_result]
     else if String.eqb action "create_purchase_requisition" then
       requisition_id <- _create_purchase_requisition context ;;
       ret ["Created purchase requisition: " +:+ requisition_id]
     else if String.eqb action "send_compliance_alert" then
       compliance_alert <- _send_compliance_alert context ;;
       ret ["Sent compliance alert: " +:+ compliance_alert]
     else if String.eqb action "require_bulk_checkout_approval" then
       bulk_approval_id <- _require_bulk_checkout_approval context ;;
       ret ["Required bulk checkout approval: " +:+ bulk_approval_id]
     else if String.eqb action "set_high_priority" then
       priority_result <- _set_high_priority context ;;
       ret ["Set high priority: " +:+ priority_result]
     else ret ["Unknown action: " +:+ action])
    (fun e => ret ["Error executing action: " +:+ exc_msg e]).

(** *** Rule evaluation *)

Definition disabled_result (rule_id : string) (rule : BusinessRule) : EvaluationResult :=
  {| er_rule_id := rule_id;
     er_rule_name := Some (rule_name rule);
     er_rule_type := None;
     er_evaluated := false;
     er_reason := Some "Rule is disabled";
     er_condition_met := None;
     er_actions_triggered := None;
     er_evaluation_time := None;
     er_context := None;
     er_error := None |}.

Definition initial_result (rule_id : string) (rule : BusinessRule)
    (evaluation_time : string) (context : EvalContext) : EvaluationResult :=
  {| er_rule_id := rule_id;
     er_rule_name := Some (rule_name rule);
     er_rule_type := Some (BusinessRuleType_value (rule_type rule));
     er_evaluated := true;
     er_reason := None;
     er_condition_met := Some false;
     er_actions_triggered := Some [];
     er_evaluation_time := Some evaluation_time;
     er_context := Some context;
     er_error := None |}.

Definition error_result (rule_id : string) (e : exn) : EvaluationResult :=
  {| er_rule_id := rule_id;
     er_rule_name := None;
     er_rule_type := None;
     er_evaluated := false;
     er_reason := None;
     er_condition_met := None;
     er_actions_triggered := None;
     er_evaluation_time := None;
     er_context := None;
     er_error := Some (exc_msg e) |}.

(** [evaluation_result['condition_met'] = condition_met] *)
Definition with_condition_met (b : bool) (r : EvaluationResult) : EvaluationResult :=
  {| er_rule_id := er_rule_id r;
     er_rule_name := er_rule_name r;
     er_rule_type := er_rule_type r;
     er_evaluated := er_evaluated r;
     er_reason := er_reason r;
     er_condition_met := Some b;
     er_actions_triggered := er_actions_triggered r;
     er_evaluation_time := er_evaluation_time r;
     er_context := er_context r;
     er_error := er_error r |}.

(** [evaluation_result['actions_triggered'] = action_results] *)
Definition with_actions_triggered (l : list string) (r : EvaluationResult)
  : EvaluationResult :=
  {| er_rule_id := er_rule_id r;
     er_rule_name := er_rule_name r;
     er_rule_type := er_rule_type r;
     er_evaluated := er_evaluated r;
     er_reason := er_reason r;
     er_condition_met := er_condition_met r;
     er_actions_triggered := Some l;
     er_evaluation_time := er_evaluation_time r;
     er_context := er_context r;
     er_error := er_error r |}.

(** [evaluation_result['error'] = f"Error evaluating condition: {str(e)}"] *)
Definition with_error (e : exn) (r : EvaluationResult) : EvaluationResult :=
  {| er_rule_id := er_rule_id r;
     er_rule_name := er_rule_name r;
     er_rule_type := er_rule_type r;
     er_evaluated := er_evaluated r;
     er_reason := er_reason r;
     er_condition_met := er_condition_met r;
     er_actions_triggered := er_actions_triggered r;
     er_evaluation_time := er_evaluation_time r;
     er_context := er_context r;
     er_error := Some ("Error evaluating condition: " +:+ exc_msg e) |}.

(** [rule.last_executed = datetime.now(); rule.execution_count += 1] *)
Definition record_execution (now : datetime) (rule : BusinessRule) : BusinessRule :=
  {| rule_id := rule_id rule;
     rule_name := rule_name rule;
     rule_type := rule_type rule;
     description := description rule;
     condition := condition rule;
     action := action rule;
     rule_priority := rule_priority rule;
     enabled := enabled rule;
     rule_created_date := rule_created_date rule;
     last_executed := Some now;
     execution_count := execution_count rule + 1 |}.

(** The inner [try] block updates the dictionary [evaluation_result] in
    place, so its handler sees the keys set before the exception; the
    nested [try_except] give each stage the dictionary it has reached. *)
Definition evaluate_business_rule (rule_id : string) (context : EvalContext)
  : M EvaluationResult :=
  try_except
    (rules <- gets business_rules ;;
     match rules !! rule_id with
     | None => raise (ValueError ("Business rule " +:+ rule_id +:+ " not found"))
     | Some rule =>
         if negb (enabled rule) then ret (disabled_result rule_id rule)
         else
           started <- datetime_now ;;
           let r0 := initial_result rule_id rule (isoformat rt started) context in
           evaluation_result <-
             try_except
               (condition_met <- _evaluate_condition (condition rule) context ;;
                let r1 := with_condition_met condition_met r0 in
                try_except
                  (if condition_met then
                     action_results <- _execute_rule_action rule context ;;
                     let r2 := with_actions_triggered action_results r1 in
                     try_except
                       (now <- datetime_now ;;
                        modify (set_business_rules
                                  (insert rule_id (record_execution now rule))) ;;
                        ret r2)
                       (fun e => ret (with_error e r2))
                   else ret r1)
                  (fun e => ret (with_error e r1)))
               (fun e => ret (with_error e r0)) ;;
           modify (set_rule_execution_history (fun h => h ++ [evaluation_result])) ;;
           ret evaluation_result
     end)
    (fun e => ret (error_result rule_id e)).

(** *** Batches *)

Inductive Report (A : Type) :=
| ReportError (error : string)
| ReportOk (results : A).
Arguments ReportError {A} error.
Arguments ReportOk {A} results.

Record ProcessingResults (S : Type) := {
  pr_timestamp : string;
  pr_rules_processed : Z;
  pr_rules_triggered : Z;
  pr_actions_executed : Z;
  pr_rule_results : list EvaluationResult;
  pr_summary : S
}.
Arguments pr_timestamp {S} _.
Arguments pr_rules_processed {S} _.
Arguments pr_rules_triggered {S} _.
Arguments pr_actions_executed {S} _.
Arguments pr_rule_results {S} _.
Arguments pr_summary {S} _.

(** The counters and the result list a batch accumulates. *)
Record Tally := {
  rules_processed : Z;
  rules_triggered : Z;
  actions_executed : Z;
  rule_results : list EvaluationResult
}.

Definition empty_tally : Tally :=
  {| rules_processed := 0; rules_triggered := 0; actions_executed := 0; rule_results := [] |}.

(** What a batch does with one result: append it, count it, and count its
    actions when [result.get('condition_met', False)] holds. *)
Definition record_result (result : EvaluationResult) (t : Tally) : Tally :=
  let met := default false (er_condition_met result) in
  {| rules_processed := rules_processed t + 1;
     rules_triggered := if met then rules_triggered t + 1 else rules_triggered t;
     actions_executed :=
       if met
       then actions_executed t + Z.of_nat (length (default [] (er_actions_triggered result)))
       else actions_executed t;
     rule_results := rule_results t ++ [result] |}.

(** [for rule_id in relevant_rules: if rule_id in self.business_rules: ...] *)
Fixpoint evaluate_relevant_rules (relevant_rules : list string) (context : EvalContext)
    (t : Tally) : M Tally :=
  match relevant_rules with
  | [] => ret t
  | rule_id :: rest =>
      rules <- gets business_rules ;;
      match rules !! rule_id with
      | Some _ =>
          result <- evaluate_business_rule rule_id context ;;
          evaluate_relevant_rules rest context (record_result result t)
      | None => evaluate_relevant_rules rest context t
      end
  end.

Definition item_context (config : BusinessConfig) (item : InventoryItem) : EvalContext :=
  list_to_map
    [("item_code", VStr (item_code item));
     ("item_name", VStr (item_name item));
     ("category", VStr (category item));
     ("stock_level", VInt (quantity item));
     ("reorder_level", VInt (reorder_level item));
     ("item_value", VFloat (unit_price item));
     ("total_value", VFloat (total_value item));
     ("supplier", VStr (supplier item));
     ("auto_reorder_enabled", VBool (auto_reorder_enabled config))].

Definition item_relevant_rules (config : BusinessConfig) (item : InventoryItem)
  : list string :=
  ["BR002"; "BR005"]
  ++ (if existsb (String.eqb (category item)) (approval_required_categories config)
      then ["BR008"] else []).

Fixpoint process_items (l : list InventoryItem) (t : Tally) : M Tally :=
  match l with
  | [] => ret t
  | item :: rest =>
      config <- gets derivco_business_config ;;
      t' <- evaluate_relevant_rules (item_relevant_rules config item)
              (item_context config item) t ;;
      process_items rest t'
  end.

Record InventorySummary := {
  total_inventory_items : nat;
  low_stock_items : nat;
  critical_stock_items : nat;
  approval_requests_created : nat;
  alerts_sent : nat
}.

(** [needle in str(r.get('actions_triggered', []))] *)
Definition actions_mention (needle : string) (r : EvaluationResult) : bool :=
  is_substring needle
    (py_str rt (VList (map VStr (default [] (er_actions_triggered r))))).

Definition process_inventory_business_rules
  : M (Report (ProcessingResults InventorySummary)) :=
  try_except
    (manager <- gets inventory_manager ;;
     match manager with
     | None => ret (ReportError "Inventory manager not available")
     | Some manager =>
         now <- datetime_now ;;
         let low := get_low_stock_items manager in
         let critical := get_critical_stock_items manager in
         t <- process_items (items manager) empty_tally ;;
         ret (ReportOk
                {| pr_timestamp := isoformat rt now;
                   pr_rules_processed := rules_processed t;
                   pr_rules_triggered := rules_triggered t;
                   pr_actions_executed := actions_executed t;
                   pr_rule_results := rule_results t;
                   pr_summary :=
                     {| total_inventory_items := length (items manager);
                        low_stock_items := length low;
                        critical_stock_items := length critical;
                        approval_requests_created :=
                          length (List.filter (actions_mention "approval request")
                                    (rule_results t));
                        alerts_sent :=
                          length (List.filter (actions_mention "alert")
                                    (rule_results t)) |} |})
     end)
    (fun e => ret (ReportError (exc_msg e))).

Record ComplianceSummary := {
  work_order_compliance : Q;
  tool_return_compliance : Q;
  summary_risk_level : string
}.

(** The work-order pass.  The loop adds keys to [context] before each
    evaluation: for BR004 the two work-order flags, for BR006 the
    percentage again; the dictionary an earlier result refers to already
    holds every key with its final value when that result is built. *)
Fixpoint work_order_rules (pct : Q) (relevant_rules : list string)
    (context : EvalContext) (t : Tally) : M Tally :=
  match relevant_rules with
  | [] => ret t
  | rule_id :: rest =>
      rules <- gets business_rules ;;
      match rules !! rule_id with
      | Some _ =>
          let context :=
            if String.eqb rule_id "BR004" then
              <["wo_req_invalid" := VBool (negb (Qle_bool 80 pct))]>
                (<["wo_req_missing" := VBool (negb (Qle_bool 95 pct))]> context)
            else if String.eqb rule_id "BR006" then
              <["compliance_percentage" := VFloat pct]> context
            else context in
          result <- evaluate_business_rule rule_id context ;;
          work_order_rules pct rest context (record_result result t)
      | None => work_order_rules pct rest context t
      end
  end.

Definition process_compliance_business_rules
  : M (Report (ProcessingResults ComplianceSummary)) :=
  try_except
    (engine <- gets analytics_engine ;;
     match engine with
     | None => ret (ReportError "Analytics engine not available")
     | Some engine =>
         now <- datetime_now ;;
         t1 <- match work_order_metric engine with
               | Some wo_metric =>
                   work_order_rules (compliance_percentage wo_metric) ["BR004"; "BR006"]
                     (list_to_map
                        [("compliance_type", VStr "work_order");
                         ("compliance_percentage", VFloat (compliance_percentage wo_metric));
                         ("target_percentage", VFloat 95);
                         ("risk_level", VStr (risk_level wo_metric))])
                     empty_tally
               | None => ret empty_tally
               end ;;
         t2 <- match tool_return_metric engine with
               | Some return_metric =>
                   evaluate_relevant_rules ["BR003"; "BR006"]
                     (list_to_map
                        [("compliance_type", VStr "tool_return");
                         ("compliance_percentage",
                          VFloat (compliance_percentage return_metric));
                         ("target_percentage", VFloat 95);
                         ("days_overdue", VInt 7)])
                     t1
               | None => ret t1
               end ;;
         ret (ReportOk
                {| pr_timestamp := isoformat rt now;
                   pr_rules_processed := rules_processed t2;
                   pr_rules_triggered := rules_triggered t2;
                   pr_actions_executed := actions_executed t2;
                   pr_rule_results := rule_results t2;
                   pr_summary :=
                     {| work_order_compliance :=
                          match work_order_metric engine with
                          | Some m => compliance_percentage m
                          | None => 0
                          end;
                        tool_return_compliance :=
                          match tool_return_metric engine with
                          | Some m => compliance_percentage m
                          | None => 0
                          end;
                        summary_risk_level :=
                          default "unknown" (overall_risk_level engine) |} |})
     end)
    (fun e => ret (ReportError (exc_msg e))).

(** *** Workflow execution *)

Definition _execute_validation_task (task : WorkflowTask) : string :=
  "Validation completed for " +:+ task_name task.

Definition _execute_approval_task (context : EvalContext) : M string :=
  rules <- gets business_rules ;;
  approval_id <- _create_approval_request (rules !! "BR001") context ;;
  ret ("Approval request created: " +:+ approval_id).

Definition _execute_data_entry_task (task : WorkflowTask) : string :=
  "Data entry completed for " +:+ task_name task.

Definition _execute_scheduling_task (task : WorkflowTask) : string :=
  "Scheduling completed for " +:+ task_name task.

Definition _execute_monitoring_task (task : WorkflowTask) : string :=
  "Monitoring initiated for " +:+ task_name task.

Definition _execute_documentation_task (task : WorkflowTask) : string :=
  "Documentation completed for " +:+ task_name task.

Definition _execute_procurement_task (task : WorkflowTask) : string :=
  "Procurement initiated for " +:+ task_name task.

Definition running_result (task : WorkflowTask) (start_time : string) : TaskResult :=
  {| tr_task_id := task_id task;
     tr_task_name := Some (task_name task);
     tr_task_type := Some (task_type task);
     tr_status := "running";
     tr_start_time := Some start_time;
     tr_result := None;
     tr_end_time := None;
     tr_error := None;
     tr_timestamp := None |}.

Definition finished_result (r : TaskResult) (result status end_time : string) : TaskResult :=
  {| tr_task_id := tr_task_id r;
     tr_task_name := tr_task_name r;
     tr_task_type := tr_task_type r;
     tr_status := status;
     tr_start_time := tr_start_time r;
     tr_result := Some result;
     tr_end_time := Some end_time;
     tr_error := tr_error r;
     tr_timestamp := tr_timestamp r |}.

Definition failed_result (task : WorkflowTask) (e : exn) (timestamp : string) : TaskResult :=
  {| tr_task_id := task_id task;
     tr_task_name := None;
     tr_task_type := None;
     tr_status := "failed";
     tr_start_time := None;
     tr_result := None;
     tr_end_time := None;
     tr_error := Some (exc_msg e);
     tr_timestamp := Some timestamp |}.

(** The handler of the task's type and the status it leaves.  The
    dependency check of the source is a [pass]: nothing is read from
    [task.dependencies] here. *)
Definition run_handler (task : WorkflowTask) (context : EvalContext) : M (string * string) :=
  let type := task_type task in
  if String.eqb type "validation" then ret (_execute_validation_task task, "completed")
  else if String.eqb type "approval" then
    result <- _execute_approval_task context ;; ret (result, "pending")
  else if String.eqb type "data_entry" then ret (_execute_data_entry_task task, "completed")
  else if String.eqb type "scheduling" then ret (_execute_scheduling_task task, "completed")
  else if String.eqb type "monitoring" then ret (_execute_monitoring_task task, "completed")
  else if String.eqb type "documentation" then
    ret (_execute_documentation_task task, "completed")
  else if String.eqb type "procurement" then ret (_execute_procurement_task task, "pending")
  else ret ("Task type " +:+ type +:+ " not implemented", "completed").

Definition _execute_workflow_task (task : WorkflowTask) (context : EvalContext)
  : M TaskResult :=
  try_except
    (started <- datetime_now ;;
     let task_result := running_result task (isoformat rt started) in
     outcome <- run_handler task context ;;
     ended <- datetime_now ;;
     ret (finished_result task_result (fst outcome) (snd outcome) (isoformat rt ended)))
    (fun e => now <- datetime_now ;; ret (failed_result task e (isoformat rt now))).

(** [sorted(workflow_tasks, key=lambda t: len(t.dependencies))]: a stable
    sort, written as an insertion sort on the tasks paired with their
    position in [workflow_tasks]. *)
Fixpoint insert_task (x : nat * WorkflowTask) (l : list (nat * WorkflowTask))
  : list (nat * WorkflowTask) :=
  match l with
  | [] => [x]
  | y :: l' =>
      if (length (dependencies (snd x)) <=? length (dependencies (snd y)))%nat
      then x :: l
      else y :: insert_task x l'
  end.

Definition sort_by_dependencies (l : list (nat * WorkflowTask)) : list (nat * WorkflowTask) :=
  foldr insert_task [] l.

(** [[task for task in self.workflow_tasks.values() if task.workflow_id == workflow_id]],
    each task with its position. *)
Definition tasks_of_workflow (workflow : string) (tasks : list WorkflowTask)
  : list (nat * WorkflowTask) :=
  List.filter (fun x => String.eqb (workflow_id (snd x)) workflow)
    (imap (fun i task => (i, task)) tasks).

(** [task.status = WorkflowStatus.COMPLETED; task.completed_date = datetime.now()] *)
Definition mark_completed (now : datetime) (task : WorkflowTask) : WorkflowTask :=
  {| task_id := task_id task;
     workflow_id := workflow_id task;
     task_name := task_name task;
     task_type := task_type task;
     assignee := assignee task;
     status := COMPLETED;
     task_priority := task_priority task;
     due_date := due_date task;
     task_created_date := task_created_date task;
     completed_date := Some now;
     dependencies := dependencies task;
     metadata := metadata task |}.

(** [task.status = WorkflowStatus.FAILED] *)
Definition mark_failed (task : WorkflowTask) : WorkflowTask :=
  {| task_id := task_id task;
     workflow_id := workflow_id task;
     task_name := task_name task;
     task_type := task_type task;
     assignee := assignee task;
     status := FAILED;
     task_priority := task_priority task;
     due_date := due_date task;
     task_created_date := task_created_date task;
     completed_date := completed_date task;
     dependencies := dependencies task;
     metadata := metadata task |}.

Definition with_lists (x : ExecutionResult) (executed pending failed : list TaskResult)
  : ExecutionResult :=
  {| xr_workflow_id := xr_workflow_id x;
     xr_start_time := xr_start_time x;
     xr_status := xr_status x;
     xr_tasks_executed := executed;
     xr_tasks_pending := pending;
     xr_tasks_failed := failed;
     xr_context := xr_context x;
     xr_end_time := xr_end_time x;
     xr_error := xr_error x;
     xr_timestamp := xr_timestamp x |}.

Definition with_status (x : ExecutionResult) (st : string) (error end_time : option string)
  : ExecutionResult :=
  {| xr_workflow_id := xr_workflow_id x;
     xr_start_time := xr_start_time x;
     xr_status := st;
     xr_tasks_executed := xr_tasks_executed x;
     xr_tasks_pending := xr_tasks_pending x;
     xr_tasks_failed := xr_tasks_failed x;
     xr_context := xr_context x;
     xr_end_time := end_time;
     xr_error := error;
     xr_timestamp := xr_timestamp x |}.

(** The body of the loop after the task has run: file the result under its
    status and update the task object, which sits at position [i]. *)
Definition record_task (x : ExecutionResult) (i : nat) (task_result : TaskResult)
  : M ExecutionResult :=
  if String.eqb (tr_status task_result) "completed" then
    now <- datetime_now ;;
    modify (set_workflow_tasks (alter (mark_completed now) i)) ;;
    ret (with_lists x (xr_tasks_executed x ++ [task_result])
           (xr_tasks_pending x) (xr_tasks_failed x))
  else if String.eqb (tr_status task_result) "failed" then
    modify (set_workflow_tasks (alter mark_failed i)) ;;
    ret (with_lists x (xr_tasks_executed x) (xr_tasks_pending x)
           (xr_tasks_failed x ++ [task_result]))
  else
    ret (with_lists x (xr_tasks_executed x) (xr_tasks_pending x ++ [task_result])
           (xr_tasks_failed x)).

(** [for task in sorted_tasks: ...], for a task executor [exec]. *)
Fixpoint run_tasks (exec : WorkflowTask -> EvalContext -> M TaskResult)
    (sorted_tasks : list (nat * WorkflowTask)) (context : EvalContext)
    (x : ExecutionResult) : M ExecutionResult :=
  match sorted_tasks with
  | [] => ret x
  | (i, task) :: rest =>
      task_result <- exec task context ;;
      x' <- record_task x i task_result ;;
      run_tasks exec rest context x'
  end.

(** "Determine overall workflow status" *)
Definition overall_status (x : ExecutionResult) : string :=
  match xr_tasks_failed x, xr_tasks_pending x with
  | _ :: _, _ => "failed"
  | [], _ :: _ => "pending"
  | [], [] => "completed"
  end.

Definition started_execution (workflow : string) (start_time : string)
    (context : EvalContext) : ExecutionResult :=
  {| xr_workflow_id := workflow;
     xr_start_time := Some start_time;
     xr_status := "running";
     xr_tasks_executed := [];
     xr_tasks_pending := [];
     xr_tasks_failed := [];
     xr_context := Some context;
     xr_end_time := None;
     xr_error := None;
     xr_timestamp := None |}.

Definition aborted_execution (workflow : string) (e : exn) (timestamp : string)
  : ExecutionResult :=
  {| xr_workflow_id := workflow;
     xr_start_time := None;
     xr_status := "failed";
     xr_tasks_executed := [];
     xr_tasks_pending := [];
     xr_tasks_failed := [];
     xr_context := None;
     xr_end_time := None;
     xr_error := Some (exc_msg e);
     xr_timestamp := Some timestamp |}.

(** [execute_workflow], with the call to the task executor left open. *)
Definition execute_workflow_with (exec : WorkflowTask -> EvalContext -> M TaskResult)
    (workflow : string) (context : option EvalContext) : M ExecutionResult :=
  try_except
    (let context := default ∅ context in
     started <- datetime_now ;;
     let x := started_execution workflow (isoformat rt started) context in
     tasks <- gets workflow_tasks ;;
     match tasks_of_workflow workflow tasks with
     | [] =>
         ret (with_status x "failed"
                (Some ("No tasks found for workflow " +:+ workflow)) None)
     | workflow_tasks =>
         x <- run_tasks exec (sort_by_dependencies workflow_tasks) context x ;;
         let x := with_status x (overall_status x) None None in
         ended <- datetime_now ;;
         let x := with_status x (xr_status x) None (Some (isoformat rt ended)) in
         modify (set_workflow_history (fun h => h ++ [x])) ;;
         ret x
     end)
    (fun e => now <- datetime_now ;; ret (aborted_execution workflow e (isoformat rt now))).

Definition execute_workflow (workflow : string) (context : option EvalContext)
  : M ExecutionResult :=
  execute_workflow_with _execute_workflow_task workflow context.

(** *** Construction *)

(** [self.workflow_tasks[task.task_id] = task]: a key already present keeps
    its position. *)
Fixpoint dict_set (task : WorkflowTask) (l : list WorkflowTask) : list WorkflowTask :=
  match l with
  | [] => [task]
  | t :: l' =>
      if String.eqb (task_id t) (task_id task) then task :: l' else t :: dict_set task l'
  end.

(** [for task in tasks: self.workflow_tasks[task.task_id] = task] *)
Definition register_tasks (tasks : list WorkflowTask) : M unit :=
  modify (set_workflow_tasks (fun l => foldl (fun l task => dict_set task l) l tasks)).

(** [for rule in default_rules: self.business_rules[rule.rule_id] = rule] *)
Definition register_rules (rules : list BusinessRule) : M unit :=
  modify (set_business_rules
            (fun m => foldl (fun m rule => <[rule_id rule := rule]> m) m rules)).

(** A [BusinessRule(...)] call with the defaults of the data class. *)
Definition new_rule (id name : string) (type : BusinessRuleType)
    (desc cond act : string) (prio : Priority) : M BusinessRule :=
  now <- datetime_now ;;
  ret {| rule_id := id;
         rule_name := name;
         rule_type := type;
         description := desc;
         condition := cond;
         action := act;
         rule_priority := prio;
         enabled := true;
         rule_created_date := now;
         last_executed := None;
         execution_count := 0 |}.

(** A [WorkflowTask(...)] call as the three workflows make it. *)
Definition new_task (workflow number name type who : string) (prio : Priority)
    (deps : list string) : M WorkflowTask :=
  now <- datetime_now ;;
  ret {| task_id := workflow +:+ "_" +:+ number;
         workflow_id := workflow;
         task_name := name;
         task_type := type;
         assignee := who;
         status := PENDING;
         task_priority := prio;
         due_date := None;
         task_created_date := now;
         completed_date := None;
         dependencies := deps;
         metadata := [] |}.

Definition _setup_default_business_rules : M unit :=
  r1 <- new_rule "BR001" "High Value Equipment Approval" APPROVAL
          "Equipment over R1000 requires supervisor approval"
          "item_value > 1000" "create_approval_request" HIGH ;;
  r2 <- new_rule "BR002" "Critical Stock Alert" NOTIFICATION
          "Alert when inventory reaches critical levels"
          "stock_level <= 5" "send_critical_stock_alert" CRITICAL ;;
  r3 <- new_rule "BR003" "Overdue Equipment Escalation" ESCALATION
          "Escalate overdue equipment returns"
          "days_overdue >= 7" "escalate_to_supervisor" HIGH ;;
  r4 <- new_rule "BR004" "Work Order Validation" VALIDATION
          "Validate work order format and requirements"
          "wo_req_missing or wo_req_invalid" "require_valid_work_order" MEDIUM ;;
  r5 <- new_rule "BR005" "Auto Reorder Trigger" AUTOMATION
          "Automatically trigger reorder for low stock items"
          "stock_level <= reorder_level and auto_reorder_enabled"
          "create_purchase_requisition" MEDIUM ;;
  r6 <- new_rule "BR006" "Compliance Monitoring" NOTIFICATION
          "Monitor and alert on compliance violations"
          "compliance_percentage < 80" "send_compliance_alert" HIGH ;;
  r7 <- new_rule "BR007" "Bulk Checkout Approval" APPROVAL
          "Bulk equipment checkout requires approval"
          "checkout_quantity > 5" "require_bulk_checkout_approval" MEDIUM ;;
  r8 <- new_rule "BR008" "Safety Equipment Priority" AUTOMATION
          "Prioritize safety equipment requests"
          "category == 'Safety'" "set_high_priority" HIGH ;;
  register_rules [r1; r2; r3; r4; r5; r6; r7; r8].

Definition _create_equipment_checkout_workflow : M unit :=
  let workflow := "WF_EQUIPMENT_CHECKOUT" in
  t1 <- new_task workflow "001" "Validate Equipment Request" "validation" "system" HIGH [] ;;
  t2 <- new_task workflow "002" "Check Work Order" "validation" "system" HIGH
          [workflow +:+ "_001"] ;;
  t3 <- new_task workflow "003" "Approve High Value Items" "approval" "supervisor" MEDIUM
          [workflow +:+ "_002"] ;;
  t4 <- new_task workflow "004" "Record Equipment Checkout" "data_entry"
          "facilities_assistant" HIGH [workflow +:+ "_003"] ;;
  t5 <- new_task workflow "005" "Schedule Return Reminder" "scheduling" "system" LOW
          [workflow +:+ "_004"] ;;
  register_tasks [t1; t2; t3; t4; t5].

Definition _create_inventory_reorder_workflow : M unit :=
  let workflow := "WF_INVENTORY_REORDER" in
  t1 <- new_task workflow "001" "Monitor Stock Levels" "monitoring" "system" MEDIUM [] ;;
  t2 <- new_task workflow "002" "Generate Purchase Requisition" "documentation"
          "facilities_assistant" HIGH [workflow +:+ "_001"] ;;
  t3 <- new_task workflow "003" "Budget Approval" "approval" "finance_manager" HIGH
          [workflow +:+ "_002"] ;;
  t4 <- new_task workflow "004" "Submit Purchase Order" "procurement" "procurement_team"
          MEDIUM [workflow +:+ "_003"] ;;
  t5 <- new_task workflow "005" "Update Inventory Records" "data_entry"
          "facilities_assistant" HIGH [workflow +:+ "_004"] ;;
  register_tasks [t1; t2; t3; t4; t5].

Definition _create_compliance_remediation_workflow : M unit :=
  let workflow := "WF_COMPLIANCE_REMEDIATION" in
  t1 <- new_task workflow "001" "Identify Compliance Gaps" "analysis" "system" HIGH [] ;;
  t2 <- new_task workflow "002" "Create Remediation Plan" "planning" "facilities_manager"
          HIGH [workflow +:+ "_001"] ;;
  t3 <- new_task workflow "003" "Implement Corrections" "execution" "facilities_team"
          CRITICAL [workflow +:+ "_002"] ;;
  t4 <- new_task workflow "004" "Verify Compliance" "verification" "compliance_officer"
          HIGH [workflow +:+ "_003"] ;;
  t5 <- new_task workflow "005" "Document Resolution" "documentation"
          "facilities_assistant" MEDIUM [workflow +:+ "_004"] ;;
  register_tasks [t1; t2; t3; t4; t5].

Definition _initialize_workflows : M unit :=
  _create_equipment_checkout_workflow ;;
  _create_inventory_reorder_workflow ;;
  _create_compliance_remediation_workflow.

(** [BusinessLogicProcessor(...)] in a process that has read the clock and
    drawn identifiers the given number of times. *)
Definition new_processor (inventory : option InventoryManager)
    (analytics : option AnalyticsEngine) (reads draws : nat) : State :=
  snd ((_setup_default_business_rules ;; _initialize_workflows)
         {| inventory_manager := inventory;
            analytics_engine := analytics;
            business_rules := ∅;
            workflow_tasks := [];
            approval_requests := ∅;
            rule_execution_history := [];
            workflow_history := [];
            derivco_business_config := _load_derivco_business_config;
            clock_reads := reads;
            uuid_draws := draws |}).

(** *** Summary *)

(** The nested dictionary [get_business_logic_summary] returns. *)
Record BusinessLogicSummary := {
  sum_timestamp : string;
  total_rules : nat;
  enabled_rules : nat;
  rule_types : gmap string nat;
  total_workflows : nat;
  total_tasks : nat;
  task_statuses : gmap string nat;
  pending_approvals : nat;
  total_requests : nat;
  rule_executions : nat;
  workflow_executions : nat
}.

(** [d[key] = d.get(key, 0) + 1] *)
Definition bump (key : string) (d : gmap string nat) : gmap string nat :=
  <[key := S (default 0%nat (d !! key))]> d.

(** The distribution loop: one [bump] for each key, starting from [{}]. *)
Definition count_values (keys : list string) : gmap string nat :=
  foldl (fun d key => bump key d) ∅ keys.

Definition get_business_logic_summary : M (Report BusinessLogicSummary) :=
  try_except
    (now <- datetime_now ;;
     rules <- gets business_rules ;;
     tasks <- gets workflow_tasks ;;
     approvals <- gets approval_requests ;;
     rule_history <- gets rule_execution_history ;;
     runs <- gets workflow_history ;;
     let rule_values := (map_to_list rules).*2 in
     let approval_values := (map_to_list approvals).*2 in
     ret (ReportOk
            {| sum_timestamp := isoformat rt now;
               total_rules := size rules;
               enabled_rules := length (List.filter enabled rule_values);
               rule_types :=
                 count_values
                   (map (fun rule => BusinessRuleType_value (rule_type rule)) rule_values);
               total_workflows := length (remove_dups (map workflow_id tasks));
               total_tasks := length tasks;
               task_statuses :=
                 count_values (map (fun task => WorkflowStatus_value (status task)) tasks);
               pending_approvals :=
                 length (List.filter
                           (fun a => String.eqb (request_status a) "pending")
                           approval_values);
               total_requests := size approvals;
               rule_executions := length rule_history;
               workflow_executions := length runs |}))
    (fun e => ret (ReportError (exc_msg e))).

End Engine.

Arguments ReportError {A} error.
Arguments ReportOk {A} results.
Arguments pr_timestamp {S} _.
Arguments pr_rules_processed {S} _.
Arguments pr_rules_triggered {S} _.
Arguments pr_actions_executed {S} _.
Arguments pr_rule_results {S} _.
Arguments pr_summary {S} _.

(** ** Properties of computations *)

(** The computation returns, from every state. *)
Definition total {A} (m : M A) : Prop :=
  forall s, exists a s', m s = (Ok a, s').

(** The computation leaves the observation [f] of the state as it was,
    whether it returns or raises. *)
Definition preserves {A B} (f : State -> B) (m : M A) : Prop :=
  forall s, f (snd (m s)) = f s.

(** Observations that do not depend on one attribute of the state. *)
Class IgnoresClock {B} (f : State -> B) : Prop :=
  ignores_clock : forall g s, f (set_clock_reads g s) = f s.
Class IgnoresUuid {B} (f : State -> B) : Prop :=
  ignores_uuid : forall g s, f (set_uuid_draws g s) = f s.
Class IgnoresApprovals {B} (f : State -> B) : Prop :=
  ignores_approvals : forall g s, f (set_approval_requests g s) = f s.
Class IgnoresRules {B} (f : State -> B) : Prop :=
  ignores_rules : forall g s, f (set_business_rules g s) = f s.
Class IgnoresHistory {B} (f : State -> B) : Prop :=
  ignores_history : forall g s, f (set_rule_execution_history g s) = f s.
Class IgnoresTasks {B} (f : State -> B) : Prop :=
  ignores_tasks : forall g s, f (set_workflow_tasks g s) = f s.
Class IgnoresRuns {B} (f : State -> B) : Prop :=
  ignores_runs : forall g s, f (set_workflow_history g s) = f s.

#[global] Hint Extern 1 (IgnoresClock _) => (intros ? ?; reflexivity) : typeclass_instances.
#[global] Hint Extern 1 (IgnoresUuid _) => (intros ? ?; reflexivity) : typeclass_instances.
#[global] Hint Extern 1 (IgnoresApprovals _) => (intros ? ?; reflexivity) : typeclass_instances.
#[global] Hint Extern 1 (IgnoresRules _) => (intros ? ?; reflexivity) : typeclass_instances.
#[global] Hint Extern 1 (IgnoresHistory _) => (intros ? ?; reflexivity) : typeclass_instances.
#[global] Hint Extern 1 (IgnoresTasks _) => (intros ? ?; reflexivity) : typeclass_instances.
#[global] Hint Extern 1 (IgnoresRuns _) => (intros ? ?; reflexivity) : typeclass_instances.

(** The clock never crosses the boundary between working days and the
    weekend: every reading answers [weekday() >= 5] alike. *)
Definition weekend_stable (rt : PyRuntime) : Prop :=
  forall n m, (5 <=? weekday (clock rt n)) = (5 <=? weekday (clock rt m)).

(** The value a computation returns, or the exception it raises, depends on
    the state through the business configuration at most. *)
Definition config_determined {A} (m : M A) : Prop :=
  forall s1 s2,
    derivco_business_config s1 = derivco_business_config s2 ->
    fst (m s1) = fst (m s2).

(** [r'] is the rule [r] after some more executions: the statistics may
    have moved, and the count has not gone down. *)
Definition rule_advanced (r r' : BusinessRule) : Prop :=
  rule_name r' = rule_name r /\ rule_type r' = rule_type r
  /\ condition r' = condition r /\ action r' = action r
  /\ enabled r' = enabled r
  /\ execution_count r <= execution_count r'.

(** The catalogue of [s'] holds the rules of [s] under the same keys, each
    possibly advanced. *)
Definition catalog_advanced (s s' : State) : Prop :=
  forall rid,
    match business_rules s !! rid with
    | Some r => exists r', business_rules s' !! rid = Some r' /\ rule_advanced r r'
    | None => business_rules s' !! rid = None
    end.

(** The name the evaluation of an expression looks up first, if it starts
    with a lookup: operands are evaluated left to right, the callee before
    the arguments. *)
Fixpoint first_name (e : expr) : option string :=
  match e with
  | EConst _ => None
  | EName x => Some x
  | ENot a => first_name a
  | EAnd a _ => first_name a
  | EOr a _ => first_name a
  | ECompare _ a _ => first_name a
  | ECall f _ => first_name f
  | EList [] => None
  | EList (a :: _) => first_name a
  end.

(** The computation advances the catalogue, whether it returns or raises. *)
Definition advances {A} (m : M A) : Prop :=
  forall s, catalog_advanced s (snd (m s)).

(** [rule_id in self.business_rules] *)
Definition in_catalog (s : State) (rule_id : string) : bool :=
  match business_rules s !! rule_id with
  | Some _ => true
  | None => false
  end.

(** The public operations of the processor, and their effect on its state. *)
Inductive operation :=
| OpEvaluateRule (rule_id : string) (context : EvalContext)
| OpProcessInventory
| OpProcessCompliance
| OpExecuteWorkflow (workflow : string) (context : option EvalContext).

Definition run_operation (rt : PyRuntime) (s : State) (op : operation) : State :=
  match op with
  | OpEvaluateRule rule_id context => snd (evaluate_business_rule rt rule_id context s)
  | OpProcessInventory => snd (process_inventory_business_rules rt s)
  | OpProcessCompliance => snd (process_compliance_business_rules rt s)
  | OpExecuteWorkflow workflow context => snd (execute_workflow rt workflow context s)
  end.

Definition run_operations (rt : PyRuntime) (s : State) (ops : list operation) : State :=
  foldl (run_operation rt) s ops.

(** A task executor that never raises and leaves the task objects alone,
    as [_execute_workflow_task] does. *)
Definition well_behaved (exec : WorkflowTask -> EvalContext -> M TaskResult) : Prop :=
  forall task context, total (exec task context) /\ preserves workflow_tasks (exec task context).

(** The task types whose handler leaves the task waiting. *)
Definition waits_for_decision (type : string) : bool :=
  String.eqb type "approval" || String.eqb type "procurement".

(** The status [_execute_workflow_task] reports for a task of a given type. *)
Definition handler_status (type : string) : string :=
  if waits_for_decision type then "pending" else "completed".

(** [_execute_workflow_task] with its [except] branch taken for the task
    [failing]: an exception [e] escapes the handler of that task. *)
Definition failing_at (rt : PyRuntime) (failing : string) (e : exn)
    (task : WorkflowTask) (context : EvalContext) : M TaskResult :=
  if String.eqb (task_id task) failing
  then try_except (_ <- datetime_now rt ;; raise e)
         (fun e => now <- datetime_now rt ;; ret (failed_result task e (isoformat rt now)))
  else _execute_workflow_task rt task context.

(** What the executor may do to a task object: complete it, fail it, or
    leave it; the other attributes stay. *)
Definition task_moved (t t' : WorkflowTask) : Prop :=
  task_id t' = task_id t /\ workflow_id t' = workflow_id t
  /\ task_type t' = task_type t /\ dependencies t' = dependencies t
  /\ (status t' = status t \/ status t' = COMPLETED \/ status t' = FAILED).

(** How many task results an execution holds. *)
Definition results_count (x : ExecutionResult) : nat :=
  length (xr_tasks_executed x) + length (xr_tasks_pending x) + length (xr_tasks_failed x).

(** [len(task.dependencies)], the key of the sort. *)
Definition dependency_count (x : nat * WorkflowTask) : nat :=
  length (dependencies (snd x)).

(** The status a task has after its workflow [workflow] has been run: a
    task of the workflow whose type does not wait is Completed, every other
    task keeps its status. *)
Definition status_after_run (workflow : string) (task : WorkflowTask) : WorkflowStatus :=
  if String.eqb (workflow_id task) workflow && negb (waits_for_decision (task_type task))
  then COMPLETED
  else status task.

(** The approval requests of [s'] are those of [s], none removed and none
    changed, and new ones that are pending. *)
Definition approvals_kept (s s' : State) : Prop :=
  (forall id, is_Some (approval_requests s !! id) -> is_Some (approval_requests s' !! id))
  /\ (forall id req,
        approval_requests s' !! id = Some req ->
        request_status req = "pending" \/ approval_requests s !! id = Some req).

(** The computation keeps the approval requests, whether it returns or raises. *)
Definition keeps_approvals {A} (m : M A) : Prop :=
  forall s, approvals_kept s (snd (m s)).

(** The counters of a batch agree with its list of results: every result is
    counted, and every triggered rule has contributed one action. *)
Definition tally_ok (t : Tally) : Prop :=
  rules_processed t = Z.of_nat (length (rule_results t))
  /\ actions_executed t = rules_triggered t
  /\ 0 <= rules_triggered t <= rules_processed t.

(** The rule identifiers the inventory batch evaluates, item by item. *)
Definition inventory_rule_ids (s : State) (l : list InventoryItem) : list string :=
  flat_map
    (fun item =>
       List.filter (in_catalog s) (item_relevant_rules (derivco_business_config s) item))
    l.

(** The positions and tasks of a workflow whose type waits, and those whose
    type does not, in the order given. *)
Definition waiting_tasks (l : list (nat * WorkflowTask)) : list (nat * WorkflowTask) :=
  List.filter (fun x => waits_for_decision (task_type (snd x))) l.

Definition completing_tasks (l : list (nat * WorkflowTask)) : list (nat * WorkflowTask) :=
  List.filter (fun x => negb (waits_for_decision (task_type (snd x)))) l.

(** The order in which [execute_workflow] runs the tasks of a workflow. *)
Definition run_order (workflow : string) (s : State) : list (nat * WorkflowTask) :=
  sort_by_dependencies (tasks_of_workflow workflow (workflow_tasks s)).

(** What a pass of a batch loop over at most [n] rules adds: results to the
    tally, which stays consistent, and, of these results, the evaluated ones
    to the history. *)
Definition pass_ok (n : nat) (t t' : Tally) (s s' : State) : Prop :=
  exists new,
    rule_results t' = rule_results t ++ new
    /\ rule_execution_history s'
       = rule_execution_history s ++ List.filter er_evaluated new
    /\ (length new <= n)%nat
    /\ (tally_ok t -> tally_ok t').

(** The eight action names [_execute_rule_action] dispatches on. *)
Definition known_actions : list string :=
  ["create_approval_request"; "send_critical_stock_alert"; "escalate_to_supervisor";
   "require_valid_work_order"; "create_purchase_requisition"; "send_compliance_alert";
   "require_bulk_checkout_approval"; "set_high_priority"].

(** How many of the keys are [key]. *)
Definition occurrences (key : string) (keys : list string) : nat :=
  length (List.filter (String.eqb key) keys).

(** ** Example inputs *)

(** A runtime to run the closed examples with.  It parses the conditions
    of the eight default rules and a call of [is_weekend]; its clock ticks
    once a second from 23:59:35 on Friday 5 January 2024, so that readings
    0 to 24 fall on the Friday and the later ones on the Saturday.  The
    examples call no built-in function and render no number. *)
Definition example_conditions : list (string * expr) :=
  [("item_value > 1000", ECompare CGt (EName "item_value") (EConst (VInt 1000)));
   ("stock_level <= 5", ECompare CLtE (EName "stock_level") (EConst (VInt 5)));
   ("days_overdue >= 7", ECompare CGtE (EName "days_overdue") (EConst (VInt 7)));
   ("wo_req_missing or wo_req_invalid",
    EOr (EName "wo_req_missing") (EName "wo_req_invalid"));
   ("stock_level <= reorder_level and auto_reorder_enabled",
    EAnd (ECompare CLtE (EName "stock_level") (EName "reorder_level"))
      (EName "auto_reorder_enabled"));
   ("compliance_percentage < 80",
    ECompare CLt (EName "compliance_percentage") (EConst (VInt 80)));
   ("checkout_quantity > 5", ECompare CGt (EName "checkout_quantity") (EConst (VInt 5)));
   ("category == 'Safety'", ECompare CEq (EName "category") (EConst (VStr "Safety")));
   ("is_weekend()", ECall (EName "is_weekend") [])].

Definition example_builtin (b : builtin) (args : list value) : res value :=
  match b, args with
  | Blen, [VStr s] => Ok (VInt (Z.of_nat (String.length s)))
  | Blen, [VList l] => Ok (VInt (Z.of_nat (length l)))
  | Bbool, [v] => Ok (VBool (truthy v))
  | Babs, [VInt n] => Ok (VInt (Z.abs n))
  | _, _ => Raise (TypeError "call outside the examples")
  end.

Definition example_str (v : value) : string :=
  match v with
  | VStr s => s
  | VNone => "None"
  | VBool true => "True"
  | VBool false => "False"
  | _ => "<object>"
  end.

Definition example_clock (n : nat) : datetime :=
  let micros := 86375000000 + Z.of_nat n * 1000000 in
  {| dt_ordinal := 738890 + micros / micros_per_day;
     dt_micros := micros mod micros_per_day |}.

Definition example_stamp (d : datetime) : string :=
  pretty (dt_ordinal d) +:+ "_" +:+ pretty (dt_micros d).

Definition example_runtime : PyRuntime :=
  {| py_parse := fun c => assoc_get c example_conditions;
     builtin_call := example_builtin;
     py_str := example_str;
     clock := example_clock;
     uuid4_hex := fun n => "0123456789abcdef0123456789abcdef";
     isoformat := example_stamp;
     strftime := example_stamp |}.

(** The same runtime with a clock that stays within Monday 1 January 2024. *)
Definition monday_clock (n : nat) : datetime :=
  {| dt_ordinal := 738886; dt_micros := 1000000 - 1000000 / (Z.of_nat n + 1) |}.

Definition monday_runtime : PyRuntime :=
  {| py_parse := py_parse example_runtime;
     builtin_call := example_builtin;
     py_str := example_str;
     clock := monday_clock;
     uuid4_hex := uuid4_hex example_runtime;
     isoformat := example_stamp;
     strftime := example_stamp |}.

(** A freshly built processor with no collaborators. *)
Definition example_processor : State := new_processor example_runtime None None 0 0.

(** A template of two tasks that depend on each other. *)
Definition cyclic_tasks : list WorkflowTask :=
  [ {| task_id := "WF_CYCLE_A";
       workflow_id := "WF_CYCLE";
       task_name := "A";
       task_type := "validation";
       assignee := "system";
       status := PENDING;
       task_priority := MEDIUM;
       due_date := None;
       task_created_date := example_clock 0;
       completed_date := None;
       dependencies := ["WF_CYCLE_B"];
       metadata := [] |};
    {| task_id := "WF_CYCLE_B";
       workflow_id := "WF_CYCLE";
       task_name := "B";
       task_type := "validation";
       assignee := "system";
       status := PENDING;
       task_priority := MEDIUM;
       due_date := None;
       task_created_date := example_clock 0;
       completed_date := None;
       dependencies := ["WF_CYCLE_A"];
       metadata := [] |} ].

(** The identifiers, statuses and dependencies of the tasks of a workflow. *)
Definition task_board (workflow : string) (s : State)
  : list (string * WorkflowStatus * list string) :=
  map (fun x => (task_id (snd x), status (snd x), dependencies (snd x)))
    (tasks_of_workflow workflow (workflow_tasks s)).

(** The example processor with the stock rule switched off. *)
Definition disabled_processor : State :=
  set_business_rules
    (alter (fun rule =>
              {| rule_id := rule_id rule;
                 rule_name := rule_name rule;
                 rule_type := rule_type rule;
                 description := description rule;
                 condition := condition rule;
                 action := action rule;
                 rule_priority := rule_priority rule;
                 enabled := false;
                 rule_created_date := rule_created_date rule;
                 last_executed := last_executed rule;
                 execution_count := execution_count rule |}) "BR002")
    example_processor.

(** A small inventory: a safety item in critical supply, a tool in low
    supply and a well stocked consumable. *)
Definition example_items : list InventoryItem :=
  [ {| item_code := "SAF001"; item_name := "Hard Hat"; category := "Safety";
       quantity := 3; unit_price := 250; total_value := 750;
       supplier := "SafeCo"; reorder_level := 10 |};
    {| item_code := "TOO001"; item_name := "Drill"; category := "Tools";
       quantity := 12; unit_price := 1500; total_value := 18000;
       supplier := "ToolCo"; reorder_level := 10 |};
    {| item_code := "CON001"; item_name := "Bolt"; category := "Consumables";
       quantity := 80; unit_price := 2; total_value := 160;
       supplier := "BoltCo"; reorder_level := 20 |} ].

Definition stocked_processor : State :=
  new_processor example_runtime (Some {| items := example_items |}) None 0 0.

(** A rule whose action is not one of the known names, and a rule that
    asks for an approval. *)
Definition paging_rule : BusinessRule :=
  {| rule_id := "BR101";
     rule_name := "Page On Call";
     rule_type := ESCALATION;
     description := "Page the engineer on call";
     condition := "stock_level <= 5";
     action := "page_on_call";
     rule_priority := HIGH;
     enabled := true;
     rule_created_date := example_clock 0;
     last_executed := None;
     execution_count := 0 |}.

Definition approval_rule : BusinessRule :=
  {| rule_id := "BR102";
     rule_name := "Second Signature";
     rule_type := APPROVAL;
     description := "Ask for a second signature";
     condition := "item_value > 1000";
     action := "create_approval_request";
     rule_priority := HIGH;
     enabled := true;
     rule_created_date := example_clock 0;
     last_executed := None;
     execution_count := 0 |}.

(** An approval task, and the example processor without rule BR001. *)
Definition approval_task : WorkflowTask :=
  {| task_id := "WF_SIGN_001";
     workflow_id := "WF_SIGN";
     task_name := "Sign Off";
     task_type := "approval";
     assignee := "supervisor";
     status := PENDING;
     task_priority := HIGH;
     due_date := None;
     task_created_date := example_clock 0;
     completed_date := None;
     dependencies := [];
     metadata := [] |}.

Definition unruled_processor : State :=
  set_business_rules (delete "BR001") example_processor.

(** The processor with an analytics engine that reports both metrics. *)
Definition monitored_processor : State :=
  new_processor example_runtime None
    (Some {| work_order_metric :=
               Some {| compliance_percentage := 72; risk_level := "high" |};
             tool_return_metric :=
               Some {| compliance_percentage := 90; risk_level := "medium" |};
             overall_risk_level := Some "high" |})
    0 0.

(** The same processor with one more rule, which holds at the weekend. *)
Definition weekend_rule : BusinessRule :=
  {| rule_id := "BR100";
     rule_name := "Weekend Notice";
     rule_type := NOTIFICATION;
     description := "Notify when a request arrives at the weekend";
     condition := "is_weekend()";
     action := "send_compliance_alert";
     rule_priority := LOW;
     enabled := true;
     rule_created_date := example_clock 0;
     last_executed := None;
     execution_count := 0 |}.

Definition weekend_processor : State :=
  snd (register_rules [weekend_rule] example_processor).

(** ** The monad *)

Lemma bind_ok {A B} (m : M A) (k : A -> M B) s a s' :
  m s = (Ok a, s') -> bind m k s = k a s'.
Proof. intros H. unfold bind. now rewrite H. Qed.

Lemma bind_raise {A B} (m : M A) (k : A -> M B) s e s' :
  m s = (Raise e, s') -> bind m k s = (Raise e, s').
Proof. intros H. unfold bind. now rewrite H. Qed.

Lemma try_ok {A} (body : M A) h s a s' :
  body s = (Ok a, s') -> try_except body h s = (Ok a, s').
Proof. intros H. unfold try_except. now rewrite H. Qed.

Lemma try_raise {A} (body : M A) h s e s' :
  body s = (Raise e, s') -> try_except body h s = h e s'.
Proof. intros H. unfold try_except. now rewrite H. Qed.

Lemma total_ret {A} (a : A) : total (ret a).
Proof. intros s. now exists a, s. Qed.

Lemma total_gets {A} (f : State -> A) : total (gets f).
Proof. intros s. now exists (f s), s. Qed.

Lemma total_modify f : total (modify f).
Proof. intros s. now exists tt, (f s). Qed.

Lemma total_bind {A B} (m : M A) (k : A -> M B) :
  total m -> (forall a, total (k a)) -> total (bind m k).
Proof.
  intros Hm Hk s. destruct (Hm s) as (a & s' & E).
  rewrite (bind_ok _ _ _ _ _ E). apply Hk.
Qed.

Lemma total_try_body {A} (body : M A) h : total body -> total (try_except body h).
Proof.
  intros Hb s. destruct (Hb s) as (a & s' & E).
  exists a, s'. now apply try_ok.
Qed.

Lemma total_try_handler {A} (body : M A) h :
  (forall e, total (h e)) -> total (try_except body h).
Proof.
  intros Hh s. unfold try_except.
  destruct (body s) as [[a|e] s'].
  - now exists a, s'.
  - apply Hh.
Qed.

Lemma preserves_ret {A B} (f : State -> B) (a : A) : preserves f (ret a).
Proof. now intros s. Qed.

Lemma preserves_raise {A B} (f : State -> B) e : preserves f (@raise A e).
Proof. now intros s. Qed.

Lemma preserves_gets {A B} (f : State -> B) (g : State -> A) : preserves f (gets g).
Proof. now intros s. Qed.

Lemma preserves_lift_res {A B} (f : State -> B) (r : res A) : preserves f (lift_res r).
Proof. now intros s. Qed.

Lemma preserves_bind {A B C} (f : State -> C) (m : M A) (k : A -> M B) :
  preserves f m -> (forall a, preserves f (k a)) -> preserves f (bind m k).
Proof.
  intros Hm Hk s. unfold bind. specialize (Hm s).
  destruct (m s) as [[a|e] s']; simpl in *.
  - now rewrite Hk.
  - exact Hm.
Qed.

Lemma preserves_try {A C} (f : State -> C) (body : M A) h :
  preserves f body -> (forall e, preserves f (h e)) -> preserves f (try_except body h).
Proof.
  intros Hb Hh s. unfold try_except. specialize (Hb s).
  destruct (body s) as [[a|e] s']; simpl in *.
  - exact Hb.
  - now rewrite Hh.
Qed.

Create HintDb total.
Create HintDb preserves.

#[global] Hint Resolve total_ret total_gets total_modify : total.
#[global] Hint Resolve preserves_ret preserves_raise preserves_gets preserves_lift_res
  : preserves.

(** One step through a computation: split a bind or a handler, or decide
    the conditional or the match the computation branches on. *)
Ltac step_preserves :=
  lazymatch goal with
  | |- preserves _ (bind _ _) => apply preserves_bind; [ | intros ? ]
  | |- preserves _ (try_except _ _) => apply preserves_try; [ | intros ? ]
  | |- preserves _ (if ?b then _ else _) => destruct b
  | |- preserves _ (match ?x with _ => _ end) => destruct x
  | |- preserves _ (let _ := _ in _) => cbv zeta
  end.

Ltac step_total :=
  lazymatch goal with
  | |- total (bind _ _) => apply total_bind; [ | intros ? ]
  | |- total (if ?b then _ else _) => destruct b
  | |- total (match ?x with _ => _ end) => destruct x
  | |- total (let _ := _ in _) => cbv zeta
  end.

Section Facts.

Variable rt : PyRuntime.

Lemma total_datetime_now : total (datetime_now rt).
Proof. intros s. now eexists _, _. Qed.

Lemma total_uuid4 : total (uuid4 rt).
Proof. intros s. now eexists _, _. Qed.

Lemma preserves_datetime_now {B} (f : State -> B) `{!IgnoresClock f} :
  preserves f (datetime_now rt).
Proof. intros s. apply ignores_clock. Qed.

Lemma preserves_uuid4 {B} (f : State -> B) `{!IgnoresUuid f} : preserves f (uuid4 rt).
Proof. intros s. apply ignores_uuid. Qed.

Lemma preserves_set_approvals {B} (f : State -> B) `{!IgnoresApprovals f} g :
  preserves f (modify (set_approval_requests g)).
Proof. intros s. apply ignores_approvals. Qed.

Lemma preserves_set_rules {B} (f : State -> B) `{!IgnoresRules f} g :
  preserves f (modify (set_business_rules g)).
Proof. intros s. apply ignores_rules. Qed.

Lemma preserves_set_history {B} (f : State -> B) `{!IgnoresHistory f} g :
  preserves f (modify (set_rule_execution_history g)).
Proof. intros s. apply ignores_history. Qed.

Lemma preserves_set_tasks {B} (f : State -> B) `{!IgnoresTasks f} g :
  preserves f (modify (set_workflow_tasks g)).
Proof. intros s. apply ignores_tasks. Qed.

Lemma preserves_set_runs {B} (f : State -> B) `{!IgnoresRuns f} g :
  preserves f (modify (set_workflow_history g)).
Proof. intros s. apply ignores_runs. Qed.

End Facts.

#[global] Hint Resolve total_datetime_now total_uuid4 : total.
#[global] Hint Resolve preserves_datetime_now preserves_uuid4 preserves_set_approvals
  preserves_set_rules preserves_set_history preserves_set_tasks preserves_set_runs
  : preserves.

(** ** Condition evaluation *)

(** Induction on expressions, with the hypothesis for every argument of a
    call and every item of a display. *)
Lemma expr_induction (P : expr -> Prop) :
  (forall v, P (EConst v)) ->
  (forall x, P (EName x)) ->
  (forall a, P a -> P (ENot a)) ->
  (forall a b, P a -> P b -> P (EAnd a b)) ->
  (forall a b, P a -> P b -> P (EOr a b)) ->
  (forall op a b, P a -> P b -> P (ECompare op a b)) ->
  (forall f args, P f -> Forall P args -> P (ECall f args)) ->
  (forall items, Forall P items -> P (EList items)) ->
  forall e, P e.
Proof.
  intros Hconst Hname Hnot Hand Hor Hcmp Hcall Hlist.
  fix IH 1. intros [v|x|a|a b|a b|op a b|f args|items].
  - apply Hconst.
  - apply Hname.
  - apply Hnot, IH.
  - apply Hand; apply IH.
  - apply Hor; apply IH.
  - apply Hcmp; apply IH.
  - apply Hcall; [apply IH|].
    induction args as [|a args IHargs]; constructor; [apply IH | exact IHargs].
  - apply Hlist.
    induction items as [|a items IHitems]; constructor; [apply IH | exact IHitems].
Qed.

Lemma config_determined_ret {A} (a : A) : config_determined (ret a).
Proof. now intros s1 s2 _. Qed.

Lemma config_determined_raise {A} e : config_determined (@raise A e).
Proof. now intros s1 s2 _. Qed.

Lemma config_determined_lift_res {A} (r : res A) : config_determined (lift_res r).
Proof. now intros s1 s2 _. Qed.

Lemma config_determined_bind {A B} (m : M A) (k : A -> M B) :
  config_determined m -> preserves derivco_business_config m ->
  (forall a, config_determined (k a)) ->
  config_determined (bind m k).
Proof.
  intros Hm Hp Hk s1 s2 E. unfold bind.
  pose proof (Hm s1 s2 E) as Hfst.
  pose proof (Hp s1) as H1. pose proof (Hp s2) as H2.
  destruct (m s1) as [[a1|e1] t1], (m s2) as [[a2|e2] t2]; simpl in *;
    try discriminate; try (injection Hfst as ->).
  - apply Hk. congruence.
  - reflexivity.
Qed.

Section Evaluation.

Variable rt : PyRuntime.

Lemma preserves_py_call {B} (f : State -> B) `{!IgnoresClock f} callee args :
  preserves f (py_call rt callee args).
Proof.
  unfold py_call, is_weekend, days_between, is_supervisor, is_high_value.
  repeat first [ step_preserves | solve [ eauto with preserves ] ].
Qed.

Lemma preserves_eval_all {B} (f : State -> B) ev l :
  Forall (fun e => preserves f (ev e)) l -> preserves f (eval_all ev l).
Proof.
  induction 1 as [|a l Ha _ IH]; simpl.
  - apply preserves_ret.
  - repeat first [ step_preserves | solve [ eauto with preserves ] ].
Qed.

(** Evaluating an expression touches nothing but the clock. *)
Lemma preserves_eval_expr {B} (f : State -> B) `{!IgnoresClock f} globals e :
  preserves f (eval_expr rt globals e).
Proof.
  induction e using expr_induction; simpl;
    repeat first [ step_preserves
                 | solve [ eauto using preserves_py_call, preserves_eval_all
                             with preserves ] ].
Qed.

Lemma preserves_eval_condition {B} (f : State -> B) `{!IgnoresClock f} cond context :
  preserves f (eval_condition rt cond context).
Proof.
  unfold eval_condition.
  repeat first [ step_preserves
               | solve [ eauto using preserves_eval_expr with preserves ] ].
Qed.

Lemma preserves_evaluate_condition {B} (f : State -> B) `{!IgnoresClock f} cond context :
  preserves f (_evaluate_condition rt cond context).
Proof.
  unfold _evaluate_condition.
  repeat first [ step_preserves
               | solve [ eauto using preserves_eval_condition with preserves ] ].
Qed.

(** [_evaluate_condition] returns a boolean from every state: the handler
    turns whatever the evaluation raises into [False]. *)
Lemma total_evaluate_condition cond context : total (_evaluate_condition rt cond context).
Proof. apply total_try_handler. intros e. apply total_ret. Qed.

Lemma evaluate_condition_raise cond context s e s' :
  eval_condition rt cond context s = (Raise e, s') ->
  _evaluate_condition rt cond context s = (Ok false, s').
Proof. intros H. unfold _evaluate_condition. now rewrite (try_raise _ _ _ _ _ H). Qed.

Lemma evaluate_condition_ok cond context s b s' :
  eval_condition rt cond context s = (Ok b, s') ->
  _evaluate_condition rt cond context s = (Ok b, s').
Proof. intros H. unfold _evaluate_condition. now rewrite (try_ok _ _ _ _ _ H). Qed.

End Evaluation.

Lemma config_determined_config : config_determined (gets derivco_business_config).
Proof. intros s1 s2 E. simpl. now rewrite E. Qed.

(** One step through a computation whose result the configuration decides. *)
Ltac step_determined :=
  lazymatch goal with
  | |- config_determined (bind _ _) => apply config_determined_bind; [ | | intros ? ]
  | |- config_determined (if ?b then _ else _) => destruct b
  | |- config_determined (match ?x with _ => _ end) => destruct x
  | |- config_determined (let _ := _ in _) => cbv zeta
  end.

Section Determinism.

Variable rt : PyRuntime.
Hypothesis Hstable : weekend_stable rt.

Lemma config_determined_is_weekend args : config_determined (is_weekend rt args).
Proof.
  intros s1 s2 _. destruct args; simpl; [|reflexivity].
  now rewrite (Hstable (clock_reads s1) (clock_reads s2)).
Qed.

Lemma config_determined_py_call callee args : config_determined (py_call rt callee args).
Proof.
  unfold py_call.
  destruct callee as [| | | | | | | |[b| | | |]];
    try apply config_determined_raise.
  - apply config_determined_lift_res.
  - apply config_determined_is_weekend.
  - unfold days_between.
    repeat first [ step_determined
                 | solve [ eauto using config_determined_ret, config_determined_raise,
                             config_determined_lift_res with preserves ] ].
  - unfold is_supervisor.
    repeat first [ step_determined
                 | solve [ eauto using config_determined_ret, config_determined_raise,
                             config_determined_config with preserves ] ].
  - unfold is_high_value.
    repeat first [ step_determined
                 | solve [ eauto using config_determined_ret, config_determined_raise,
                             config_determined_lift_res, config_determined_config
                             with preserves ] ].
Qed.

Lemma config_determined_eval_all ev l :
  Forall (fun e => config_determined (ev e) /\ preserves derivco_business_config (ev e)) l ->
  config_determined (eval_all ev l).
Proof.
  induction 1 as [|a l [Ha Hp] Hl IH]; simpl.
  - apply config_determined_ret.
  - apply config_determined_bind; [exact Ha | exact Hp |].
    intros v. apply config_determined_bind; [exact IH | |].
    + apply preserves_eval_all. eapply Forall_impl; [exact Hl|]. now intros e [_ ?].
    + intros vs. apply config_determined_ret.
Qed.

(** With a clock that stays on one side of the weekend, the outcome of an
    expression is a function of the expression, the names and the
    configuration. *)
Lemma config_determined_eval_expr globals e : config_determined (eval_expr rt globals e).
Proof.
  induction e using expr_induction; simpl;
    repeat first
      [ step_determined
      | solve [ eauto using config_determined_ret, config_determined_raise,
                  config_determined_lift_res, config_determined_py_call,
                  preserves_eval_expr, preserves_eval_all with preserves ]
      | apply preserves_eval_expr; typeclasses eauto
      | apply config_determined_eval_all;
        (eapply Forall_impl; [eassumption|]); intros; split;
        [ assumption | apply preserves_eval_expr; typeclasses eauto ]
      | apply preserves_eval_all;
        (eapply Forall_impl; [eassumption|]); intros;
        apply preserves_eval_expr; typeclasses eauto ].
Qed.

Lemma config_determined_evaluate_condition cond context :
  config_determined (_evaluate_condition rt cond context).
Proof.
  intros s1 s2 E. unfold _evaluate_condition, try_except, eval_condition.
  destruct (py_parse rt cond) as [e|]; simpl; [|reflexivity].
  unfold bind. pose proof (config_determined_eval_expr (safe_globals context) e s1 s2 E) as H.
  destruct (eval_expr rt (safe_globals context) e s1) as [[v1|e1] t1],
           (eval_expr rt (safe_globals context) e s2) as [[v2|e2] t2];
    simpl in *; try discriminate; try (injection H as ->); reflexivity.
Qed.

End Determinism.

(** ** Rule actions and rule evaluation *)

Lemma rule_advanced_refl r : rule_advanced r r.
Proof. unfold rule_advanced. repeat split; lia. Qed.

Lemma rule_advanced_trans r1 r2 r3 :
  rule_advanced r1 r2 -> rule_advanced r2 r3 -> rule_advanced r1 r3.
Proof.
  unfold rule_advanced. intros (?&?&?&?&?&?) (?&?&?&?&?&?).
  repeat split; try congruence; lia.
Qed.


Lemma catalog_advanced_same s s' :
  business_rules s' = business_rules s -> catalog_advanced s s'.
Proof.
  intros E rid. rewrite E.
  destruct (business_rules s !! rid) as [r|] eqn:Er; [|reflexivity].
  exists r. split; [reflexivity | apply rule_advanced_refl].
Qed.

Lemma catalog_advanced_refl s : catalog_advanced s s.
Proof. now apply catalog_advanced_same. Qed.

Lemma catalog_advanced_trans s1 s2 s3 :
  catalog_advanced s1 s2 -> catalog_advanced s2 s3 -> catalog_advanced s1 s3.
Proof.
  intros H12 H23 rid. specialize (H12 rid). specialize (H23 rid).
  destruct (business_rules s1 !! rid) as [r1|].
  - destruct H12 as (r2 & E2 & A12). rewrite E2 in H23.
    destruct H23 as (r3 & E3 & A23). exists r3. split; [exact E3|].
    eapply rule_advanced_trans; eassumption.
  - rewrite H12 in H23. exact H23.
Qed.


Section Rules.

Variable rt : PyRuntime.

Lemma total_create_approval_request rule context :
  total (_create_approval_request rt rule context).
Proof. apply total_try_handler. intros e. apply total_ret. Qed.

Lemma total_execute_rule_action rule context : total (_execute_rule_action rt rule context).
Proof. apply total_try_handler. intros e. apply total_ret. Qed.

Lemma preserves_create_approval_request {B} (f : State -> B)
    `{!IgnoresClock f} `{!IgnoresUuid f} `{!IgnoresApprovals f} rule context :
  preserves f (_create_approval_request rt rule context).
Proof.
  unfold _create_approval_request.
  repeat first [ step_preserves | solve [ eauto with preserves ] ].
Qed.

Lemma preserves_execute_rule_action {B} (f : State -> B)
    `{!IgnoresClock f} `{!IgnoresUuid f} `{!IgnoresApprovals f} rule context :
  preserves f (_execute_rule_action rt rule context).
Proof.
  unfold _execute_rule_action, _send_critical_stock_alert, _escalate_to_supervisor,
    _require_valid_work_order, _create_purchase_requisition, _send_compliance_alert,
    _require_bulk_checkout_approval, _set_high_priority.
  repeat first [ step_preserves
               | solve [ eauto using preserves_create_approval_request with preserves ] ].
Qed.

(** The three ways through [evaluate_business_rule]. *)

Lemma evaluate_unknown rule_id context s :
  business_rules s !! rule_id = None ->
  evaluate_business_rule rt rule_id context s
  = (Ok (error_result rule_id
           (ValueError ("Business rule " +:+ rule_id +:+ " not found"))), s).
Proof.
  intros H. unfold evaluate_business_rule, try_except, bind, gets. simpl.
  now rewrite H.
Qed.

Lemma evaluate_disabled rule_id context s rule :
  business_rules s !! rule_id = Some rule -> enabled rule = false ->
  evaluate_business_rule rt rule_id context s = (Ok (disabled_result rule_id rule), s).
Proof.
  intros H Hen. unfold evaluate_business_rule, try_except, bind, gets. simpl.
  now rewrite H, Hen.
Qed.

Lemma evaluate_not_met rule_id context s rule s1 :
  business_rules s !! rule_id = Some rule -> enabled rule = true ->
  _evaluate_condition rt (condition rule) context (set_clock_reads S s) = (Ok false, s1) ->
  let r := with_condition_met false
             (initial_result rule_id rule (isoformat rt (clock rt (clock_reads s))) context) in
  evaluate_business_rule rt rule_id context s
  = (Ok r, set_rule_execution_history (fun h => h ++ [r]) s1).
Proof.
  intros H Hen Hc r. unfold evaluate_business_rule at 1.
  unfold try_except at 1. unfold bind at 1. unfold gets. simpl.
  rewrite H, Hen. simpl. unfold bind at 1. unfold datetime_now at 1.
  unfold bind at 1. unfold try_except at 1. unfold bind at 1. rewrite Hc.
  reflexivity.
Qed.

Lemma evaluate_met rule_id context s rule s1 acts s2 :
  business_rules s !! rule_id = Some rule -> enabled rule = true ->
  _evaluate_condition rt (condition rule) context (set_clock_reads S s) = (Ok true, s1) ->
  _execute_rule_action rt rule context s1 = (Ok acts, s2) ->
  let r := with_actions_triggered acts
             (with_condition_met true
                (initial_result rule_id rule (isoformat rt (clock rt (clock_reads s)))
                   context)) in
  evaluate_business_rule rt rule_id context s
  = (Ok r,
     set_rule_execution_history (fun h => h ++ [r])
       (set_business_rules
          (insert rule_id (record_execution (clock rt (clock_reads s2)) rule))
          (set_clock_reads S s2))).
Proof.
  intros H Hen Hc Ha r. unfold evaluate_business_rule at 1.
  unfold try_except at 1. unfold bind at 1. unfold gets. simpl.
  rewrite H, Hen. simpl. unfold bind at 1. unfold datetime_now at 1.
  unfold bind at 1. unfold try_except at 1. unfold bind at 1. rewrite Hc.
  unfold try_except at 1. unfold bind at 1. rewrite Ha.
  reflexivity.
Qed.

End Rules.

Lemma catalog_advanced_insert s s' rule_id rule now :
  business_rules s !! rule_id = Some rule ->
  business_rules s' = <[rule_id := record_execution now rule]> (business_rules s) ->
  catalog_advanced s s'.
Proof.
  intros H E rid. rewrite E. destruct (decide (rule_id = rid)) as [<-|Hne].
  - rewrite H, lookup_insert_eq. eexists. split; [reflexivity|].
    unfold rule_advanced; simpl. repeat split; lia.
  - rewrite lookup_insert_ne by exact Hne.
    destruct (business_rules s !! rid) as [r|] eqn:Er; [|reflexivity].
    exists r. split; [reflexivity | apply rule_advanced_refl].
Qed.

Lemma catalog_advanced_lookup s s' rid :
  catalog_advanced s s' ->
  (business_rules s' !! rid = None <-> business_rules s !! rid = None)
  /\ (forall r r', business_rules s !! rid = Some r -> business_rules s' !! rid = Some r' ->
      rule_advanced r r').
Proof.
  intros H. specialize (H rid). destruct (business_rules s !! rid) as [r|].
  - destruct H as (r' & E & A). rewrite E. split.
    + split; discriminate.
    + intros ? ? [= <-] [= <-]. exact A.
  - rewrite H. split; [tauto | discriminate].
Qed.

Section RuleEvaluation.

Variable rt : PyRuntime.

Lemma total_evaluate_business_rule rule_id context :
  total (evaluate_business_rule rt rule_id context).
Proof. apply total_try_handler. intros e. apply total_ret. Qed.

(** Rule evaluation writes to the catalogue, the approval requests, the
    history and the two counters, and to nothing else. *)
Lemma preserves_evaluate_business_rule {B} (f : State -> B)
    `{!IgnoresClock f} `{!IgnoresUuid f} `{!IgnoresApprovals f}
    `{!IgnoresRules f} `{!IgnoresHistory f} rule_id context :
  preserves f (evaluate_business_rule rt rule_id context).
Proof.
  unfold evaluate_business_rule.
  repeat first [ step_preserves
               | solve [ eauto using preserves_evaluate_condition,
                           preserves_execute_rule_action with preserves ] ].
Qed.

Lemma catalog_advanced_evaluate rule_id context s :
  catalog_advanced s (snd (evaluate_business_rule rt rule_id context s)).
Proof.
  destruct (business_rules s !! rule_id) as [rule|] eqn:H.
  2: { rewrite (evaluate_unknown rt _ _ _ H). apply catalog_advanced_refl. }
  destruct (enabled rule) eqn:Hen.
  2: { rewrite (evaluate_disabled rt _ _ _ _ H Hen). apply catalog_advanced_refl. }
  destruct (total_evaluate_condition rt (condition rule) context (set_clock_reads S s))
    as (b & s1 & Hc).
  assert (business_rules s1 = business_rules s) as E1.
  { pose proof (preserves_evaluate_condition rt business_rules (condition rule) context
                  (set_clock_reads S s)) as P.
    rewrite Hc in P. exact P. }
  destruct b.
  - destruct (total_execute_rule_action rt rule context s1) as (acts & s2 & Ha).
    assert (business_rules s2 = business_rules s1) as E2.
    { pose proof (preserves_execute_rule_action rt business_rules rule context s1) as P.
      rewrite Ha in P. exact P. }
    rewrite (evaluate_met rt _ _ _ _ _ _ _ H Hen Hc Ha). simpl.
    eapply catalog_advanced_insert; [exact H|]. simpl. now rewrite E2, E1.
  - rewrite (evaluate_not_met rt _ _ _ _ _ H Hen Hc). simpl.
    apply catalog_advanced_same. simpl. exact E1.
Qed.

(** What the result says about the rule: its key, and whether it was
    evaluated.  No assumption is made on the condition. *)
Lemma evaluate_business_rule_evaluated rule_id context s :
  exists r s',
    evaluate_business_rule rt rule_id context s = (Ok r, s')
    /\ er_rule_id r = rule_id
    /\ er_evaluated r = match business_rules s !! rule_id with
                        | Some rule => enabled rule
                        | None => false
                        end.
Proof.
  destruct (business_rules s !! rule_id) as [rule|] eqn:H.
  2: { rewrite (evaluate_unknown rt _ _ _ H). now eexists _, _. }
  destruct (enabled rule) eqn:Hen.
  2: { rewrite (evaluate_disabled rt _ _ _ _ H Hen). now eexists _, _. }
  destruct (total_evaluate_condition rt (condition rule) context (set_clock_reads S s))
    as (b & s1 & Hc).
  destruct b.
  - destruct (total_execute_rule_action rt rule context s1) as (acts & s2 & Ha).
    rewrite (evaluate_met rt _ _ _ _ _ _ _ H Hen Hc Ha). now eexists _, _.
  - rewrite (evaluate_not_met rt _ _ _ _ _ H Hen Hc). now eexists _, _.
Qed.

End RuleEvaluation.

(** ** Claims about rule evaluation *)

Section RuleClaims.

Variable rt : PyRuntime.

(** C10.  For a rule id that is not in the catalogue, [evaluate_business_rule]
    returns a result with [evaluated = False] and an error message, and the
    state it leaves is the state it found: nothing is appended to the
    history, no approval request is created, no rule changes. *)
Theorem unknown_rule_changes_nothing rule_id context s :
  business_rules s !! rule_id = None ->
  exists r,
    evaluate_business_rule rt rule_id context s = (Ok r, s)
    /\ er_evaluated r = false
    /\ er_error r = Some ("Business rule " +:+ rule_id +:+ " not found").
Proof.
  intros H. rewrite (evaluate_unknown rt _ _ _ H). eexists. repeat split.
Qed.

(** An exception [eval] raises leaves [evaluate_business_rule] with the
    dictionary of a condition that is false, and with a state in which only
    the clock and the history have moved. *)
Lemma evaluate_condition_raised rule_id context s rule e s1 :
  business_rules s !! rule_id = Some rule -> enabled rule = true ->
  eval_condition rt (condition rule) context (set_clock_reads S s) = (Raise e, s1) ->
  let r := with_condition_met false
             (initial_result rule_id rule (isoformat rt (clock rt (clock_reads s))) context) in
  evaluate_business_rule rt rule_id context s
  = (Ok r, set_rule_execution_history (fun h => h ++ [r]) s1)
  /\ business_rules s1 = business_rules s
  /\ approval_requests s1 = approval_requests s
  /\ rule_execution_history s1 = rule_execution_history s.
Proof.
  intros H Hen He r. split.
  - apply evaluate_not_met; [exact H | exact Hen |].
    now apply evaluate_condition_raise with (e := e).
  - pose proof (preserves_eval_condition rt business_rules (condition rule) context
                  (set_clock_reads S s)) as P1.
    pose proof (preserves_eval_condition rt approval_requests (condition rule) context
                  (set_clock_reads S s)) as P2.
    pose proof (preserves_eval_condition rt rule_execution_history (condition rule) context
                  (set_clock_reads S s)) as P3.
    rewrite He in P1, P2, P3. auto.
Qed.


Lemma eval_all_first_name globals a l x s :
  eval_expr rt globals a s = (Raise (NameError x), s) ->
  eval_all (eval_expr rt globals) (a :: l) s = (Raise (NameError x), s).
Proof. intros H. simpl. now rewrite (bind_raise _ _ _ _ _ H). Qed.

(** The first name an expression looks up raises [NameError] when it is
    not among the names, before anything else has happened. *)
Lemma eval_expr_first_name globals e x s :
  first_name e = Some x -> globals !! x = None ->
  eval_expr rt globals e s = (Raise (NameError x), s).
Proof.
  intros Hfirst Hx. revert Hfirst.
  induction e as [v|y|a IH|a b IHa _|a b IHa _|op a b IHa _|f args IHf _|items IH]
    using expr_induction; simpl; intros Hfirst; try discriminate.
  - injection Hfirst as ->. now rewrite Hx.
  - now rewrite (bind_raise _ _ _ _ _ (IH Hfirst)).
  - now rewrite (bind_raise _ _ _ _ _ (IHa Hfirst)).
  - now rewrite (bind_raise _ _ _ _ _ (IHa Hfirst)).
  - now rewrite (bind_raise _ _ _ _ _ (IHa Hfirst)).
  - now rewrite (bind_raise _ _ _ _ _ (IHf Hfirst)).
  - destruct items as [|a items]; [discriminate|].
    inversion IH as [|? ? Ha _]; subst.
    now rewrite (bind_raise _ _ _ _ _ (eval_all_first_name _ _ _ _ _ (Ha Hfirst))).
Qed.


End RuleClaims.

Lemma unknown_rule_changes_nothing_witness :
  exists r,
    evaluate_business_rule example_runtime "BR999" ∅ example_processor
    = (Ok r, example_processor)
    /\ er_evaluated r = false
    /\ er_error r = Some "Business rule BR999 not found".
Proof.
  apply (unknown_rule_changes_nothing example_runtime "BR999" ∅ example_processor).
  vm_compute. reflexivity.
Defined.




Section Repeatability.

Variable rt : PyRuntime.

(** The [condition_met] entry of an enabled rule's result is what
    [_evaluate_condition] returned. *)
Lemma evaluate_enabled_condition_met rule_id context s rule b s1 :
  business_rules s !! rule_id = Some rule -> enabled rule = true ->
  _evaluate_condition rt (condition rule) context (set_clock_reads S s) = (Ok b, s1) ->
  exists r s',
    evaluate_business_rule rt rule_id context s = (Ok r, s')
    /\ er_condition_met r = Some b.
Proof.
  intros H Hen Hc. destruct b.
  - destruct (total_execute_rule_action rt rule context s1) as (acts & s2 & Ha).
    rewrite (evaluate_met rt _ _ _ _ _ _ _ H Hen Hc Ha). now eexists _, _.
  - rewrite (evaluate_not_met rt _ _ _ _ _ H Hen Hc). now eexists _, _.
Qed.


End Repeatability.



(** ** Batches *)

Lemma advances_preserves {A} (m : M A) : preserves business_rules m -> advances m.
Proof. intros H s. apply catalog_advanced_same, H. Qed.

Lemma advances_bind {A B} (m : M A) (k : A -> M B) :
  advances m -> (forall a, advances (k a)) -> advances (bind m k).
Proof.
  intros Hm Hk s. unfold bind. specialize (Hm s).
  destruct (m s) as [[a|e] s']; simpl in *.
  - eapply catalog_advanced_trans; [exact Hm | apply Hk].
  - exact Hm.
Qed.

Lemma advances_try {A} (body : M A) h :
  advances body -> (forall e, advances (h e)) -> advances (try_except body h).
Proof.
  intros Hb Hh s. unfold try_except. specialize (Hb s).
  destruct (body s) as [[a|e] s']; simpl in *.
  - exact Hb.
  - eapply catalog_advanced_trans; [exact Hb | apply Hh].
Qed.

Ltac step_advances :=
  lazymatch goal with
  | |- advances (bind _ _) => apply advances_bind; [ | intros ? ]
  | |- advances (try_except _ _) => apply advances_try; [ | intros ? ]
  | |- advances (if ?b then _ else _) => destruct b
  | |- advances (match ?x with _ => _ end) => destruct x
  | |- advances (let _ := _ in _) => cbv zeta
  end.

Lemma catalog_advanced_in_catalog s s' rule_id :
  catalog_advanced s s' -> in_catalog s' rule_id = in_catalog s rule_id.
Proof.
  intros H. specialize (H rule_id). unfold in_catalog.
  destruct (business_rules s !! rule_id); [destruct H as (r' & -> & _) | rewrite H];
    reflexivity.
Qed.

Lemma catalog_advanced_enabled s s' rule_id rule' :
  catalog_advanced s s' -> business_rules s' !! rule_id = Some rule' ->
  exists rule, business_rules s !! rule_id = Some rule /\ enabled rule' = enabled rule.
Proof.
  intros H E. specialize (H rule_id).
  destruct (business_rules s !! rule_id) as [r|]; [|congruence].
  destruct H as (r' & E' & _ & _ & _ & _ & Hen & _).
  exists r. split; [reflexivity|]. congruence.
Qed.

Section Batches.

Variable rt : PyRuntime.

Lemma advances_evaluate_business_rule rule_id context :
  advances (evaluate_business_rule rt rule_id context).
Proof. intros s. apply catalog_advanced_evaluate. Qed.

Lemma advances_evaluate_relevant_rules relevant_rules context t :
  advances (evaluate_relevant_rules rt relevant_rules context t).
Proof.
  revert t. induction relevant_rules as [|rule_id rest IH]; intros t; simpl.
  - apply advances_preserves, preserves_ret.
  - repeat first [ step_advances
                 | apply IH
                 | apply advances_evaluate_business_rule
                 | apply advances_preserves; solve [ eauto with preserves ] ].
Qed.

Lemma total_evaluate_relevant_rules relevant_rules context t :
  total (evaluate_relevant_rules rt relevant_rules context t).
Proof.
  revert t. induction relevant_rules as [|rule_id rest IH]; intros t; simpl.
  - apply total_ret.
  - repeat first [ step_total
                 | apply IH
                 | apply total_evaluate_business_rule
                 | solve [ eauto with total ] ].
Qed.

Lemma advances_process_items l t : advances (process_items rt l t).
Proof.
  revert t. induction l as [|item rest IH]; intros t; cbn [process_items].
  - apply advances_preserves, preserves_ret.
  - repeat first [ step_advances
                 | apply IH
                 | apply advances_evaluate_relevant_rules
                 | apply advances_preserves; solve [ eauto with preserves ] ].
Qed.

Lemma advances_process_inventory : advances (process_inventory_business_rules rt).
Proof.
  unfold process_inventory_business_rules.
  repeat first [ step_advances
               | apply advances_process_items
               | apply advances_preserves; solve [ eauto with preserves ]
               | apply advances_preserves, preserves_datetime_now; typeclasses eauto ].
Qed.

Lemma advances_work_order_rules pct relevant_rules context t :
  advances (work_order_rules rt pct relevant_rules context t).
Proof.
  revert context t. induction relevant_rules as [|rule_id rest IH]; intros context t; simpl.
  - apply advances_preserves, preserves_ret.
  - repeat first [ step_advances
                 | apply IH
                 | apply advances_evaluate_business_rule
                 | apply advances_preserves; solve [ eauto with preserves ] ].
Qed.

Lemma advances_process_compliance : advances (process_compliance_business_rules rt).
Proof.
  unfold process_compliance_business_rules.
  repeat first [ step_advances
               | apply advances_work_order_rules
               | apply advances_evaluate_relevant_rules
               | apply advances_preserves; solve [ eauto with preserves ]
               | apply advances_preserves, preserves_datetime_now; typeclasses eauto ].
Qed.


End Batches.

(** A batch in which the first rule's condition raises: the overdue rule
    looks up [days_overdue], which the context lacks; the compliance rule
    after it is evaluated all the same, and is met. *)
Example batch_after_error :
  match fst (evaluate_relevant_rules example_runtime ["BR003"; "BR006"]
               {[ "compliance_percentage" := VFloat 50 ]} empty_tally example_processor) with
  | Ok t =>
      map (fun r => (er_rule_id r, er_evaluated r, er_condition_met r, er_error r))
        (rule_results t)
      = [("BR003", true, Some false, None); ("BR006", true, Some true, None)]
  | Raise _ => False
  end
  /\ fst (eval_condition example_runtime "days_overdue >= 7"
            {[ "compliance_percentage" := VFloat 50 ]} example_processor)
     = Raise (NameError "days_overdue").
Proof. vm_compute. split; reflexivity. Qed.

(** ** Workflow execution *)

Lemma task_moved_refl t : task_moved t t.
Proof. unfold task_moved. repeat split; auto. Qed.

Lemma task_moved_trans t1 t2 t3 : task_moved t1 t2 -> task_moved t2 t3 -> task_moved t1 t3.
Proof.
  unfold task_moved. intros (?&?&?&?&H12) (?&?&?&?&H23).
  repeat split; try congruence.
  destruct H23 as [E|[E|E]]; rewrite E; auto.
Qed.

Lemma tasks_moved_refl l : Forall2 task_moved l l.
Proof. induction l; constructor; auto using task_moved_refl. Qed.

Lemma tasks_moved_trans l1 l2 l3 :
  Forall2 task_moved l1 l2 -> Forall2 task_moved l2 l3 -> Forall2 task_moved l1 l3.
Proof. apply Forall2_trans. intros ? ? ?. apply task_moved_trans. Qed.

Lemma tasks_moved_completed now i l : Forall2 task_moved l (alter (mark_completed now) i l).
Proof.
  apply Forall2_alter_r; [apply tasks_moved_refl|].
  intros t t' _ _ (?&?&?&?&_). unfold task_moved. simpl. repeat split; auto.
Qed.

Lemma tasks_moved_failed i l : Forall2 task_moved l (alter mark_failed i l).
Proof.
  apply Forall2_alter_r; [apply tasks_moved_refl|].
  intros t t' _ _ (?&?&?&?&_). unfold task_moved. simpl. repeat split; auto.
Qed.

(** The insertion sort keeps the tasks it is given. *)
Lemma insert_task_In x y l : In y (insert_task x l) <-> y = x \/ In y l.
Proof.
  induction l as [|z l IH]; simpl.
  - intuition.
  - destruct (_ <=? _)%nat; simpl; [intuition | rewrite IH; intuition].
Qed.

Lemma sort_by_dependencies_In y l : In y (sort_by_dependencies l) <-> In y l.
Proof.
  unfold sort_by_dependencies. induction l as [|x l IH]; simpl; [reflexivity|].
  rewrite insert_task_In, IH. intuition.
Qed.

Lemma insert_task_length x l : length (insert_task x l) = S (length l).
Proof.
  induction l as [|z l IH]; simpl; [reflexivity|].
  destruct (_ <=? _)%nat; simpl; [reflexivity | now rewrite IH].
Qed.

Lemma sort_by_dependencies_length l : length (sort_by_dependencies l) = length l.
Proof.
  unfold sort_by_dependencies. induction l as [|x l IH]; simpl; [reflexivity|].
  now rewrite insert_task_length, IH.
Qed.

(** The tasks of a workflow are the entries of [workflow_tasks] that carry
    its identifier, each with its position. *)
Lemma tasks_of_workflow_In workflow tasks i task :
  In (i, task) (tasks_of_workflow workflow tasks)
  <-> tasks !! i = Some task /\ workflow_id task = workflow.
Proof.
  unfold tasks_of_workflow. rewrite filter_In, <- list_elem_of_In, elem_of_lookup_imap.
  simpl. rewrite String.eqb_eq. split.
  - intros [(j & u & [= -> ->] & Hl) Hw]. auto.
  - intros [Hl Hw]. split; [|exact Hw]. now exists i, task.
Qed.

Section Workflows.

Variable rt : PyRuntime.

Lemma total_execute_approval_task context : total (_execute_approval_task rt context).
Proof.
  unfold _execute_approval_task.
  repeat first [ step_total
               | apply total_create_approval_request
               | solve [ eauto with total ] ].
Qed.

(** The handler of a task returns, and the status it leaves depends on the
    type of the task alone. *)
Lemma run_handler_status task context s :
  exists result s',
    run_handler rt task context s = (Ok (result, handler_status (task_type task)), s').
Proof.
  unfold run_handler, handler_status, waits_for_decision.
  destruct (String.eqb_spec (task_type task) "validation") as [E|_];
    [rewrite E; now eexists _, _|].
  destruct (String.eqb_spec (task_type task) "approval") as [E|_].
  { destruct (total_execute_approval_task context s) as (result & s' & Ea).
    rewrite (bind_ok _ _ _ _ _ Ea). now eexists _, _. }
  destruct (String.eqb_spec (task_type task) "data_entry") as [E|_];
    [rewrite E; now eexists _, _|].
  destruct (String.eqb_spec (task_type task) "scheduling") as [E|_];
    [rewrite E; now eexists _, _|].
  destruct (String.eqb_spec (task_type task) "monitoring") as [E|_];
    [rewrite E; now eexists _, _|].
  destruct (String.eqb_spec (task_type task) "documentation") as [E|_];
    [rewrite E; now eexists _, _|].
  destruct (String.eqb_spec (task_type task) "procurement") as [E|_];
    now eexists _, _.
Qed.

(** [_execute_workflow_task] returns a result for the task it is given,
    with the status of the task's type; it never reports a failure. *)
Lemma execute_workflow_task_result task context s :
  exists r s',
    _execute_workflow_task rt task context s = (Ok r, s')
    /\ tr_task_id r = task_id task
    /\ tr_status r = handler_status (task_type task).
Proof.
  destruct (run_handler_status task context (set_clock_reads S s)) as (result & s1 & E).
  eexists _, _. split; [|split].
  - unfold _execute_workflow_task. apply try_ok.
    unfold bind at 1. unfold datetime_now at 1. rewrite (bind_ok _ _ _ _ _ E).
    reflexivity.
  - reflexivity.
  - reflexivity.
Qed.

Lemma preserves_execute_workflow_task {B} (f : State -> B)
    `{!IgnoresClock f} `{!IgnoresUuid f} `{!IgnoresApprovals f} task context :
  preserves f (_execute_workflow_task rt task context).
Proof.
  unfold _execute_workflow_task, run_handler, _execute_approval_task.
  repeat first [ step_preserves
               | solve [ eauto using preserves_create_approval_request with preserves ] ].
Qed.

Lemma total_execute_workflow_task task context :
  total (_execute_workflow_task rt task context).
Proof.
  apply total_try_handler. intros e.
  repeat first [ step_total | solve [ eauto with total ] ].
Qed.

Lemma well_behaved_execute_workflow_task : well_behaved (_execute_workflow_task rt).
Proof.
  intros task context. split.
  - apply total_execute_workflow_task.
  - apply preserves_execute_workflow_task; typeclasses eauto.
Qed.

Lemma well_behaved_failing_at failing e : well_behaved (failing_at rt failing e).
Proof.
  intros task context. unfold failing_at.
  destruct (String.eqb (task_id task) failing).
  - split.
    + apply total_try_handler. intros e'.
      repeat first [ step_total | solve [ eauto with total ] ].
    + repeat first [ step_preserves
                   | solve [ eauto with preserves ]
                   | apply preserves_datetime_now; typeclasses eauto ].
  - apply well_behaved_execute_workflow_task.
Qed.

End Workflows.

Section TaskLoop.

Variable rt : PyRuntime.

(** Filing a result: one more result is held, the task objects move as the
    executor may move them, and the failures already held stay. *)
Lemma record_task_moves x i r s :
  exists x' s',
    record_task rt x i r s = (Ok x', s')
    /\ results_count x' = S (results_count x)
    /\ Forall2 task_moved (workflow_tasks s) (workflow_tasks s')
    /\ exists more, xr_tasks_failed x' = xr_tasks_failed x ++ more.
Proof.
  unfold record_task, results_count.
  destruct (String.eqb (tr_status r) "completed").
  - eexists _, _. split; [reflexivity|]. simpl. split; [|split].
    + rewrite length_app. simpl. lia.
    + apply tasks_moved_completed.
    + exists []. now rewrite app_nil_r.
  - destruct (String.eqb (tr_status r) "failed").
    + eexists _, _. split; [reflexivity|]. simpl. split; [|split].
      * rewrite length_app. simpl. lia.
      * apply tasks_moved_failed.
      * now exists [r].
    + eexists _, _. split; [reflexivity|]. simpl. split; [|split].
      * rewrite length_app. simpl. lia.
      * apply tasks_moved_refl.
      * exists []. now rewrite app_nil_r.
Qed.

Lemma record_task_pending x i r s :
  tr_status r = "pending" ->
  record_task rt x i r s
  = (Ok (with_lists x (xr_tasks_executed x) (xr_tasks_pending x ++ [r]) (xr_tasks_failed x)),
     s).
Proof. intros H. unfold record_task. now rewrite H. Qed.

Lemma record_task_completed x i r s :
  tr_status r = "completed" ->
  record_task rt x i r s
  = (Ok (with_lists x (xr_tasks_executed x ++ [r]) (xr_tasks_pending x) (xr_tasks_failed x)),
     set_workflow_tasks (alter (mark_completed (clock rt (clock_reads s))) i)
       (set_clock_reads S s)).
Proof. intros H. unfold record_task. now rewrite H. Qed.

Lemma run_tasks_moves exec l context x s :
  well_behaved exec ->
  exists x' s',
    run_tasks rt exec l context x s = (Ok x', s')
    /\ results_count x' = (results_count x + length l)%nat
    /\ Forall2 task_moved (workflow_tasks s) (workflow_tasks s')
    /\ exists more, xr_tasks_failed x' = xr_tasks_failed x ++ more.
Proof.
  intros Hexec. revert x s. induction l as [|[i task] rest IH]; intros x s.
  - exists x, s. split; [reflexivity|]. split; [simpl; lia|].
    split; [apply tasks_moved_refl|]. exists []. now rewrite app_nil_r.
  - destruct (Hexec task context) as [Htotal Hkeep].
    destruct (Htotal s) as (r & s1 & Er).
    pose proof (Hkeep s) as Hk. rewrite Er in Hk. simpl in Hk.
    destruct (record_task_moves x i r s1) as (x1 & s2 & Erec & Hcount1 & Hmoved1 & more1 & Hf1).
    destruct (IH x1 s2) as (x' & s' & Erun & Hcount & Hmoved & more & Hf).
    exists x', s'. split; [|split; [|split]].
    + simpl. rewrite (bind_ok _ _ _ _ _ Er), (bind_ok _ _ _ _ _ Erec). exact Erun.
    + rewrite Hcount, Hcount1. simpl. lia.
    + rewrite <- Hk. eapply tasks_moved_trans; eassumption.
    + exists (more1 ++ more). now rewrite Hf, Hf1, <- app_assoc.
Qed.

(** With the executor of the source no result is a failure, a task of a
    waiting type is filed under [tasks_pending], and its object is left as
    it was. *)
Lemma run_tasks_waiting l context x s :
  exists x' s',
    run_tasks rt (_execute_workflow_task rt) l context x s = (Ok x', s')
    /\ xr_tasks_failed x' = xr_tasks_failed x
    /\ (forall i,
          (forall u, In (i, u) l -> waits_for_decision (task_type u) = true) ->
          workflow_tasks s' !! i = workflow_tasks s !! i)
    /\ (forall r, In r (xr_tasks_pending x) -> In r (xr_tasks_pending x'))
    /\ (forall j u,
          In (j, u) l -> waits_for_decision (task_type u) = true ->
          exists r,
            In r (xr_tasks_pending x')
            /\ tr_task_id r = task_id u /\ tr_status r = "pending").
Proof.
  revert x s. induction l as [|[i0 task] rest IH]; intros x s.
  - exists x, s. split; [reflexivity|]. split; [reflexivity|].
    split; [reflexivity|]. split; [auto|]. intros j u [].
  - destruct (execute_workflow_task_result rt task context s) as (r & s1 & Er & Hid & Hst).
    pose proof (preserves_execute_workflow_task rt workflow_tasks task context s) as Hk.
    rewrite Er in Hk. simpl in Hk.
    simpl. rewrite (bind_ok _ _ _ _ _ Er).
    unfold handler_status in Hst.
    destruct (waits_for_decision (task_type task)) eqn:Hw.
    + rewrite (bind_ok _ _ _ _ _ (record_task_pending x i0 r s1 Hst)).
      match goal with |- context [run_tasks _ _ rest context ?x1 s1] =>
        destruct (IH x1 s1) as (x' & s' & Erun & Hf & Hkeep & Hpend & Hfiled)
      end.
      exists x', s'. split; [exact Erun|]. split; [exact Hf|]. split; [|split].
      * intros i Hi. rewrite Hkeep, Hk; [reflexivity|]. intros u Hu. apply Hi. now right.
      * intros r0 Hr0. apply Hpend. simpl. apply in_or_app. now left.
      * intros j u [[= <- <-]|Hin] Hwu.
        -- exists r. split; [|split; [exact Hid | exact Hst]].
           apply Hpend. simpl. apply in_or_app. right. now left.
        -- now apply Hfiled with (j := j).
    + rewrite (bind_ok _ _ _ _ _ (record_task_completed x i0 r s1 Hst)).
      match goal with |- context [run_tasks _ _ rest context ?x1 ?s2] =>
        destruct (IH x1 s2) as (x' & s' & Erun & Hf & Hkeep & Hpend & Hfiled)
      end.
      exists x', s'. split; [exact Erun|]. split; [exact Hf|]. split; [|split].
      * intros i Hi. rewrite Hkeep by (intros u Hu; apply Hi; now right).
        simpl. rewrite Hk. apply list_lookup_alter_ne.
        intros ->. specialize (Hi task (or_introl eq_refl)). congruence.
      * intros r0 Hr0. apply Hpend. exact Hr0.
      * intros j u [[= <- <-]|Hin] Hwu; [congruence|].
        now apply Hfiled with (j := j).
Qed.

End TaskLoop.

Section Execution.

Variable rt : PyRuntime.

(** The way through [execute_workflow] when the workflow has tasks and the
    loop returns. *)
Lemma execute_workflow_with_runs exec workflow context s p rest x1 s1 :
  tasks_of_workflow workflow (workflow_tasks s) = p :: rest ->
  run_tasks rt exec (sort_by_dependencies (p :: rest)) (default ∅ context)
    (started_execution workflow (isoformat rt (clock rt (clock_reads s))) (default ∅ context))
    (set_clock_reads S s)
  = (Ok x1, s1) ->
  let x2 := with_status (with_status x1 (overall_status x1) None None)
              (overall_status x1) None (Some (isoformat rt (clock rt (clock_reads s1)))) in
  execute_workflow_with rt exec workflow context s
  = (Ok x2, set_workflow_history (fun h => h ++ [x2]) (set_clock_reads S s1)).
Proof.
  intros Htasks Hrun x2. unfold execute_workflow_with. apply try_ok.
  unfold bind at 1. unfold datetime_now at 1. unfold bind at 1. unfold gets at 1.
  change (workflow_tasks (set_clock_reads S s)) with (workflow_tasks s).
  rewrite Htasks. rewrite (bind_ok _ _ _ _ _ Hrun).
  reflexivity.
Qed.

Lemma overall_status_failed x : xr_tasks_failed x <> [] -> overall_status x = "failed".
Proof. unfold overall_status. now destruct (xr_tasks_failed x). Qed.

Lemma overall_status_pending x :
  xr_tasks_failed x = [] -> xr_tasks_pending x <> [] -> overall_status x = "pending".
Proof. unfold overall_status. intros ->. now destruct (xr_tasks_pending x). Qed.


(** C5, as the code has it.  Running a workflow that holds a task of type
    approval or procurement returns; the task's result is filed under
    [tasks_pending] with status "pending", the task object is left exactly
    as it was (its status is not set to OnHold), and the overall status is
    "pending". *)
Theorem waiting_task_is_left_pending workflow context s i task :
  workflow_tasks s !! i = Some task ->
  workflow_id task = workflow ->
  waits_for_decision (task_type task) = true ->
  exists x s',
    execute_workflow rt workflow context s = (Ok x, s')
    /\ workflow_tasks s' !! i = Some task
    /\ (exists r,
          In r (xr_tasks_pending x)
          /\ tr_task_id r = task_id task /\ tr_status r = "pending")
    /\ xr_tasks_failed x = []
    /\ xr_status x = "pending".
Proof.
  intros Hi Hw Hwait.
  assert (In (i, task) (tasks_of_workflow workflow (workflow_tasks s))) as Hin
    by now apply tasks_of_workflow_In.
  destruct (tasks_of_workflow workflow (workflow_tasks s)) as [|p rest] eqn:Htasks;
    [destruct Hin|].
  destruct (run_tasks_waiting rt (sort_by_dependencies (p :: rest)) (default ∅ context)
              (started_execution workflow (isoformat rt (clock rt (clock_reads s)))
                 (default ∅ context))
              (set_clock_reads S s))
    as (x1 & s1 & Hrun & Hfailed & Hkeep & _ & Hfiled).
  unfold execute_workflow.
  rewrite (execute_workflow_with_runs _ _ _ _ _ _ _ _ Htasks Hrun).
  eexists _, _. split; [reflexivity|].
  destruct (Hfiled i task) as (r & Hr & Hid & Hst);
    [now apply sort_by_dependencies_In | exact Hwait |].
  simpl in Hfailed. simpl. split; [|split; [|split]].
  - rewrite Hkeep; [exact Hi|].
    intros u Hu. apply (proj1 (sort_by_dependencies_In _ _)) in Hu.
    rewrite <- Htasks in Hu.
    apply (proj1 (tasks_of_workflow_In _ _ _ _)) in Hu. destruct Hu as [Hu _].
    assert (u = task) as -> by congruence. exact Hwait.
  - now exists r.
  - exact Hfailed.
  - apply overall_status_pending; [exact Hfailed|]. intros E. rewrite E in Hr. destruct Hr.
Qed.

End Execution.

(** ** Registration of tasks *)

Lemma dict_set_In task l : In task (dict_set task l).
Proof.
  induction l as [|a l IH]; simpl; [now left|].
  destruct (String.eqb (task_id a) (task_id task)); simpl; auto.
Qed.

Lemma dict_set_keeps task l u :
  In u l ->
  exists u', In u' (dict_set task l) /\ task_id u' = task_id u /\ (u' = u \/ u' = task).
Proof.
  induction l as [|a l IH]; [intros []|]. simpl.
  destruct (String.eqb_spec (task_id a) (task_id task)) as [E|_]; intros [<-|Hin].
  - exists task. simpl. auto.
  - exists u. simpl. auto.
  - exists a. simpl. auto.
  - destruct (IH Hin) as (u' & H1 & H2 & H3). exists u'. simpl. auto.
Qed.

Lemma register_keeps rest l u :
  In u l ->
  exists u',
    In u' (foldl (fun l task => dict_set task l) l rest)
    /\ task_id u' = task_id u /\ (u' = u \/ In u' rest).
Proof.
  revert l u. induction rest as [|a rest IH]; intros l u Hin; simpl.
  - exists u. auto.
  - destruct (dict_set_keeps a l u Hin) as (u1 & H1 & H2 & H3).
    destruct (IH _ _ H1) as (u' & H1' & H2' & H3').
    exists u'. split; [exact H1'|]. split; [congruence|].
    destruct H3' as [->|?]; [|auto]. destruct H3 as [->| ->]; auto.
Qed.

(** Every task handed to the registration loop is found under its
    identifier afterwards: the stored task is the last one of the list
    that carries the identifier. *)
Lemma register_stores tasks l t :
  In t tasks ->
  exists t',
    In t' (foldl (fun l task => dict_set task l) l tasks)
    /\ task_id t' = task_id t /\ In t' tasks.
Proof.
  revert l. induction tasks as [|a rest IH]; intros l; [intros []|].
  intros [<-|Hin]; simpl.
  - destruct (register_keeps rest _ a (dict_set_In a l)) as (u' & H1 & H2 & H3).
    exists u'. split; [exact H1|]. split; [exact H2|].
    destruct H3 as [->|?]; auto.
  - destruct (IH (dict_set a l) Hin) as (t' & H1 & H2 & H3). exists t'. auto.
Qed.

Section Templates.

Variable rt : PyRuntime.

(** C3, as the code has it.  Registration checks nothing: whatever the
    dependencies of the tasks are, cyclic or not, the tasks are stored, each
    identifier of the template is found afterwards, and the workflow can be
    executed: the run reports no error and no failure, gives every task of
    the workflow a result, and ends "completed" or "pending". *)
Theorem any_template_is_accepted tasks workflow context s :
  tasks <> [] ->
  Forall (fun t => workflow_id t = workflow) tasks ->
  exists s1 x s2,
    register_tasks tasks s = (Ok tt, s1)
    /\ (forall t, In t tasks ->
        exists t', In t' (workflow_tasks s1) /\ task_id t' = task_id t)
    /\ execute_workflow rt workflow context s1 = (Ok x, s2)
    /\ xr_error x = None
    /\ xr_tasks_failed x = []
    /\ results_count x = length (tasks_of_workflow workflow (workflow_tasks s1))
    /\ (0 < results_count x)%nat
    /\ (xr_status x = "completed" \/ xr_status x = "pending").
Proof.
  intros Hne Hall.
  set (s1 := set_workflow_tasks (fun l => foldl (fun l task => dict_set task l) l tasks) s).
  assert (forall t, In t tasks ->
          exists t', In t' (workflow_tasks s1) /\ task_id t' = task_id t /\ In t' tasks)
    as Hstored by (intros t Ht; apply register_stores, Ht).
  assert (exists t0, In t0 tasks) as [t0 Ht0]
    by (destruct tasks as [|t0 ?]; [congruence | exists t0; now left]).
  destruct (Hstored t0 Ht0) as (t' & Hin' & _ & Hfrom).
  assert (workflow_id t' = workflow) as Hw.
  { rewrite Forall_forall in Hall. apply Hall. now apply list_elem_of_In. }
  apply list_elem_of_In, list_elem_of_lookup in Hin'. destruct Hin' as [i Hi].
  assert (In (i, t') (tasks_of_workflow workflow (workflow_tasks s1))) as Hin
    by now apply tasks_of_workflow_In.
  destruct (tasks_of_workflow workflow (workflow_tasks s1)) as [|p l] eqn:Htasks;
    [destruct Hin|].
  destruct (run_tasks_moves rt (_execute_workflow_task rt) (sort_by_dependencies (p :: l))
              (default ∅ context)
              (started_execution workflow (isoformat rt (clock rt (clock_reads s1)))
                 (default ∅ context))
              (set_clock_reads S s1) (well_behaved_execute_workflow_task rt))
    as (x1 & s2 & Hrun & Hcount & _ & _).
  destruct (run_tasks_waiting rt (sort_by_dependencies (p :: l)) (default ∅ context)
              (started_execution workflow (isoformat rt (clock rt (clock_reads s1)))
                 (default ∅ context))
              (set_clock_reads S s1))
    as (x1' & s2' & Hrun' & Hfailed & _).
  rewrite Hrun in Hrun'. injection Hrun' as <- <-.
  exists s1. eexists _, _. split; [reflexivity|].
  split; [intros t Ht; destruct (Hstored t Ht) as (u & ? & ? & _); now exists u|].
  unfold execute_workflow.
  split; [exact (execute_workflow_with_runs rt _ _ _ _ _ _ _ _ Htasks Hrun)|].
  assert (results_count x1 = length (p :: l)) as Hc.
  { rewrite Hcount, sort_by_dependencies_length. reflexivity. }
  simpl in Hfailed.
  split; [reflexivity|]. split; [exact Hfailed|].
  split; [rewrite Htasks; exact Hc|].
  split; [change (0 < results_count x1)%nat; rewrite Hc; simpl; lia|].
  simpl. unfold overall_status. rewrite Hfailed.
  destruct (xr_tasks_pending x1); auto.
Qed.

End Templates.

(** ** The operations of the processor *)

Section Operations.

Variable rt : PyRuntime.

Lemma preserves_record_task {B} (f : State -> B)
    `{!IgnoresClock f} `{!IgnoresTasks f} x i r :
  preserves f (record_task rt x i r).
Proof.
  unfold record_task.
  repeat first [ step_preserves | solve [ eauto with preserves ] ].
Qed.

Lemma preserves_run_tasks {B} (f : State -> B)
    `{!IgnoresClock f} `{!IgnoresTasks f} exec l context x :
  (forall task, preserves f (exec task context)) ->
  preserves f (run_tasks rt exec l context x).
Proof.
  intros Hexec. revert x. induction l as [|[i task] rest IH]; intros x; simpl.
  - apply preserves_ret.
  - repeat first [ step_preserves
                 | apply Hexec
                 | apply IH
                 | solve [ eauto using preserves_record_task ] ].
Qed.

(** Running a workflow writes to the task objects, the workflow history,
    the approval requests and the two counters, and to nothing else. *)
Lemma preserves_execute_workflow {B} (f : State -> B)
    `{!IgnoresClock f} `{!IgnoresUuid f} `{!IgnoresApprovals f}
    `{!IgnoresTasks f} `{!IgnoresRuns f} workflow context :
  preserves f (execute_workflow rt workflow context).
Proof.
  unfold execute_workflow, execute_workflow_with.
  repeat first [ step_preserves
               | apply preserves_run_tasks; [assumption | assumption | intros ?]
               | solve [ eauto using preserves_execute_workflow_task with preserves ] ].
Qed.

Lemma catalog_advanced_operation s op : catalog_advanced s (run_operation rt s op).
Proof.
  destruct op as [rule_id context| | |workflow context]; simpl.
  - apply catalog_advanced_evaluate.
  - apply advances_process_inventory.
  - apply advances_process_compliance.
  - apply catalog_advanced_same.
    apply (preserves_execute_workflow business_rules).
Qed.

Lemma catalog_advanced_operations ops s : catalog_advanced s (run_operations rt s ops).
Proof.
  unfold run_operations. revert s. induction ops as [|op ops IH]; intros s; simpl.
  - apply catalog_advanced_refl.
  - eapply catalog_advanced_trans; [apply catalog_advanced_operation | apply IH].
Qed.

(** C8.  Through any sequence of operations of the processor (rule
    evaluations, the two batches, workflow runs) every rule of the
    catalogue stays in the catalogue, and its execution count at the end is
    at least its count at the start: no operation lowers or resets it. *)
Theorem execution_count_never_decreases ops s rule_id rule :
  business_rules s !! rule_id = Some rule ->
  exists rule',
    business_rules (run_operations rt s ops) !! rule_id = Some rule'
    /\ execution_count rule <= execution_count rule'.
Proof.
  intros H. pose proof (catalog_advanced_operations ops s rule_id) as Hadv.
  rewrite H in Hadv. destruct Hadv as (rule' & E & _ & _ & _ & _ & _ & Hle).
  now exists rule'.
Qed.

End Operations.

Lemma execution_count_never_decreases_witness :
  exists rule',
    business_rules
      (run_operations example_runtime example_processor
         [OpEvaluateRule "BR002" {[ "stock_level" := VInt 3 ]};
          OpExecuteWorkflow "WF_EQUIPMENT_CHECKOUT" None;
          OpEvaluateRule "BR002" {[ "stock_level" := VInt 3 ]}])
    !! "BR002" = Some rule'
    /\ 0 <= execution_count rule'.
Proof.
  edestruct (execution_count_never_decreases example_runtime
               [OpEvaluateRule "BR002" {[ "stock_level" := VInt 3 ]};
                OpExecuteWorkflow "WF_EQUIPMENT_CHECKOUT" None;
                OpEvaluateRule "BR002" {[ "stock_level" := VInt 3 ]}]
               example_processor "BR002") as (rule' & E & Hle).
  - vm_compute. reflexivity.
  - exists rule'. split; [exact E | exact Hle].
Defined.

(** Two evaluations of the stock rule that trigger, with a workflow run in
    between, leave its count at two. *)
Example execution_count_after_two_triggers :
  execution_count
    <$> business_rules
          (run_operations example_runtime example_processor
             [OpEvaluateRule "BR002" {[ "stock_level" := VInt 3 ]};
              OpExecuteWorkflow "WF_EQUIPMENT_CHECKOUT" None;
              OpEvaluateRule "BR002" {[ "stock_level" := VInt 3 ]}])
        !! "BR002"
  = Some 2.
Proof. vm_compute. reflexivity. Qed.

(** ** Closed runs of the workflow executor *)

(** C1, on the shipped equipment checkout workflow.  The executor runs the
    five tasks in the order of the stable sort.  When it reaches task 004,
    whose one dependency is task 003, the approval task 003 has been run and
    is still Pending; task 004 is executed and set to Completed all the
    same, and so is task 005 after it. *)
Theorem dependent_runs_while_dependency_pending :
  map (fun x => task_id (snd x))
    (sort_by_dependencies
       (tasks_of_workflow "WF_EQUIPMENT_CHECKOUT" (workflow_tasks example_processor)))
  = ["WF_EQUIPMENT_CHECKOUT_001"; "WF_EQUIPMENT_CHECKOUT_002"; "WF_EQUIPMENT_CHECKOUT_003";
     "WF_EQUIPMENT_CHECKOUT_004"; "WF_EQUIPMENT_CHECKOUT_005"]
  /\ task_board "WF_EQUIPMENT_CHECKOUT"
       (snd (run_tasks example_runtime (_execute_workflow_task example_runtime)
               (take 3 (sort_by_dependencies
                          (tasks_of_workflow "WF_EQUIPMENT_CHECKOUT"
                             (workflow_tasks example_processor))))
               ∅ (started_execution "WF_EQUIPMENT_CHECKOUT" "" ∅) example_processor))
     = [("WF_EQUIPMENT_CHECKOUT_001", COMPLETED, []);
        ("WF_EQUIPMENT_CHECKOUT_002", COMPLETED, ["WF_EQUIPMENT_CHECKOUT_001"]);
        ("WF_EQUIPMENT_CHECKOUT_003", PENDING, ["WF_EQUIPMENT_CHECKOUT_002"]);
        ("WF_EQUIPMENT_CHECKOUT_004", PENDING, ["WF_EQUIPMENT_CHECKOUT_003"]);
        ("WF_EQUIPMENT_CHECKOUT_005", PENDING, ["WF_EQUIPMENT_CHECKOUT_004"])]
  /\ task_board "WF_EQUIPMENT_CHECKOUT"
       (snd (execute_workflow example_runtime "WF_EQUIPMENT_CHECKOUT" None
               example_processor))
     = [("WF_EQUIPMENT_CHECKOUT_001", COMPLETED, []);
        ("WF_EQUIPMENT_CHECKOUT_002", COMPLETED, ["WF_EQUIPMENT_CHECKOUT_001"]);
        ("WF_EQUIPMENT_CHECKOUT_003", PENDING, ["WF_EQUIPMENT_CHECKOUT_002"]);
        ("WF_EQUIPMENT_CHECKOUT_004", COMPLETED, ["WF_EQUIPMENT_CHECKOUT_003"]);
        ("WF_EQUIPMENT_CHECKOUT_005", COMPLETED, ["WF_EQUIPMENT_CHECKOUT_004"])]
  /\ match fst (execute_workflow example_runtime "WF_EQUIPMENT_CHECKOUT" None
                  example_processor) with
     | Ok x =>
         map tr_task_id (xr_tasks_executed x)
         = ["WF_EQUIPMENT_CHECKOUT_001"; "WF_EQUIPMENT_CHECKOUT_002";
            "WF_EQUIPMENT_CHECKOUT_004"; "WF_EQUIPMENT_CHECKOUT_005"]
         /\ map tr_task_id (xr_tasks_pending x) = ["WF_EQUIPMENT_CHECKOUT_003"]
     | Raise _ => False
     end.
Proof. vm_compute. repeat split. Qed.



Lemma any_template_is_accepted_witness :
  exists s1 x s2,
    register_tasks cyclic_tasks example_processor = (Ok tt, s1)
    /\ execute_workflow example_runtime "WF_CYCLE" None s1 = (Ok x, s2)
    /\ xr_error x = None
    /\ xr_tasks_failed x = [].
Proof.
  edestruct (any_template_is_accepted example_runtime cyclic_tasks "WF_CYCLE" None
               example_processor)
    as (s1 & x & s2 & E1 & _ & E2 & Herr & Hfailed & _).
  - discriminate.
  - repeat constructor.
  - exists s1, x, s2. repeat split; assumption.
Defined.

(** C3, as the spec states it, fails: two tasks that depend on each other
    are registered without an error, and the workflow made of them runs to
    "completed" with both tasks executed. *)
Lemma cyclic_template_counterexample :
  fst (register_tasks cyclic_tasks example_processor) = Ok tt
  /\ task_board "WF_CYCLE" (snd (register_tasks cyclic_tasks example_processor))
     = [("WF_CYCLE_A", PENDING, ["WF_CYCLE_B"]); ("WF_CYCLE_B", PENDING, ["WF_CYCLE_A"])]
  /\ match fst (execute_workflow example_runtime "WF_CYCLE" None
                  (snd (register_tasks cyclic_tasks example_processor))) with
     | Ok x =>
         xr_status x = "completed" /\ xr_error x = None
         /\ map tr_task_id (xr_tasks_executed x) = ["WF_CYCLE_A"; "WF_CYCLE_B"]
     | Raise _ => False
     end.
Proof. vm_compute. repeat split. Qed.

Lemma waiting_task_is_left_pending_witness :
  exists x s',
    execute_workflow example_runtime "WF_INVENTORY_REORDER" None example_processor
    = (Ok x, s')
    /\ xr_tasks_failed x = []
    /\ xr_status x = "pending".
Proof.
  edestruct (waiting_task_is_left_pending example_runtime "WF_INVENTORY_REORDER" None
               example_processor 7)
    as (x & s' & E & _ & _ & Hfailed & Hstatus).
  - vm_compute. reflexivity.
  - reflexivity.
  - reflexivity.
  - exists x, s'. repeat split; assumption.
Defined.

(** C5, as the spec states it, fails: in the inventory reorder workflow the
    approval task 003 and the procurement task 004 are run and keep the
    status Pending (neither is put OnHold), and task 005, which depends on
    004, is executed and Completed in the same run, with no resume call. *)
Lemma waiting_task_counterexample :
  task_board "WF_INVENTORY_REORDER"
    (snd (execute_workflow example_runtime "WF_INVENTORY_REORDER" None example_processor))
  = [("WF_INVENTORY_REORDER_001", COMPLETED, []);
     ("WF_INVENTORY_REORDER_002", COMPLETED, ["WF_INVENTORY_REORDER_001"]);
     ("WF_INVENTORY_REORDER_003", PENDING, ["WF_INVENTORY_REORDER_002"]);
     ("WF_INVENTORY_REORDER_004", PENDING, ["WF_INVENTORY_REORDER_003"]);
     ("WF_INVENTORY_REORDER_005", COMPLETED, ["WF_INVENTORY_REORDER_004"])]
  /\ match fst (execute_workflow example_runtime "WF_INVENTORY_REORDER" None
                  example_processor) with
     | Ok x =>
         map tr_task_id (xr_tasks_pending x)
         = ["WF_INVENTORY_REORDER_003"; "WF_INVENTORY_REORDER_004"]
         /\ map tr_task_id (xr_tasks_executed x)
            = ["WF_INVENTORY_REORDER_001"; "WF_INVENTORY_REORDER_002";
               "WF_INVENTORY_REORDER_005"]
     | Raise _ => False
     end.
Proof. vm_compute. repeat split. Qed.

(** ** Further properties of rule evaluation *)

Section RuleProperties.

Variable rt : PyRuntime.

(** X1.  A rule that is switched off is not evaluated: the result says
    [evaluated = False] with the reason "Rule is disabled" and reports no
    condition; the clock is not read, nothing is appended to the history
    and the state is the one found. *)
Theorem disabled_rule_is_skipped rule_id context s rule :
  business_rules s !! rule_id = Some rule -> enabled rule = false ->
  exists r,
    evaluate_business_rule rt rule_id context s = (Ok r, s)
    /\ er_evaluated r = false
    /\ er_reason r = Some "Rule is disabled"
    /\ er_rule_name r = Some (rule_name rule)
    /\ er_condition_met r = None
    /\ er_error r = None.
Proof.
  intros H Hen. rewrite (evaluate_disabled rt _ _ _ _ H Hen).
  eexists. repeat split.
Qed.

(** X2.  The history receives exactly the results of evaluations that took
    place: the returned result is appended when it says [evaluated = True],
    and the history is left as it was otherwise (unknown or disabled
    rule).  Entries already there are never touched. *)
Theorem history_records_evaluations rule_id context s :
  exists r s',
    evaluate_business_rule rt rule_id context s = (Ok r, s')
    /\ rule_execution_history s'
       = rule_execution_history s ++ (if er_evaluated r then [r] else []).
Proof.
  destruct (business_rules s !! rule_id) as [rule|] eqn:H.
  2: { rewrite (evaluate_unknown rt _ _ _ H). eexists _, _. split; [reflexivity|].
       simpl. now rewrite app_nil_r. }
  destruct (enabled rule) eqn:Hen.
  2: { rewrite (evaluate_disabled rt _ _ _ _ H Hen). eexists _, _. split; [reflexivity|].
       simpl. now rewrite app_nil_r. }
  destruct (total_evaluate_condition rt (condition rule) context (set_clock_reads S s))
    as (b & s1 & Hc).
  pose proof (preserves_evaluate_condition rt rule_execution_history (condition rule)
                context (set_clock_reads S s)) as P1.
  rewrite Hc in P1. simpl in P1.
  destruct b.
  - destruct (total_execute_rule_action rt rule context s1) as (acts & s2 & Ha).
    pose proof (preserves_execute_rule_action rt rule_execution_history rule context s1)
      as P2.
    rewrite Ha in P2. simpl in P2.
    rewrite (evaluate_met rt _ _ _ _ _ _ _ H Hen Hc Ha).
    eexists _, _. split; [reflexivity|]. simpl. now rewrite P2, P1.
  - rewrite (evaluate_not_met rt _ _ _ _ _ H Hen Hc).
    eexists _, _. split; [reflexivity|]. simpl. now rewrite P1.
Qed.

(** X3.  An evaluation raises the rule's execution count by one exactly
    when the result reports the condition as met, and then stamps
    [last_executed]; when the condition is not met, or the rule is
    disabled, the rule is left as it was.  The other rules of the
    catalogue are never touched. *)
Theorem trigger_counts_once rule_id context s rule :
  business_rules s !! rule_id = Some rule ->
  exists r s' rule',
    evaluate_business_rule rt rule_id context s = (Ok r, s')
    /\ business_rules s' !! rule_id = Some rule'
    /\ execution_count rule'
       = execution_count rule + (if default false (er_condition_met r) then 1 else 0)
    /\ (default false (er_condition_met r) = true -> is_Some (last_executed rule'))
    /\ (default false (er_condition_met r) = false -> rule' = rule)
    /\ (forall other, other <> rule_id ->
        business_rules s' !! other = business_rules s !! other).
Proof.
  intros H.
  destruct (enabled rule) eqn:Hen.
  2: { rewrite (evaluate_disabled rt _ _ _ _ H Hen). exists (disabled_result rule_id rule), s, rule.
       simpl. repeat split; auto; try lia; discriminate. }
  destruct (total_evaluate_condition rt (condition rule) context (set_clock_reads S s))
    as (b & s1 & Hc).
  pose proof (preserves_evaluate_condition rt business_rules (condition rule)
                context (set_clock_reads S s)) as P1.
  rewrite Hc in P1. simpl in P1.
  destruct b.
  - destruct (total_execute_rule_action rt rule context s1) as (acts & s2 & Ha).
    pose proof (preserves_execute_rule_action rt business_rules rule context s1) as P2.
    rewrite Ha in P2. simpl in P2.
    rewrite (evaluate_met rt _ _ _ _ _ _ _ H Hen Hc Ha).
    eexists _, _, _. split; [reflexivity|]. simpl.
    split; [apply lookup_insert_eq|]. simpl.
    split; [reflexivity|]. split; [intros _; now eexists|].
    split; [discriminate|].
    intros other Hne. rewrite lookup_insert_ne by congruence. now rewrite P2, P1.
  - rewrite (evaluate_not_met rt _ _ _ _ _ H Hen Hc).
    eexists _, _, rule. split; [reflexivity|]. simpl. rewrite P1.
    repeat split; auto; try lia; discriminate.
Qed.

(** The action handlers return; each is a [try] whose handler returns. *)
Lemma total_send_critical_stock_alert context : total (_send_critical_stock_alert rt context).
Proof. apply total_try_handler. intros e. apply total_ret. Qed.

Lemma total_escalate_to_supervisor context : total (_escalate_to_supervisor rt context).
Proof. apply total_try_handler. intros e. apply total_ret. Qed.

Lemma total_require_valid_work_order context : total (_require_valid_work_order rt context).
Proof. apply total_try_handler. intros e. apply total_ret. Qed.

Lemma total_create_purchase_requisition context :
  total (_create_purchase_requisition rt context).
Proof. apply total_try_handler. intros e. apply total_ret. Qed.

Lemma total_send_compliance_alert context : total (_send_compliance_alert context).
Proof. apply total_try_handler. intros e. apply total_ret. Qed.

Lemma total_require_bulk_checkout_approval context :
  total (_require_bulk_checkout_approval rt context).
Proof. apply total_try_handler. intros e. apply total_ret. Qed.

Lemma total_set_high_priority context : total (_set_high_priority rt context).
Proof. apply total_try_handler. intros e. apply total_ret. Qed.

Lemma one_message {A} (m : M A) (f : A -> string) h s :
  total m ->
  exists a s', try_except (x <- m ;; ret [f x]) h s = (Ok [a], s').
Proof.
  intros Hm. destruct (Hm s) as (x & s' & E).
  exists (f x), s'. apply try_ok. now rewrite (bind_ok _ _ _ _ _ E).
Qed.

(** Every triggered rule reports exactly one action message, whatever its
    action and the context are. *)
Lemma execute_rule_action_one_message rule context s :
  exists a s', _execute_rule_action rt rule context s = (Ok [a], s').
Proof.
  unfold _execute_rule_action. cbv zeta.
  repeat lazymatch goal with
         | |- context [if String.eqb ?a ?b then _ else _] => destruct (String.eqb a b)
         end;
    first [ apply one_message;
            first [ apply total_create_approval_request
                  | apply total_send_critical_stock_alert
                  | apply total_escalate_to_supervisor
                  | apply total_require_valid_work_order
                  | apply total_create_purchase_requisition
                  | apply total_send_compliance_alert
                  | apply total_require_bulk_checkout_approval
                  | apply total_set_high_priority ]
          | now eexists _, _ ].
Qed.

(** X4.  A rule whose action is none of the eight known names still
    triggers without an error: the one message it reports is
    "Unknown action: <name>", and the state is left as it was. *)
Theorem unknown_action_is_reported rule context s :
  ~ In (action rule) known_actions ->
  _execute_rule_action rt rule context s
  = (Ok ["Unknown action: " +:+ action rule], s).
Proof.
  intros Hnot. unfold _execute_rule_action. cbv zeta.
  repeat lazymatch goal with
         | |- context [if String.eqb (action rule) ?b then _ else _] =>
             destruct (String.eqb_spec (action rule) b) as [E|_];
             [exfalso; apply Hnot; rewrite E; simpl; tauto|]
         end.
  reflexivity.
Qed.

(** The request [_create_approval_request] builds for a rule. *)
Lemma create_approval_request_stores rule context s :
  let id := "APPR_" +:+ strftime rt (clock rt (clock_reads s)) +:+ "_"
            +:+ substring 0 8 (uuid4_hex rt (uuid_draws s)) in
  exists req s',
    _create_approval_request rt (Some rule) context s = (Ok id, s')
    /\ approval_requests s' = <[id := req]> (approval_requests s)
    /\ request_id req = id
    /\ request_status req = "pending"
    /\ request_priority req = HIGH
    /\ requester req = context_get context "requester" (VStr "unknown")
    /\ approver req = context_get context "approver" (VStr "supervisor")
    /\ justification req
       = context_get context "justification"
           (VStr ("Triggered by rule: " +:+ rule_name rule)).
Proof. intros id. eexists _, _. split; [reflexivity|]. simpl. repeat split. Qed.

(** X5.  A rule whose action is [create_approval_request] files one
    approval request when it triggers: the message names the request's
    identifier, the request is found under that identifier, pending and of
    high priority, with requester, approver and justification taken from
    the context or defaulted; the requests under other identifiers are
    untouched. *)
Theorem approval_action_files_request rule context s :
  action rule = "create_approval_request" ->
  exists id req s',
    _execute_rule_action rt rule context s
    = (Ok ["Created approval request: " +:+ id], s')
    /\ approval_requests s' !! id = Some req
    /\ request_id req = id
    /\ request_status req = "pending"
    /\ request_priority req = HIGH
    /\ requester req = context_get context "requester" (VStr "unknown")
    /\ approver req = context_get context "approver" (VStr "supervisor")
    /\ justification req
       = context_get context "justification"
           (VStr ("Triggered by rule: " +:+ rule_name rule))
    /\ (forall other, other <> id ->
        approval_requests s' !! other = approval_requests s !! other).
Proof.
  intros Hact.
  destruct (create_approval_request_stores rule context s)
    as (req & s' & E & Hstore & Hid & Hst & Hpr & Hrq & Hap & Hju).
  eexists _, req, s'. split.
  - unfold _execute_rule_action. cbv zeta. rewrite Hact. simpl.
    apply try_ok. rewrite (bind_ok _ _ _ _ _ E). reflexivity.
  - rewrite Hstore. split; [apply lookup_insert_eq|].
    repeat (split; [assumption|]).
    intros other Hne. apply lookup_insert_ne. congruence.
Qed.

(** X6.  When the catalogue holds no rule BR001, an approval task files no
    approval request: the handler's message carries the error text, the
    approval requests are left as they were, and the task is reported
    "pending" all the same, not "failed". *)
Theorem approval_task_without_rule task context s :
  task_type task = "approval" ->
  business_rules s !! "BR001" = None ->
  exists r s',
    _execute_workflow_task rt task context s = (Ok r, s')
    /\ tr_status r = "pending"
    /\ tr_result r
       = Some "Approval request created: Error: 'NoneType' object has no attribute 'rule_name'"
    /\ tr_error r = None
    /\ approval_requests s' = approval_requests s.
Proof.
  intros Htype Hrule. eexists _, _. split.
  - unfold _execute_workflow_task. apply try_ok.
    unfold bind at 1. unfold datetime_now at 1.
    unfold run_handler. rewrite Htype. simpl.
    unfold _execute_approval_task. unfold bind at 1. unfold bind at 1. unfold bind at 1.
    unfold gets at 1. simpl business_rules. rewrite Hrule.
    reflexivity.
  - simpl. repeat split.
Qed.

End RuleProperties.

Lemma disabled_rule_is_skipped_witness :
  exists r,
    evaluate_business_rule example_runtime "BR002" {[ "stock_level" := VInt 3 ]}
      disabled_processor = (Ok r, disabled_processor)
    /\ er_evaluated r = false
    /\ er_reason r = Some "Rule is disabled".
Proof.
  edestruct (disabled_rule_is_skipped example_runtime "BR002" {[ "stock_level" := VInt 3 ]}
               disabled_processor) as (r & E & H1 & H2 & _).
  - vm_compute. reflexivity.
  - reflexivity.
  - exists r. repeat split; assumption.
Defined.

Lemma trigger_counts_once_witness :
  exists r s' rule',
    evaluate_business_rule example_runtime "BR002" {[ "stock_level" := VInt 3 ]}
      example_processor = (Ok r, s')
    /\ business_rules s' !! "BR002" = Some rule'
    /\ execution_count rule' = 0 + (if default false (er_condition_met r) then 1 else 0).
Proof.
  edestruct (trigger_counts_once example_runtime "BR002" {[ "stock_level" := VInt 3 ]}
               example_processor) as (r & s' & rule' & E & Hl & Hc & _).
  - vm_compute. reflexivity.
  - exists r, s', rule'. repeat split; assumption.
Defined.

Lemma unknown_action_is_reported_witness :
  _execute_rule_action example_runtime paging_rule ∅ example_processor
  = (Ok ["Unknown action: page_on_call"], example_processor).
Proof.
  apply (unknown_action_is_reported example_runtime paging_rule ∅ example_processor).
  simpl. intuition discriminate.
Defined.

Lemma approval_action_files_request_witness :
  exists id req s',
    _execute_rule_action example_runtime approval_rule ∅ example_processor
    = (Ok ["Created approval request: " +:+ id], s')
    /\ approval_requests s' !! id = Some req
    /\ request_status req = "pending".
Proof.
  edestruct (approval_action_files_request example_runtime approval_rule ∅ example_processor)
    as (id & req & s' & E & Hl & _ & Hst & _).
  - reflexivity.
  - exists id, req, s'. repeat split; assumption.
Defined.

Lemma approval_task_without_rule_witness :
  exists r s',
    _execute_workflow_task example_runtime approval_task ∅ unruled_processor = (Ok r, s')
    /\ tr_status r = "pending"
    /\ approval_requests s' = approval_requests unruled_processor.
Proof.
  edestruct (approval_task_without_rule example_runtime approval_task ∅ unruled_processor)
    as (r & s' & E & Hst & _ & _ & Hap).
  - reflexivity.
  - vm_compute. reflexivity.
  - exists r, s'. repeat split; assumption.
Defined.

(** ** Further properties of the batches *)

Lemma filter_length_le {A} (p q : A -> bool) (l : list A) :
  (forall a, p a = true -> q a = true) ->
  (length (List.filter p l) <= length (List.filter q l))%nat.
Proof.
  intros Hpq. induction l as [|a l IH]; simpl; [lia|].
  destruct (p a) eqn:Hp.
  - rewrite (Hpq a Hp). simpl. lia.
  - destruct (q a); simpl; lia.
Qed.

Lemma filter_length_bound {A} (p : A -> bool) (l : list A) :
  (length (List.filter p l) <= length l)%nat.
Proof. induction l as [|a l IH]; simpl; [lia|]. destruct (p a); simpl; lia. Qed.

(** X9.  The critical items of the inventory are the items with at most
    five units, in the order of the inventory; each of them is also a low
    stock item, so that the three counts of the batch summary are ordered:
    critical, low, total. *)
Theorem critical_items_are_low_stock (m : InventoryManager) :
  (forall item,
     In item (get_critical_stock_items m) <-> In item (items m) /\ quantity item <= 5)
  /\ (forall item, In item (get_critical_stock_items m) -> In item (get_low_stock_items m))
  /\ (length (get_critical_stock_items m) <= length (get_low_stock_items m))%nat
  /\ (length (get_low_stock_items m) <= length (items m))%nat.
Proof.
  assert (forall item,
            match stock_level_category item with StockLevel.CRITICAL => true | _ => false end
            = (quantity item <=? 5)) as Hcat.
  { intros item. unfold stock_level_category.
    destruct (quantity item <=? 5) eqn:E5; [reflexivity|].
    destruct (quantity item <=? 15); [reflexivity|].
    destruct (quantity item <=? 50); [reflexivity|].
    destruct (quantity item <=? 100); reflexivity. }
  unfold get_critical_stock_items, get_low_stock_items.
  split; [|split; [|split]].
  - intros item. rewrite filter_In, Hcat, Z.leb_le. reflexivity.
  - intros item. rewrite !filter_In, Hcat, !Z.leb_le. intros [? ?]. split; [assumption|lia].
  - apply filter_length_le. intros item. rewrite Hcat, !Z.leb_le. lia.
  - apply filter_length_bound.
Qed.

Lemma tally_ok_empty : tally_ok empty_tally.
Proof. unfold tally_ok. simpl. lia. Qed.

Lemma tally_ok_record r t :
  (default false (er_condition_met r) = true ->
   length (default [] (er_actions_triggered r)) = 1%nat) ->
  tally_ok t -> tally_ok (record_result r t).
Proof.
  unfold tally_ok, record_result. intros Hr (Hp & Ha & Ht). simpl.
  rewrite length_app. simpl.
  destruct (default false (er_condition_met r)).
  - rewrite Hr by reflexivity. lia.
  - lia.
Qed.

Lemma inventory_rule_ids_advanced s s' l :
  catalog_advanced s s' ->
  derivco_business_config s' = derivco_business_config s ->
  inventory_rule_ids s' l = inventory_rule_ids s l.
Proof.
  intros Hadv Hcfg. unfold inventory_rule_ids. rewrite Hcfg.
  apply flat_map_ext. intros item. apply filter_ext. intros a.
  now apply catalog_advanced_in_catalog.
Qed.

Section BatchProperties.

Variable rt : PyRuntime.

Lemma preserves_evaluate_relevant_rules {B} (f : State -> B)
    `{!IgnoresClock f} `{!IgnoresUuid f} `{!IgnoresApprovals f}
    `{!IgnoresRules f} `{!IgnoresHistory f} relevant_rules context t :
  preserves f (evaluate_relevant_rules rt relevant_rules context t).
Proof.
  revert t. induction relevant_rules as [|rule_id rest IH]; intros t;
    cbn [evaluate_relevant_rules].
  - apply preserves_ret.
  - repeat first [ step_preserves
                 | apply IH
                 | solve [ eauto using preserves_evaluate_business_rule with preserves ] ].
Qed.

Lemma preserves_process_items {B} (f : State -> B)
    `{!IgnoresClock f} `{!IgnoresUuid f} `{!IgnoresApprovals f}
    `{!IgnoresRules f} `{!IgnoresHistory f} l t :
  preserves f (process_items rt l t).
Proof.
  revert t. induction l as [|item rest IH]; intros t; cbn [process_items].
  - apply preserves_ret.
  - repeat first [ step_preserves
                 | apply IH
                 | solve [ eauto using preserves_evaluate_relevant_rules with preserves ] ].
Qed.

Lemma preserves_process_inventory {B} (f : State -> B)
    `{!IgnoresClock f} `{!IgnoresUuid f} `{!IgnoresApprovals f}
    `{!IgnoresRules f} `{!IgnoresHistory f} :
  preserves f (process_inventory_business_rules rt).
Proof.
  unfold process_inventory_business_rules.
  repeat first [ step_preserves
               | solve [ eauto using preserves_process_items with preserves ] ].
Qed.

Lemma preserves_work_order_rules {B} (f : State -> B)
    `{!IgnoresClock f} `{!IgnoresUuid f} `{!IgnoresApprovals f}
    `{!IgnoresRules f} `{!IgnoresHistory f} pct relevant_rules context t :
  preserves f (work_order_rules rt pct relevant_rules context t).
Proof.
  revert context t. induction relevant_rules as [|rule_id rest IH]; intros context t;
    cbn [work_order_rules].
  - apply preserves_ret.
  - repeat first [ step_preserves
                 | apply IH
                 | solve [ eauto using preserves_evaluate_business_rule with preserves ] ].
Qed.

Lemma preserves_process_compliance {B} (f : State -> B)
    `{!IgnoresClock f} `{!IgnoresUuid f} `{!IgnoresApprovals f}
    `{!IgnoresRules f} `{!IgnoresHistory f} :
  preserves f (process_compliance_business_rules rt).
Proof.
  unfold process_compliance_business_rules.
  repeat first [ step_preserves
               | solve [ eauto using preserves_work_order_rules,
                           preserves_evaluate_relevant_rules with preserves ] ].
Qed.

(** A result that reports its condition as met carries one action message. *)
Lemma evaluate_result_one_action rule_id context s :
  exists r s',
    evaluate_business_rule rt rule_id context s = (Ok r, s')
    /\ (default false (er_condition_met r) = true ->
        length (default [] (er_actions_triggered r)) = 1%nat).
Proof.
  destruct (business_rules s !! rule_id) as [rule|] eqn:H.
  2: { rewrite (evaluate_unknown rt _ _ _ H). eexists _, _. split; [reflexivity|].
       discriminate. }
  destruct (enabled rule) eqn:Hen.
  2: { rewrite (evaluate_disabled rt _ _ _ _ H Hen). eexists _, _.
       split; [reflexivity|]. discriminate. }
  destruct (total_evaluate_condition rt (condition rule) context (set_clock_reads S s))
    as (b & s1 & Hc).
  destruct b.
  - destruct (execute_rule_action_one_message rt rule context s1) as (a & s2 & Ha).
    rewrite (evaluate_met rt _ _ _ _ _ _ _ H Hen Hc Ha). eexists _, _.
    split; [reflexivity|]. reflexivity.
  - rewrite (evaluate_not_met rt _ _ _ _ _ H Hen Hc). eexists _, _.
    split; [reflexivity|]. discriminate.
Qed.

Lemma evaluate_relevant_rules_tally relevant_rules context t s :
  exists t' s',
    evaluate_relevant_rules rt relevant_rules context t s = (Ok t', s')
    /\ (tally_ok t -> tally_ok t')
    /\ catalog_advanced s s'
    /\ length (rule_results t')
       = (length (rule_results t) + length (List.filter (in_catalog s) relevant_rules))%nat.
Proof.
  revert t s. induction relevant_rules as [|rule_id rest IH]; intros t s.
  - exists t, s. simpl. split; [reflexivity|]. split; [auto|].
    split; [apply catalog_advanced_refl | lia].
  - cbn [evaluate_relevant_rules List.filter]. unfold bind at 1. unfold gets.
    unfold in_catalog at 1.
    destruct (business_rules s !! rule_id) as [rule|] eqn:H.
    + destruct (evaluate_result_one_action rule_id context s) as (r & s1 & E & Hone).
      rewrite (bind_ok _ _ _ _ _ E).
      pose proof (catalog_advanced_evaluate rt rule_id context s) as Hadv.
      rewrite E in Hadv. simpl in Hadv.
      destruct (IH (record_result r t) s1) as (t' & s' & Erest & Hok & Hadv' & Hlen).
      exists t', s'. split; [exact Erest|]. split; [|split].
      * intros Ht. apply Hok. now apply tally_ok_record.
      * eapply catalog_advanced_trans; eassumption.
      * rewrite Hlen. simpl. rewrite length_app. simpl.
        rewrite (filter_ext (in_catalog s1) (in_catalog s)) by
          (intros a; now apply catalog_advanced_in_catalog).
        lia.
    + apply IH.
Qed.

Lemma process_items_tally l t s :
  exists t' s',
    process_items rt l t s = (Ok t', s')
    /\ (tally_ok t -> tally_ok t')
    /\ length (rule_results t')
       = (length (rule_results t) + length (inventory_rule_ids s l))%nat.
Proof.
  revert t s. induction l as [|item rest IH]; intros t s.
  - exists t, s. simpl. split; [reflexivity|]. split; [auto | lia].
  - cbn [process_items]. unfold bind at 1. unfold gets.
    destruct (evaluate_relevant_rules_tally
                (item_relevant_rules (derivco_business_config s) item)
                (item_context (derivco_business_config s) item) t s)
      as (t1 & s1 & E & Hok1 & Hadv & Hlen1).
    rewrite (bind_ok _ _ _ _ _ E).
    pose proof (preserves_evaluate_relevant_rules derivco_business_config
                  (item_relevant_rules (derivco_business_config s) item)
                  (item_context (derivco_business_config s) item) t s) as Hcfg.
    rewrite E in Hcfg. simpl in Hcfg.
    destruct (IH t1 s1) as (t' & s' & Erest & Hok & Hlen).
    exists t', s'. split; [exact Erest|]. split; [auto|].
    rewrite Hlen, Hlen1.
    rewrite (inventory_rule_ids_advanced s s1 rest Hadv Hcfg).
    change (inventory_rule_ids s (item :: rest))
      with (List.filter (in_catalog s) (item_relevant_rules (derivco_business_config s) item)
            ++ inventory_rule_ids s rest).
    rewrite length_app. lia.
Qed.

(** X7.  With an inventory manager in place the inventory batch returns a
    report whose counters agree with its results: one result for every
    relevant rule of every item that is in the catalogue, every result
    counted as processed, and as many actions as triggered rules, since a
    triggered rule reports exactly one action. *)
Theorem inventory_batch_counts s manager :
  inventory_manager s = Some manager ->
  exists report s',
    process_inventory_business_rules rt s = (Ok (ReportOk report), s')
    /\ length (pr_rule_results report)
       = length (inventory_rule_ids (set_clock_reads S s) (items manager))
    /\ pr_rules_processed report = Z.of_nat (length (pr_rule_results report))
    /\ pr_actions_executed report = pr_rules_triggered report
    /\ 0 <= pr_rules_triggered report <= pr_rules_processed report
    /\ total_inventory_items (pr_summary report) = length (items manager).
Proof.
  intros Hm.
  destruct (process_items_tally (items manager) empty_tally (set_clock_reads S s))
    as (t & s1 & E & Hok & Hlen).
  destruct (Hok tally_ok_empty) as (Hp & Ha & Ht).
  eexists _, _. split.
  - unfold process_inventory_business_rules. apply try_ok.
    unfold bind at 1. unfold gets at 1. rewrite Hm.
    unfold bind at 1. unfold datetime_now at 1.
    rewrite (bind_ok _ _ _ _ _ E). reflexivity.
  - simpl. repeat split; try assumption; try lia.
Qed.

(** X8.  Without its collaborator a batch evaluates nothing: the inventory
    batch without an inventory manager and the compliance batch without an
    analytics engine return an error report and leave the state as it was;
    they do not raise. *)
Theorem batch_without_collaborator s :
  inventory_manager s = None -> analytics_engine s = None ->
  process_inventory_business_rules rt s
  = (Ok (ReportError "Inventory manager not available"), s)
  /\ process_compliance_business_rules rt s
     = (Ok (ReportError "Analytics engine not available"), s).
Proof.
  intros Hi Ha. split.
  - unfold process_inventory_business_rules. apply try_ok.
    unfold bind, gets. now rewrite Hi.
  - unfold process_compliance_business_rules. apply try_ok.
    unfold bind, gets. now rewrite Ha.
Qed.

End BatchProperties.

Lemma inventory_batch_counts_witness :
  exists report s',
    process_inventory_business_rules example_runtime stocked_processor
    = (Ok (ReportOk report), s')
    /\ pr_rules_processed report = Z.of_nat (length (pr_rule_results report))
    /\ pr_actions_executed report = pr_rules_triggered report.
Proof.
  edestruct (inventory_batch_counts example_runtime stocked_processor)
    as (report & s' & E & _ & Hp & Ha & _).
  - reflexivity.
  - exists report, s'. repeat split; assumption.
Defined.

(** The batch on the example inventory: seven results (the safety item has
    three relevant rules), three of them triggered. *)
Example inventory_batch_example :
  match fst (process_inventory_business_rules example_runtime stocked_processor) with
  | Ok (ReportOk report) =>
      (pr_rules_processed report, pr_rules_triggered report, pr_actions_executed report)
      = (7, 3, 3)
      /\ map (fun r => (er_rule_id r, default false (er_condition_met r)))
           (pr_rule_results report)
         = [("BR002", true); ("BR005", true); ("BR008", true);
            ("BR002", false); ("BR005", false);
            ("BR002", false); ("BR005", false)]
  | _ => False
  end.
Proof. vm_compute. repeat split. Qed.

Lemma batch_without_collaborator_witness :
  process_inventory_business_rules example_runtime example_processor
  = (Ok (ReportError "Inventory manager not available"), example_processor)
  /\ process_compliance_business_rules example_runtime example_processor
     = (Ok (ReportError "Analytics engine not available"), example_processor).
Proof.
  apply (batch_without_collaborator example_runtime example_processor); reflexivity.
Defined.

(** ** Further properties of workflow execution *)

(** Insertion into the order of execution: the step of the stable sort. *)
Lemma insert_task_permutation x l : insert_task x l ≡ₚ x :: l.
Proof.
  induction l as [|y l IH]; simpl; [reflexivity|].
  destruct (_ <=? _)%nat; [reflexivity|].
  rewrite IH. apply perm_swap.
Qed.

Lemma insert_task_sorted x l :
  StronglySorted (fun a b => (dependency_count a <= dependency_count b)%nat) l ->
  StronglySorted (fun a b => (dependency_count a <= dependency_count b)%nat)
    (insert_task x l).
Proof.
  induction 1 as [|y l Hl IH Hy]; simpl.
  - repeat constructor.
  - fold (dependency_count x). fold (dependency_count y).
    destruct (Nat.leb_spec (dependency_count x) (dependency_count y)) as [Hle|Hgt].
    + constructor; [now constructor|]. constructor; [exact Hle|].
      eapply Forall_impl; [exact Hy|]. intros z Hz. simpl in Hz. lia.
    + constructor; [exact IH|].
      rewrite insert_task_permutation. constructor; [lia | exact Hy].
Qed.

Lemma insert_task_same_count k x l :
  List.filter (fun y => (dependency_count y =? k)%nat) (insert_task x l)
  = List.filter (fun y => (dependency_count y =? k)%nat) (x :: l).
Proof.
  induction l as [|y l IH]; [reflexivity|].
  cbn [insert_task]. fold (dependency_count x). fold (dependency_count y).
  destruct (Nat.leb_spec (dependency_count x) (dependency_count y)) as [Hle|Hgt];
    [reflexivity|].
  cbn [List.filter] in *. rewrite IH.
  destruct (Nat.eqb_spec (dependency_count x) k) as [Ex|Nx];
    destruct (Nat.eqb_spec (dependency_count y) k) as [Ey|Ny]; try reflexivity.
  lia.
Qed.

(** X15.  The order of execution is a stable sort of the workflow's tasks by
    their number of dependencies: the same tasks, in non-decreasing number
    of dependencies, and tasks with the same number of dependencies in the
    order in which they were registered. *)
Theorem run_order_is_stable_sort (l : list (nat * WorkflowTask)) :
  sort_by_dependencies l ≡ₚ l
  /\ StronglySorted (fun a b => (dependency_count a <= dependency_count b)%nat)
       (sort_by_dependencies l)
  /\ forall k,
       List.filter (fun y => (dependency_count y =? k)%nat) (sort_by_dependencies l)
       = List.filter (fun y => (dependency_count y =? k)%nat) l.
Proof.
  unfold sort_by_dependencies. induction l as [|x l (Hperm & Hsorted & Hstable)]; simpl.
  - repeat split; constructor.
  - split; [|split].
    + rewrite insert_task_permutation. now constructor.
    + now apply insert_task_sorted.
    + intros k. rewrite insert_task_same_count. cbn [List.filter]. now rewrite Hstable.
Qed.

Section RunProperties.

Variable rt : PyRuntime.

(** The way through [execute_workflow] when the workflow has no task. *)
Lemma execute_workflow_with_empty exec workflow context s :
  tasks_of_workflow workflow (workflow_tasks s) = [] ->
  execute_workflow_with rt exec workflow context s
  = (Ok (with_status
           (started_execution workflow (isoformat rt (clock rt (clock_reads s)))
              (default ∅ context))
           "failed" (Some ("No tasks found for workflow " +:+ workflow)) None),
     set_clock_reads S s).
Proof.
  intros Htasks. unfold execute_workflow_with. apply try_ok.
  unfold bind at 1. unfold datetime_now at 1. unfold bind at 1. unfold gets at 1.
  change (workflow_tasks (set_clock_reads S s)) with (workflow_tasks s).
  now rewrite Htasks.
Qed.

(** X10.  A workflow identifier under which no task is registered is not
    an exception: the run returns at once with status "failed" and the
    error "No tasks found for workflow <id>", with no task result and no
    end time; it reads the clock once and changes nothing else, and the run
    is not entered in the workflow history. *)
Theorem unknown_workflow_fails_quietly workflow context s :
  tasks_of_workflow workflow (workflow_tasks s) = [] ->
  exists x,
    execute_workflow rt workflow context s = (Ok x, set_clock_reads S s)
    /\ xr_status x = "failed"
    /\ xr_error x = Some ("No tasks found for workflow " +:+ workflow)
    /\ results_count x = 0%nat
    /\ xr_end_time x = None.
Proof.
  intros Htasks. unfold execute_workflow.
  rewrite (execute_workflow_with_empty _ _ _ _ Htasks). eexists. repeat split.
Qed.

(** The lists of results after the loop, by the type of the tasks. *)
Lemma run_tasks_lists l context x s :
  exists x' s',
    run_tasks rt (_execute_workflow_task rt) l context x s = (Ok x', s')
    /\ map tr_task_id (xr_tasks_executed x')
       = map tr_task_id (xr_tasks_executed x)
         ++ map (fun p => task_id (snd p)) (completing_tasks l)
    /\ map tr_task_id (xr_tasks_pending x')
       = map tr_task_id (xr_tasks_pending x)
         ++ map (fun p => task_id (snd p)) (waiting_tasks l)
    /\ xr_tasks_failed x' = xr_tasks_failed x.
Proof.
  revert x s. induction l as [|[i0 task] rest IH]; intros x s.
  - exists x, s. simpl. rewrite !app_nil_r. auto.
  - destruct (execute_workflow_task_result rt task context s) as (r & s1 & Er & Hid & Hst).
    cbn [run_tasks]. rewrite (bind_ok _ _ _ _ _ Er).
    unfold handler_status in Hst. unfold completing_tasks, waiting_tasks.
    cbn [List.filter snd].
    destruct (waits_for_decision (task_type task)) eqn:Hw; cbn [negb].
    + rewrite (bind_ok _ _ _ _ _ (record_task_pending rt x i0 r s1 Hst)).
      match goal with |- context [run_tasks _ _ rest context ?x1 s1] =>
        destruct (IH x1 s1) as (x' & s' & Erun & He & Hp & Hf)
      end.
      exists x', s'. split; [exact Erun|]. simpl in He, Hp, Hf.
      split; [exact He|]. split; [|exact Hf].
      rewrite Hp, map_app. simpl. rewrite Hid, <- app_assoc. reflexivity.
    + rewrite (bind_ok _ _ _ _ _ (record_task_completed rt x i0 r s1 Hst)).
      match goal with |- context [run_tasks _ _ rest context ?x1 ?s2] =>
        destruct (IH x1 s2) as (x' & s' & Erun & He & Hp & Hf)
      end.
      exists x', s'. split; [exact Erun|]. simpl in He, Hp, Hf.
      split; [|split; [exact Hp | exact Hf]].
      rewrite He, map_app. simpl. rewrite Hid, <- app_assoc. reflexivity.
Qed.

(** What the loop does to the task object at one position. *)
Lemma run_tasks_status l context x s i t :
  workflow_tasks s !! i = Some t ->
  (forall u, In (i, u) l -> task_type u = task_type t) ->
  exists x' s' t',
    run_tasks rt (_execute_workflow_task rt) l context x s = (Ok x', s')
    /\ workflow_tasks s' !! i = Some t'
    /\ task_id t' = task_id t /\ workflow_id t' = workflow_id t
    /\ task_type t' = task_type t /\ dependencies t' = dependencies t
    /\ status t'
       = (if existsb (fun p => (fst p =? i)%nat) l
             && negb (waits_for_decision (task_type t))
          then COMPLETED else status t)
    /\ (existsb (fun p => (fst p =? i)%nat) l
        && negb (waits_for_decision (task_type t)) = false -> t' = t).
Proof.
  revert x s t. induction l as [|[i0 task] rest IH]; intros x s t Hi Htype.
  - exists x, s, t. simpl. repeat split; auto.
  - destruct (execute_workflow_task_result rt task context s) as (r & s1 & Er & Hid & Hst).
    pose proof (preserves_execute_workflow_task rt workflow_tasks task context s) as Hk.
    rewrite Er in Hk. simpl in Hk.
    cbn [run_tasks]. rewrite (bind_ok _ _ _ _ _ Er).
    unfold handler_status in Hst. cbn [existsb fst].
    assert (forall u, In (i, u) rest -> task_type u = task_type t) as Hrest
      by (intros u Hu; apply Htype; now right).
    destruct (waits_for_decision (task_type task)) eqn:Hw.
    + rewrite (bind_ok _ _ _ _ _ (record_task_pending rt x i0 r s1 Hst)).
      match goal with |- context [run_tasks _ _ rest context ?x1 s1] =>
        destruct (IH x1 s1 t) as (x' & s' & t' & Erun & Hl & H1 & H2 & H3 & H4 & H5 & H6);
          [now rewrite Hk | exact Hrest |]
      end.
      exists x', s', t'. split; [exact Erun|]. split; [exact Hl|].
      repeat (split; [assumption|]).
      destruct (Nat.eqb_spec i0 i) as [->|Hne]; cbn [orb].
      * assert (waits_for_decision (task_type t) = true) as Hwt
          by (rewrite <- (Htype task (or_introl eq_refl)); exact Hw).
        rewrite Hwt in *. rewrite andb_false_r in *. auto.
      * auto.
    + rewrite (bind_ok _ _ _ _ _ (record_task_completed rt x i0 r s1 Hst)).
      destruct (Nat.eqb_spec i0 i) as [->|Hne]; cbn [orb].
      * assert (waits_for_decision (task_type t) = false) as Hwt
          by (rewrite <- (Htype task (or_introl eq_refl)); exact Hw).
        match goal with |- context [run_tasks _ _ rest context ?x1 ?s2] =>
          destruct (IH x1 s2 (mark_completed (clock rt (clock_reads s1)) t))
            as (x' & s' & t' & Erun & Hl & H1 & H2 & H3 & H4 & H5 & H6);
            [simpl; rewrite Hk, list_lookup_alter_eq, Hi; reflexivity | exact Hrest |]
        end.
        exists x', s', t'. split; [exact Erun|]. split; [exact Hl|].
        simpl in H1, H2, H3, H4, H5. repeat (split; [assumption|]).
        rewrite Hwt. cbn [negb andb]. split; [|discriminate].
        rewrite H5. now destruct (_ && _).
      * match goal with |- context [run_tasks _ _ rest context ?x1 ?s2] =>
          destruct (IH x1 s2 t)
            as (x' & s' & t' & Erun & Hl & H1 & H2 & H3 & H4 & H5 & H6);
            [simpl; rewrite Hk, list_lookup_alter_ne by exact Hne; exact Hi | exact Hrest |]
        end.
        exists x', s', t'. split; [exact Erun|]. split; [exact Hl|].
        repeat (split; [assumption|]). auto.
Qed.

Lemma existsb_position (l : list (nat * WorkflowTask)) i :
  existsb (fun p => (fst p =? i)%nat) l = true <-> exists u, In (i, u) l.
Proof.
  rewrite existsb_exists. split.
  - intros ([j u] & Hin & E). apply Nat.eqb_eq in E. simpl in E. subst. now exists u.
  - intros (u & Hin). exists (i, u). split; [exact Hin | apply Nat.eqb_refl].
Qed.

(** The task object at one position after a run of [workflow]. *)
Lemma execute_workflow_status workflow context s i t :
  workflow_tasks s !! i = Some t ->
  exists x s' t',
    execute_workflow rt workflow context s = (Ok x, s')
    /\ workflow_tasks s' !! i = Some t'
    /\ task_id t' = task_id t /\ workflow_id t' = workflow_id t
    /\ task_type t' = task_type t /\ dependencies t' = dependencies t
    /\ status t' = status_after_run workflow t
    /\ (String.eqb (workflow_id t) workflow
        && negb (waits_for_decision (task_type t)) = false -> t' = t).
Proof.
  intros Hi. unfold execute_workflow.
  assert (forall l u, In (i, u) (sort_by_dependencies l) ->
            l = tasks_of_workflow workflow (workflow_tasks s) -> u = t) as Hsame.
  { intros l u Hu ->. apply (proj1 (sort_by_dependencies_In _ _)) in Hu.
    apply (proj1 (tasks_of_workflow_In _ _ _ _)) in Hu. destruct Hu as [Hu _]. congruence. }
  destruct (tasks_of_workflow workflow (workflow_tasks s)) as [|p rest] eqn:Htasks.
  - rewrite (execute_workflow_with_empty _ _ _ _ Htasks).
    eexists _, _, t. split; [reflexivity|]. split; [exact Hi|].
    repeat (split; [reflexivity|]). split; [|auto].
    unfold status_after_run.
    destruct (String.eqb_spec (workflow_id t) workflow) as [Hw|_]; [|reflexivity].
    assert (In (i, t) (tasks_of_workflow workflow (workflow_tasks s))) as Hin
      by now apply tasks_of_workflow_In.
    rewrite Htasks in Hin. destruct Hin.
  - destruct (run_tasks_status (sort_by_dependencies (p :: rest)) (default ∅ context)
                (started_execution workflow (isoformat rt (clock rt (clock_reads s)))
                   (default ∅ context))
                (set_clock_reads S s) i t Hi)
      as (x1 & s1 & t' & Hrun & Hl & H1 & H2 & H3 & H4 & H5 & H6).
    { intros u Hu. now rewrite (Hsame _ u Hu eq_refl). }
    rewrite (execute_workflow_with_runs _ _ _ _ _ _ _ _ _ Htasks Hrun).
    eexists _, _, t'. split; [reflexivity|]. split; [exact Hl|].
    repeat (split; [assumption|]).
    assert (existsb (fun q => (fst q =? i)%nat) (sort_by_dependencies (p :: rest))
            = String.eqb (workflow_id t) workflow) as Hex.
    { destruct (String.eqb_spec (workflow_id t) workflow) as [Hw|Hw].
      - apply existsb_position. exists t. apply sort_by_dependencies_In.
        rewrite <- Htasks. now apply tasks_of_workflow_In.
      - apply not_true_is_false. intros Hc. apply existsb_position in Hc.
        destruct Hc as (u & Hu). pose proof (Hsame _ u Hu eq_refl) as ->.
        apply (proj1 (sort_by_dependencies_In _ _)) in Hu. rewrite <- Htasks in Hu.
        apply (proj1 (tasks_of_workflow_In _ _ _ _)) in Hu. tauto. }
    rewrite Hex in H5, H6. unfold status_after_run. split; [exact H5 | exact H6].
Qed.

Lemma total_execute_workflow workflow context : total (execute_workflow rt workflow context).
Proof.
  apply total_try_handler. intros e.
  repeat first [ step_total | solve [ eauto with total ] ].
Qed.

Lemma execute_workflow_length workflow context s :
  length (workflow_tasks (snd (execute_workflow rt workflow context s)))
  = length (workflow_tasks s).
Proof.
  unfold execute_workflow.
  destruct (tasks_of_workflow workflow (workflow_tasks s)) as [|p rest] eqn:Htasks.
  - now rewrite (execute_workflow_with_empty _ _ _ _ Htasks).
  - destruct (run_tasks_moves rt (_execute_workflow_task rt)
                (sort_by_dependencies (p :: rest)) (default ∅ context)
                (started_execution workflow (isoformat rt (clock rt (clock_reads s)))
                   (default ∅ context))
                (set_clock_reads S s) (well_behaved_execute_workflow_task rt))
      as (x1 & s1 & Hrun & _ & Hmoved & _).
    rewrite (execute_workflow_with_runs _ _ _ _ _ _ _ _ _ Htasks Hrun). simpl.
    symmetry. exact (Forall2_length _ _ _ Hmoved).
Qed.

(** X11.  A run of a workflow that has tasks is entered in the workflow
    history once, as the dictionary that is returned, stamped with its end
    time; a run that finds no task is not entered.  Earlier entries are
    never touched. *)
Theorem run_is_entered_in_history workflow context s :
  exists x s',
    execute_workflow rt workflow context s = (Ok x, s')
    /\ workflow_history s'
       = workflow_history s
         ++ match tasks_of_workflow workflow (workflow_tasks s) with
            | [] => []
            | _ :: _ => [x]
            end
    /\ match tasks_of_workflow workflow (workflow_tasks s) with
       | [] => xr_end_time x = None
       | _ :: _ => is_Some (xr_end_time x)
       end.
Proof.
  unfold execute_workflow.
  destruct (tasks_of_workflow workflow (workflow_tasks s)) as [|p rest] eqn:Htasks.
  - rewrite (execute_workflow_with_empty _ _ _ _ Htasks). eexists _, _.
    split; [reflexivity|]. simpl. now rewrite app_nil_r.
  - destruct (run_tasks_moves rt (_execute_workflow_task rt)
                (sort_by_dependencies (p :: rest)) (default ∅ context)
                (started_execution workflow (isoformat rt (clock rt (clock_reads s)))
                   (default ∅ context))
                (set_clock_reads S s) (well_behaved_execute_workflow_task rt))
      as (x1 & s1 & Hrun & _).
    pose proof (preserves_run_tasks rt workflow_history (_execute_workflow_task rt)
                  (sort_by_dependencies (p :: rest)) (default ∅ context)
                  (started_execution workflow (isoformat rt (clock rt (clock_reads s)))
                     (default ∅ context))
                  (fun task => preserves_execute_workflow_task rt workflow_history task
                                 (default ∅ context))
                  (set_clock_reads S s)) as Hh.
    rewrite Hrun in Hh. simpl in Hh.
    rewrite (execute_workflow_with_runs _ _ _ _ _ _ _ _ _ Htasks Hrun).
    eexists _, _. split; [reflexivity|]. simpl. rewrite Hh. split; [reflexivity|].
    now eexists.
Qed.

(** X12.  After a run of a workflow every task object is where it was and
    keeps its identifier, workflow, type and dependencies.  A task of the
    workflow whose type does not wait for a decision is Completed; a task of
    another workflow, or one of type approval or procurement, is exactly as
    it was before the run. *)
Theorem run_sets_statuses workflow context s i t :
  workflow_tasks s !! i = Some t ->
  exists x s' t',
    execute_workflow rt workflow context s = (Ok x, s')
    /\ workflow_tasks s' !! i = Some t'
    /\ task_id t' = task_id t /\ workflow_id t' = workflow_id t
    /\ task_type t' = task_type t /\ dependencies t' = dependencies t
    /\ status t' = status_after_run workflow t
    /\ (workflow_id t <> workflow \/ waits_for_decision (task_type t) = true -> t' = t).
Proof.
  intros Hi.
  destruct (execute_workflow_status workflow context s i t Hi)
    as (x & s' & t' & E & Hl & H1 & H2 & H3 & H4 & H5 & H6).
  exists x, s', t'. repeat (split; [assumption|]).
  intros [Hw|Hw]; apply H6.
  - destruct (String.eqb_spec (workflow_id t) workflow); [contradiction | reflexivity].
  - rewrite Hw. apply andb_false_r.
Qed.

Lemma status_after_run_idempotent workflow t t' :
  workflow_id t' = workflow_id t -> task_type t' = task_type t ->
  status t' = status_after_run workflow t ->
  status_after_run workflow t' = status t'.
Proof.
  unfold status_after_run. intros -> -> ->. now destruct (_ && _).
Qed.

(** X13.  Running a workflow a second time changes no status: the statuses
    of all task objects after the second run are those after the first,
    whatever the two contexts are. *)
Theorem rerun_changes_no_status workflow context context' s :
  exists x1 s1 x2 s2,
    execute_workflow rt workflow context s = (Ok x1, s1)
    /\ execute_workflow rt workflow context' s1 = (Ok x2, s2)
    /\ map status (workflow_tasks s2) = map status (workflow_tasks s1).
Proof.
  destruct (total_execute_workflow workflow context s) as (x1 & s1 & E1).
  destruct (total_execute_workflow workflow context' s1) as (x2 & s2 & E2).
  exists x1, s1, x2, s2. split; [exact E1|]. split; [exact E2|].
  pose proof (execute_workflow_length workflow context s) as L1.
  pose proof (execute_workflow_length workflow context' s1) as L2.
  rewrite E1 in L1. rewrite E2 in L2. simpl in L1, L2.
  apply list_eq. intros i. rewrite !list_lookup_fmap.
  destruct (workflow_tasks s1 !! i) as [t1|] eqn:H1.
  - destruct (workflow_tasks s !! i) as [t0|] eqn:H0.
    2: { apply lookup_ge_None in H0. apply lookup_lt_Some in H1. lia. }
    destruct (execute_workflow_status workflow context s i t0 H0)
      as (y1 & u1 & t1' & F1 & Hl1 & _ & Hw1 & Hty1 & _ & Hst1 & _).
    rewrite E1 in F1. injection F1 as <- <-. rewrite H1 in Hl1. injection Hl1 as <-.
    destruct (execute_workflow_status workflow context' s1 i t1 H1)
      as (y2 & u2 & t2 & F2 & Hl2 & _ & _ & _ & _ & Hst2 & _).
    rewrite E2 in F2. injection F2 as <- <-. rewrite Hl2. simpl. f_equal.
    rewrite Hst2. now apply status_after_run_idempotent with (t := t0).
  - apply lookup_ge_None in H1. rewrite (proj2 (lookup_ge_None _ _)) by lia.
    reflexivity.
Qed.

(** X19.  The result lists of a run follow the types of the tasks: in the
    order of execution, the tasks whose type does not wait are listed under
    [tasks_executed] and the approval and procurement tasks under
    [tasks_pending]; nothing is listed under [tasks_failed].  The overall
    status is "failed" when the workflow has no task, "pending" when it has
    a task that waits, and "completed" otherwise. *)
Theorem results_follow_task_types workflow context s :
  exists x s',
    execute_workflow rt workflow context s = (Ok x, s')
    /\ map tr_task_id (xr_tasks_executed x)
       = map (fun p => task_id (snd p)) (completing_tasks (run_order workflow s))
    /\ map tr_task_id (xr_tasks_pending x)
       = map (fun p => task_id (snd p)) (waiting_tasks (run_order workflow s))
    /\ xr_tasks_failed x = []
    /\ xr_status x
       = match run_order workflow s, waiting_tasks (run_order workflow s) with
         | [], _ => "failed"
         | _ :: _, _ :: _ => "pending"
         | _ :: _, [] => "completed"
         end.
Proof.
  unfold execute_workflow, run_order.
  destruct (tasks_of_workflow workflow (workflow_tasks s)) as [|p rest] eqn:Htasks.
  - rewrite (execute_workflow_with_empty _ _ _ _ Htasks). eexists _, _.
    split; [reflexivity|]. simpl. auto.
  - destruct (run_tasks_lists (sort_by_dependencies (p :: rest)) (default ∅ context)
                (started_execution workflow (isoformat rt (clock rt (clock_reads s)))
                   (default ∅ context))
                (set_clock_reads S s))
      as (x1 & s1 & Hrun & He & Hp & Hf).
    rewrite (execute_workflow_with_runs _ _ _ _ _ _ _ _ _ Htasks Hrun).
    eexists _, _. split; [reflexivity|].
    cbn [xr_tasks_executed xr_tasks_pending xr_tasks_failed xr_status with_status].
    change (xr_tasks_failed x1 = []) in Hf.
    change (map tr_task_id (xr_tasks_pending x1)
            = map (fun p => task_id (snd p))
                (waiting_tasks (sort_by_dependencies (p :: rest)))) in Hp.
    split; [exact He|]. split; [exact Hp|]. split; [exact Hf|].
    pose proof (sort_by_dependencies_length (p :: rest)) as Hlen.
    destruct (sort_by_dependencies (p :: rest)) as [|q l] eqn:Hs; [discriminate|].
    unfold overall_status. rewrite Hf.
    destruct (waiting_tasks (q :: l)); destruct (xr_tasks_pending x1);
      try discriminate; reflexivity.
Qed.

End RunProperties.

Lemma unknown_workflow_fails_quietly_witness :
  tasks_of_workflow "WF_NONE" (workflow_tasks example_processor) = []
  /\ exists x,
       execute_workflow example_runtime "WF_NONE" None example_processor
       = (Ok x, set_clock_reads S example_processor)
       /\ xr_status x = "failed"
       /\ xr_error x = Some ("No tasks found for workflow " +:+ "WF_NONE")
       /\ results_count x = 0%nat
       /\ xr_end_time x = None.
Proof.
  split; [reflexivity|].
  apply (unknown_workflow_fails_quietly example_runtime "WF_NONE" None example_processor).
  reflexivity.
Defined.

Lemma run_sets_statuses_witness :
  exists x s' t',
    execute_workflow example_runtime "WF_INVENTORY_REORDER" None example_processor
    = (Ok x, s')
    /\ workflow_tasks s' !! 7%nat = Some t'
    /\ status t' = PENDING.
Proof.
  edestruct (run_sets_statuses example_runtime "WF_INVENTORY_REORDER" None
               example_processor 7)
    as (x & s' & t' & E & Hl & _ & _ & _ & _ & Hst & _).
  - vm_compute. reflexivity.
  - exists x, s', t'. split; [exact E|]. split; [exact Hl | exact Hst].
Defined.

(** ** Approval requests across operations *)

Lemma approvals_kept_same s s' :
  approval_requests s' = approval_requests s -> approvals_kept s s'.
Proof. intros E. unfold approvals_kept. rewrite E. split; auto. Qed.

Lemma approvals_kept_refl s : approvals_kept s s.
Proof. now apply approvals_kept_same. Qed.

Lemma approvals_kept_trans s1 s2 s3 :
  approvals_kept s1 s2 -> approvals_kept s2 s3 -> approvals_kept s1 s3.
Proof.
  intros [D12 P12] [D23 P23]. split.
  - auto.
  - intros id req E. destruct (P23 id req E) as [Hp|E2]; [now left | auto].
Qed.

Lemma keeps_approvals_preserves {A} (m : M A) :
  preserves approval_requests m -> keeps_approvals m.
Proof. intros H s. apply approvals_kept_same, H. Qed.

Lemma keeps_approvals_bind {A B} (m : M A) (k : A -> M B) :
  keeps_approvals m -> (forall a, keeps_approvals (k a)) -> keeps_approvals (bind m k).
Proof.
  intros Hm Hk s. unfold bind. specialize (Hm s).
  destruct (m s) as [[a|e] s']; simpl in *.
  - eapply approvals_kept_trans; [exact Hm | apply Hk].
  - exact Hm.
Qed.

Lemma keeps_approvals_try {A} (body : M A) h :
  keeps_approvals body -> (forall e, keeps_approvals (h e)) ->
  keeps_approvals (try_except body h).
Proof.
  intros Hb Hh s. unfold try_except. specialize (Hb s).
  destruct (body s) as [[a|e] s']; simpl in *.
  - exact Hb.
  - eapply approvals_kept_trans; [exact Hb | apply Hh].
Qed.

(** [self.approval_requests[request_id] = approval_request], for a request
    that is pending. *)
Lemma keeps_approvals_store id req :
  request_status req = "pending" ->
  keeps_approvals (modify (set_approval_requests (insert id req))).
Proof.
  intros Hp s. split; simpl.
  - intros id' H. apply lookup_insert_is_Some.
    destruct (decide (id = id')); [now left | now right].
  - intros id' req' E. apply lookup_insert_Some in E.
    destruct E as [[_ <-]|[_ E]]; [now left | now right].
Qed.

Ltac step_keeps :=
  lazymatch goal with
  | |- keeps_approvals (bind _ _) => apply keeps_approvals_bind; [ | intros ? ]
  | |- keeps_approvals (try_except _ _) => apply keeps_approvals_try; [ | intros ? ]
  | |- keeps_approvals (if ?b then _ else _) => destruct b
  | |- keeps_approvals (match ?x with _ => _ end) => destruct x
  | |- keeps_approvals (let _ := _ in _) => cbv zeta
  end.

Ltac keeps_leaf :=
  first [ apply keeps_approvals_store; reflexivity
        | apply keeps_approvals_preserves; solve [ eauto with preserves ]
        | apply keeps_approvals_preserves, preserves_datetime_now; typeclasses eauto
        | apply keeps_approvals_preserves, preserves_uuid4; typeclasses eauto
        | apply keeps_approvals_preserves, preserves_set_rules; typeclasses eauto
        | apply keeps_approvals_preserves, preserves_set_history; typeclasses eauto
        | apply keeps_approvals_preserves, preserves_set_tasks; typeclasses eauto
        | apply keeps_approvals_preserves, preserves_set_runs; typeclasses eauto ].

Section Approvals.

Variable rt : PyRuntime.

Lemma keeps_approvals_create rule context :
  keeps_approvals (_create_approval_request rt rule context).
Proof.
  unfold _create_approval_request.
  repeat first [ step_keeps | keeps_leaf ].
Qed.

Lemma keeps_approvals_action rule context :
  keeps_approvals (_execute_rule_action rt rule context).
Proof.
  unfold _execute_rule_action, _send_critical_stock_alert, _escalate_to_supervisor,
    _require_valid_work_order, _create_purchase_requisition, _send_compliance_alert,
    _require_bulk_checkout_approval, _set_high_priority.
  repeat first [ step_keeps | apply keeps_approvals_create | keeps_leaf ].
Qed.

Lemma keeps_approvals_evaluate rule_id context :
  keeps_approvals (evaluate_business_rule rt rule_id context).
Proof.
  unfold evaluate_business_rule.
  repeat first [ step_keeps
               | apply keeps_approvals_action
               | apply keeps_approvals_preserves, preserves_evaluate_condition;
                 typeclasses eauto
               | keeps_leaf ].
Qed.

Lemma keeps_approvals_relevant_rules relevant_rules context t :
  keeps_approvals (evaluate_relevant_rules rt relevant_rules context t).
Proof.
  revert t. induction relevant_rules as [|rule_id rest IH]; intros t; simpl.
  - keeps_leaf.
  - repeat first [ step_keeps | apply IH | apply keeps_approvals_evaluate | keeps_leaf ].
Qed.

Lemma keeps_approvals_items l t : keeps_approvals (process_items rt l t).
Proof.
  revert t. induction l as [|item rest IH]; intros t; cbn [process_items].
  - keeps_leaf.
  - repeat first [ step_keeps | apply IH | apply keeps_approvals_relevant_rules
                 | keeps_leaf ].
Qed.

Lemma keeps_approvals_inventory : keeps_approvals (process_inventory_business_rules rt).
Proof.
  unfold process_inventory_business_rules.
  repeat first [ step_keeps | apply keeps_approvals_items | keeps_leaf ].
Qed.

Lemma keeps_approvals_work_order pct relevant_rules context t :
  keeps_approvals (work_order_rules rt pct relevant_rules context t).
Proof.
  revert context t. induction relevant_rules as [|rule_id rest IH]; intros context t; simpl.
  - keeps_leaf.
  - repeat first [ step_keeps | apply IH | apply keeps_approvals_evaluate | keeps_leaf ].
Qed.

Lemma keeps_approvals_compliance : keeps_approvals (process_compliance_business_rules rt).
Proof.
  unfold process_compliance_business_rules.
  repeat first [ step_keeps | apply keeps_approvals_work_order
               | apply keeps_approvals_relevant_rules | keeps_leaf ].
Qed.

Lemma keeps_approvals_task task context :
  keeps_approvals (_execute_workflow_task rt task context).
Proof.
  unfold _execute_workflow_task, run_handler, _execute_approval_task.
  repeat first [ step_keeps | apply keeps_approvals_create | keeps_leaf ].
Qed.

Lemma keeps_approvals_run_tasks l context x :
  keeps_approvals (run_tasks rt (_execute_workflow_task rt) l context x).
Proof.
  revert x. induction l as [|[i task] rest IH]; intros x; simpl.
  - keeps_leaf.
  - unfold record_task.
    repeat first [ step_keeps | apply IH | apply keeps_approvals_task | keeps_leaf ].
Qed.

Lemma keeps_approvals_workflow workflow context :
  keeps_approvals (execute_workflow rt workflow context).
Proof.
  unfold execute_workflow, execute_workflow_with.
  repeat first [ step_keeps | apply keeps_approvals_run_tasks | keeps_leaf ].
Qed.

Lemma approvals_kept_operation s op : approvals_kept s (run_operation rt s op).
Proof.
  destruct op as [rule_id context| | |workflow context]; simpl.
  - apply keeps_approvals_evaluate.
  - apply keeps_approvals_inventory.
  - apply keeps_approvals_compliance.
  - apply keeps_approvals_workflow.
Qed.


End Approvals.

(** ** What an operation leaves alone *)

Section Frame.

Variable rt : PyRuntime.


(** The three layers of [safe_globals], as a name is looked up. *)
Lemma safe_globals_lookup context name :
  safe_globals context !! name
  = match business_functions !! name with
    | Some f => Some f
    | None =>
        match context !! name with
        | Some v => Some v
        | None => builtin_names !! name
        end
    end.
Proof.
  unfold safe_globals.
  destruct (business_functions !! name) as [f|] eqn:Hf.
  - exact (lookup_union_Some_l _ _ _ _ Hf).
  - rewrite (lookup_union_r _ _ _ Hf).
    destruct (context !! name) as [v|] eqn:Hv.
    + exact (lookup_union_Some_l _ _ _ _ Hv).
    + exact (lookup_union_r _ _ _ Hv).
Qed.

(** X17.  A context cannot replace a business function: the entries of the
    context under the names [is_weekend], [days_between], [is_supervisor]
    and [is_high_value] are overwritten before the condition is evaluated,
    so two contexts that agree on every other name give every condition the
    same value and the same effect. *)
Theorem context_cannot_replace_business_functions context context' cond s :
  (forall name, business_functions !! name = None -> context' !! name = context !! name) ->
  _evaluate_condition rt cond context' s = _evaluate_condition rt cond context s.
Proof.
  intros Hsame.
  assert (safe_globals context' = safe_globals context) as E.
  { apply map_eq. intros name. rewrite !safe_globals_lookup.
    destruct (business_functions !! name) eqn:Hf; [reflexivity|].
    now rewrite (Hsame name Hf). }
  unfold _evaluate_condition, eval_condition. now rewrite E.
Qed.

(** X18.  [days_between] on two datetimes returns a non-negative number of
    days and changes nothing.  It is symmetric when the two datetimes have
    the same time of day, where it is the difference of the dates; in
    general swapping the arguments changes the result by at most one day,
    because [timedelta.days] rounds towards minus infinity before [abs] is
    taken. *)
Theorem days_between_is_nearly_symmetric (a b : datetime) s :
  exists n m,
    days_between [VDate a; VDate b] s = (Ok (VInt n), s)
    /\ days_between [VDate b; VDate a] s = (Ok (VInt m), s)
    /\ 0 <= n
    /\ Z.abs (n - m) <= 1
    /\ (dt_micros a = dt_micros b -> n = Z.abs (dt_ordinal a - dt_ordinal b) /\ m = n).
Proof.
  eexists _, _. split; [reflexivity|]. split; [reflexivity|].
  unfold timedelta_days.
  set (D := micros_per_day).
  assert (0 < D) as HD by reflexivity.
  set (X := (dt_ordinal a - dt_ordinal b) * D + (dt_micros a - dt_micros b)).
  replace ((dt_ordinal b - dt_ordinal a) * D + (dt_micros b - dt_micros a))
    with (- X) by (unfold X; ring).
  split; [apply Z.abs_nonneg|]. split.
  - pose proof (Z.div_mod X D ltac:(lia)) as HX.
    pose proof (Z.mod_pos_bound X D HD) as Hr.
    pose proof (Z.div_mod (- X) D ltac:(lia)) as HY.
    pose proof (Z.mod_pos_bound (- X) D HD) as Hr'.
    assert (- X / D = - (X / D) \/ - X / D = - (X / D) - 1) as [E|E] by nia.
    + rewrite E. lia.
    + rewrite E. lia.
  - intros Hm. unfold X. rewrite Hm, Z.sub_diag, Z.add_0_r.
    rewrite <- Z.mul_opp_l, !Z.div_mul by lia.
    split; [reflexivity | lia].
Qed.

End Frame.

Lemma context_cannot_replace_business_functions_witness :
  _evaluate_condition example_runtime "is_weekend()"
    (<["is_weekend" := VBool true]> ∅) example_processor
  = _evaluate_condition example_runtime "is_weekend()" ∅ example_processor.
Proof.
  apply (context_cannot_replace_business_functions example_runtime).
  intros name Hname. apply lookup_insert_ne. intros <-. vm_compute in Hname. discriminate.
Defined.

(** A built-in has no such protection: a context that binds [len] changes
    what a condition calling [len] evaluates to. *)
Example context_can_replace_builtin :
  fst (eval_expr example_runtime (safe_globals (<["len" := VInt 3]> ∅))
         (EName "len") example_processor)
  = Ok (VInt 3)
  /\ fst (eval_expr example_runtime (safe_globals ∅) (EName "len") example_processor)
     = Ok (VFun (Builtin Blen)).
Proof. vm_compute. split; reflexivity. Qed.

(** ** The summary *)

(** The distribution loop counts: after the loop a key holds what it held
    before plus the number of its occurrences, and a key that does not
    occur is as it was. *)
Lemma bump_all_lookup keys d k :
  foldl (fun d key => bump key d) d keys !! k
  = if (occurrences k keys =? 0)%nat then d !! k
    else Some (default 0%nat (d !! k) + occurrences k keys)%nat.
Proof.
  revert d. induction keys as [|a keys IH]; intros d; [reflexivity|].
  cbn [foldl]. rewrite IH. unfold occurrences, bump. cbn [List.filter].
  destruct (String.eqb_spec k a) as [<-|Hne].
  - rewrite lookup_insert_eq. cbn [length].
    destruct (length (List.filter (String.eqb k) keys)) as [|n]; cbn [Nat.eqb].
    + simpl. now rewrite Nat.add_1_r.
    + simpl. now rewrite !Nat.add_succ_r.
  - rewrite lookup_insert_ne by congruence. reflexivity.
Qed.

Lemma count_values_lookup keys k :
  count_values keys !! k
  = if (occurrences k keys =? 0)%nat then None else Some (occurrences k keys).
Proof. unfold count_values. rewrite bump_all_lookup, lookup_empty. reflexivity. Qed.

Lemma remove_dups_length (l : list string) : (length (remove_dups l) <= length l)%nat.
Proof.
  induction l as [|a l IH]; simpl; [lia|].
  destruct (decide_rel elem_of a l); simpl; lia.
Qed.

Lemma remove_dups_nonempty (l : list string) : remove_dups l = [] -> l = [].
Proof.
  intros H. destruct l as [|a l]; [reflexivity|].
  assert (a ∈ remove_dups (a :: l)) as Ha by (apply elem_of_remove_dups; left).
  rewrite H in Ha. inversion Ha.
Qed.

Section Summary.

Variable rt : PyRuntime.

Lemma get_business_logic_summary_returns s :
  exists summary,
    get_business_logic_summary rt s = (Ok (ReportOk summary), set_clock_reads S s)
    /\ rule_types summary
       = count_values
           (map (fun rule => BusinessRuleType_value (rule_type rule))
              (map_to_list (business_rules s)).*2)
    /\ task_statuses summary
       = count_values (map (fun task => WorkflowStatus_value (status task))
                         (workflow_tasks s))
    /\ total_rules summary = size (business_rules s)
    /\ enabled_rules summary
       = length (List.filter enabled (map_to_list (business_rules s)).*2)
    /\ total_workflows summary = length (remove_dups (map workflow_id (workflow_tasks s)))
    /\ total_tasks summary = length (workflow_tasks s)
    /\ pending_approvals summary
       = length (List.filter (fun a => String.eqb (request_status a) "pending")
                   (map_to_list (approval_requests s)).*2)
    /\ total_requests summary = size (approval_requests s).
Proof. eexists. split; [reflexivity|]. repeat split. Qed.

(** X20.  The two distributions of the summary count: under each rule type
    the number of rules of the catalogue with that type, under each status
    the number of task objects with that status.  A type or status that no
    rule or task has is absent from the dictionary; it is not entered with
    zero. *)
Theorem summary_distributions_count s :
  exists summary,
    get_business_logic_summary rt s = (Ok (ReportOk summary), set_clock_reads S s)
    /\ (forall type,
          rule_types summary !! type
          = match occurrences type
                    (map (fun rule => BusinessRuleType_value (rule_type rule))
                       (map_to_list (business_rules s)).*2) with
            | O => None
            | n => Some n
            end)
    /\ (forall st,
          task_statuses summary !! st
          = match occurrences st
                    (map (fun task => WorkflowStatus_value (status task))
                       (workflow_tasks s)) with
            | O => None
            | n => Some n
            end).
Proof.
  destruct (get_business_logic_summary_returns s) as (summary & E & Hr & Ht & _).
  exists summary. split; [exact E|]. rewrite Hr, Ht.
  split; intros k; rewrite count_values_lookup; now destruct (occurrences _ _).
Qed.

(** X21.  The summary is a read-only report: it does not raise, it reads
    the clock once and changes nothing else.  Its totals are consistent:
    the enabled rules are among the rules, the pending requests among the
    requests, and there are at most as many workflows as tasks, with no
    workflow exactly when there is no task. *)
Theorem summary_is_consistent s :
  exists summary,
    get_business_logic_summary rt s = (Ok (ReportOk summary), set_clock_reads S s)
    /\ (enabled_rules summary <= total_rules summary)%nat
    /\ (pending_approvals summary <= total_requests summary)%nat
    /\ (total_workflows summary <= total_tasks summary)%nat
    /\ (total_workflows summary = 0%nat <-> total_tasks summary = 0%nat).
Proof.
  destruct (get_business_logic_summary_returns s)
    as (summary & E & _ & _ & Hr & He & Hw & Ht & Hp & Hq).
  exists summary. split; [exact E|]. rewrite Hr, He, Hw, Ht, Hp, Hq.
  split; [|split; [|split; [|split]]].
  - rewrite <- length_map_to_list, <- (length_fmap snd). apply filter_length_bound.
  - rewrite <- length_map_to_list, <- (length_fmap snd). apply filter_length_bound.
  - rewrite <- (length_map workflow_id). apply remove_dups_length.
  - intros H. apply length_zero_iff_nil in H. apply remove_dups_nonempty in H.
    apply (f_equal (@length _)) in H. now rewrite length_map in H.
  - intros H. apply length_zero_iff_nil in H. now rewrite H.
Qed.

End Summary.

(** ** The batches and the history *)

Lemma pass_ok_refl n t s : pass_ok n t t s s.
Proof.
  exists []. simpl. rewrite !app_nil_r.
  split; [reflexivity|]. split; [reflexivity|]. split; [lia | auto].
Qed.

Lemma pass_ok_trans n m t1 t2 t3 s1 s2 s3 :
  pass_ok n t1 t2 s1 s2 -> pass_ok m t2 t3 s2 s3 -> pass_ok (n + m) t1 t3 s1 s3.
Proof.
  intros (new1 & R1 & H1 & L1 & T1) (new2 & R2 & H2 & L2 & T2).
  exists (new1 ++ new2). rewrite R2, R1, H2, H1, List.filter_app, length_app, <- !app_assoc.
  split; [reflexivity|]. split; [reflexivity|]. split; [lia | auto].
Qed.

Lemma pass_ok_more n m t t' s s' : (n <= m)%nat -> pass_ok n t t' s s' -> pass_ok m t t' s s'.
Proof.
  intros Hle (new & R & H & L & T). exists new.
  split; [exact R|]. split; [exact H|]. split; [lia | exact T].
Qed.

Section BatchHistory.

Variable rt : PyRuntime.

Lemma evaluate_history rule_id context s r s' :
  evaluate_business_rule rt rule_id context s = (Ok r, s') ->
  rule_execution_history s'
  = rule_execution_history s ++ (if er_evaluated r then [r] else []).
Proof.
  destruct (business_rules s !! rule_id) as [rule|] eqn:H.
  2: { rewrite (evaluate_unknown rt _ _ _ H). intros [= <- <-]. simpl.
       now rewrite app_nil_r. }
  destruct (enabled rule) eqn:Hen.
  2: { rewrite (evaluate_disabled rt _ _ _ _ H Hen). intros [= <- <-]. simpl.
       now rewrite app_nil_r. }
  destruct (total_evaluate_condition rt (condition rule) context (set_clock_reads S s))
    as (b & s1 & Hc).
  pose proof (preserves_evaluate_condition rt rule_execution_history (condition rule)
                context (set_clock_reads S s)) as P1.
  rewrite Hc in P1. simpl in P1.
  destruct b.
  - destruct (total_execute_rule_action rt rule context s1) as (acts & s2 & Ha).
    pose proof (preserves_execute_rule_action rt rule_execution_history rule context s1)
      as P2.
    rewrite Ha in P2. simpl in P2.
    rewrite (evaluate_met rt _ _ _ _ _ _ _ H Hen Hc Ha).
    intros [= <- <-]. simpl. now rewrite P2, P1.
  - rewrite (evaluate_not_met rt _ _ _ _ _ H Hen Hc).
    intros [= <- <-]. simpl. now rewrite P1.
Qed.

(** One evaluation followed by [record_result] is a pass over one rule. *)
Lemma evaluate_pass rule_id context t s :
  exists r s',
    evaluate_business_rule rt rule_id context s = (Ok r, s')
    /\ pass_ok 1 t (record_result r t) s s'.
Proof.
  destruct (evaluate_result_one_action rt rule_id context s) as (r & s' & E & Hone).
  exists r, s'. split; [exact E|]. exists [r]. split; [reflexivity|].
  split; [|split; [simpl; lia | now apply tally_ok_record]].
  rewrite (evaluate_history _ _ _ _ _ E). simpl. now destruct (er_evaluated r).
Qed.

Lemma evaluate_relevant_rules_pass relevant_rules context t s :
  exists t' s',
    evaluate_relevant_rules rt relevant_rules context t s = (Ok t', s')
    /\ pass_ok (length relevant_rules) t t' s s'.
Proof.
  revert t s. induction relevant_rules as [|rule_id rest IH]; intros t s.
  - exists t, s. split; [reflexivity | apply pass_ok_refl].
  - cbn [evaluate_relevant_rules]. unfold bind at 1. unfold gets.
    destruct (business_rules s !! rule_id) as [rule|].
    + destruct (evaluate_pass rule_id context t s) as (r & s1 & E & P1).
      rewrite (bind_ok _ _ _ _ _ E).
      destruct (IH (record_result r t) s1) as (t' & s' & Erest & P2).
      exists t', s'. split; [exact Erest|].
      exact (pass_ok_trans _ _ _ _ _ _ _ _ P1 P2).
    + destruct (IH t s) as (t' & s' & Erest & P2).
      exists t', s'. split; [exact Erest|].
      eapply pass_ok_more; [|exact P2]. simpl. lia.
Qed.

Lemma work_order_rules_pass pct relevant_rules context t s :
  exists t' s',
    work_order_rules rt pct relevant_rules context t s = (Ok t', s')
    /\ pass_ok (length relevant_rules) t t' s s'.
Proof.
  revert context t s. induction relevant_rules as [|rule_id rest IH]; intros context t s.
  - exists t, s. split; [reflexivity | apply pass_ok_refl].
  - cbn [work_order_rules]. unfold bind at 1. unfold gets.
    destruct (business_rules s !! rule_id) as [rule|].
    + cbv zeta.
      match goal with |- context [evaluate_business_rule rt rule_id ?c] =>
        destruct (evaluate_pass rule_id c t s) as (r & s1 & E & P1);
        rewrite (bind_ok _ _ _ _ _ E);
        destruct (IH c (record_result r t) s1) as (t' & s' & Erest & P2)
      end.
      exists t', s'. split; [exact Erest|].
      exact (pass_ok_trans _ _ _ _ _ _ _ _ P1 P2).
    + destruct (IH context t s) as (t' & s' & Erest & P2).
      exists t', s'. split; [exact Erest|].
      eapply pass_ok_more; [|exact P2]. simpl. lia.
Qed.

Lemma process_items_pass l t s :
  exists t' s',
    process_items rt l t s = (Ok t', s')
    /\ pass_ok (3 * length l) t t' s s'.
Proof.
  revert t s. induction l as [|item rest IH]; intros t s.
  - exists t, s. split; [reflexivity | apply pass_ok_refl].
  - cbn [process_items]. unfold bind at 1. unfold gets.
    destruct (evaluate_relevant_rules_pass
                (item_relevant_rules (derivco_business_config s) item)
                (item_context (derivco_business_config s) item) t s)
      as (t1 & s1 & E & P1).
    rewrite (bind_ok _ _ _ _ _ E).
    destruct (IH t1 s1) as (t' & s' & Erest & P2).
    exists t', s'. split; [exact Erest|].
    eapply pass_ok_more; [|exact (pass_ok_trans _ _ _ _ _ _ _ _ P1 P2)].
    unfold item_relevant_rules. rewrite length_app. cbn [length].
    destruct (existsb _ _); simpl; lia.
Qed.

(** The way through the compliance batch when the engine is there. *)
Lemma process_compliance_pass s engine :
  analytics_engine s = Some engine ->
  exists t s' summary,
    process_compliance_business_rules rt s
    = (Ok (ReportOk
             {| pr_timestamp := isoformat rt (clock rt (clock_reads s));
                pr_rules_processed := rules_processed t;
                pr_rules_triggered := rules_triggered t;
                pr_actions_executed := actions_executed t;
                pr_rule_results := rule_results t;
                pr_summary := summary |}), s')
    /\ pass_ok 4 empty_tally t (set_clock_reads S s) s'.
Proof.
  intros He.
  assert (exists t1 s1,
            match work_order_metric engine with
            | Some wo_metric =>
                work_order_rules rt (compliance_percentage wo_metric) ["BR004"; "BR006"]
                  (list_to_map
                     [("compliance_type", VStr "work_order");
                      ("compliance_percentage", VFloat (compliance_percentage wo_metric));
                      ("target_percentage", VFloat 95);
                      ("risk_level", VStr (risk_level wo_metric))])
                  empty_tally
            | None => ret empty_tally
            end (set_clock_reads S s) = (Ok t1, s1)
            /\ pass_ok 2 empty_tally t1 (set_clock_reads S s) s1) as (t1 & s1 & E1 & P1).
  { destruct (work_order_metric engine) as [wo_metric|].
    - apply work_order_rules_pass.
    - eexists _, _. split; [reflexivity | apply pass_ok_refl]. }
  assert (exists t2 s2,
            match tool_return_metric engine with
            | Some return_metric =>
                evaluate_relevant_rules rt ["BR003"; "BR006"]
                  (list_to_map
                     [("compliance_type", VStr "tool_return");
                      ("compliance_percentage",
                       VFloat (compliance_percentage return_metric));
                      ("target_percentage", VFloat 95);
                      ("days_overdue", VInt 7)])
                  t1
            | None => ret t1
            end s1 = (Ok t2, s2)
            /\ pass_ok 2 t1 t2 s1 s2) as (t2 & s2 & E2 & P2).
  { destruct (tool_return_metric engine) as [return_metric|].
    - apply evaluate_relevant_rules_pass.
    - eexists _, _. split; [reflexivity | apply pass_ok_refl]. }
  exists t2, s2. eexists. split.
  - unfold process_compliance_business_rules. apply try_ok.
    unfold bind at 1. unfold gets at 1. rewrite He.
    unfold bind at 1. unfold datetime_now at 1.
    rewrite (bind_ok _ _ _ _ _ E1). rewrite (bind_ok _ _ _ _ _ E2). reflexivity.
  - exact (pass_ok_trans _ _ _ _ _ _ _ _ P1 P2).
Qed.

Lemma process_inventory_pass s manager :
  inventory_manager s = Some manager ->
  exists t s' summary,
    process_inventory_business_rules rt s
    = (Ok (ReportOk
             {| pr_timestamp := isoformat rt (clock rt (clock_reads s));
                pr_rules_processed := rules_processed t;
                pr_rules_triggered := rules_triggered t;
                pr_actions_executed := actions_executed t;
                pr_rule_results := rule_results t;
                pr_summary := summary |}), s')
    /\ pass_ok (3 * length (items manager)) empty_tally t (set_clock_reads S s) s'.
Proof.
  intros Hm.
  destruct (process_items_pass (items manager) empty_tally (set_clock_reads S s))
    as (t & s1 & E & P).
  exists t, s1. eexists. split; [|exact P].
  unfold process_inventory_business_rules. apply try_ok.
  unfold bind at 1. unfold gets at 1. rewrite Hm.
  unfold bind at 1. unfold datetime_now at 1.
  rewrite (bind_ok _ _ _ _ _ E). reflexivity.
Qed.

(** X22.  The rule execution history after a batch is the history before
    it followed by those results of the batch that were evaluated, in the
    order of the report: the result for a disabled rule is in the report
    but not in the history.  A batch that returns an error report adds
    nothing, and neither batch raises. *)
Theorem batch_results_enter_history s :
  match process_inventory_business_rules rt s with
  | (Ok (ReportOk report), s') =>
      rule_execution_history s'
      = rule_execution_history s ++ List.filter er_evaluated (pr_rule_results report)
  | (Ok (ReportError _), s') => rule_execution_history s' = rule_execution_history s
  | (Raise _, _) => False
  end
  /\ match process_compliance_business_rules rt s with
     | (Ok (ReportOk report), s') =>
         rule_execution_history s'
         = rule_execution_history s ++ List.filter er_evaluated (pr_rule_results report)
     | (Ok (ReportError _), s') => rule_execution_history s' = rule_execution_history s
     | (Raise _, _) => False
     end.
Proof.
  split.
  - destruct (inventory_manager s) as [manager|] eqn:Hm.
    + destruct (process_inventory_pass s manager Hm)
        as (t & s' & summary & E & new & R & H & _).
      rewrite E. cbn [pr_rule_results]. rewrite R. exact H.
    + unfold process_inventory_business_rules, try_except, bind, gets. now rewrite Hm.
  - destruct (analytics_engine s) as [engine|] eqn:He.
    + destruct (process_compliance_pass s engine He)
        as (t & s' & summary & E & new & R & H & _).
      rewrite E. cbn [pr_rule_results]. rewrite R. exact H.
    + unfold process_compliance_business_rules, try_except, bind, gets. now rewrite He.
Qed.

(** X23.  With an analytics engine in place the compliance batch returns a
    report of at most four results (BR004 and BR006 for the work order
    metric, BR003 and BR006 for the tool return metric) whose counters
    agree with them: every result is counted as processed, and there are as
    many actions as triggered rules. *)
Theorem compliance_batch_counts s engine :
  analytics_engine s = Some engine ->
  exists report s',
    process_compliance_business_rules rt s = (Ok (ReportOk report), s')
    /\ (length (pr_rule_results report) <= 4)%nat
    /\ pr_rules_processed report = Z.of_nat (length (pr_rule_results report))
    /\ pr_actions_executed report = pr_rules_triggered report
    /\ 0 <= pr_rules_triggered report <= pr_rules_processed report.
Proof.
  intros He.
  destruct (process_compliance_pass s engine He)
    as (t & s' & summary & E & new & R & _ & L & T).
  destruct (T tally_ok_empty) as (Hp & Ha & Ht).
  eexists _, _. split; [exact E|]. cbn [pr_rule_results pr_rules_processed
    pr_actions_executed pr_rules_triggered].
  split; [now rewrite R | auto].
Qed.

End BatchHistory.

Lemma compliance_batch_counts_witness :
  exists report s',
    process_compliance_business_rules example_runtime monitored_processor
    = (Ok (ReportOk report), s')
    /\ (length (pr_rule_results report) <= 4)%nat
    /\ pr_rules_processed report = Z.of_nat (length (pr_rule_results report))
    /\ pr_actions_executed report = pr_rules_triggered report
    /\ 0 <= pr_rules_triggered report <= pr_rules_processed report.
Proof.
  eapply (compliance_batch_counts example_runtime monitored_processor). reflexivity.
Defined.

(** On the example: four rules evaluated, three of them triggered. *)
Example compliance_batch_example :
  match fst (process_compliance_business_rules example_runtime monitored_processor) with
  | Ok (ReportOk report) =>
      (pr_rules_processed report, pr_rules_triggered report, pr_actions_executed report,
       map er_rule_id (pr_rule_results report))
  | _ => (0, 0, 0, [])
  end
  = (4, 3, 3, ["BR004"; "BR006"; "BR003"; "BR006"]).
Proof. vm_compute. reflexivity. Qed.
